(** * microservice-commons: a shallow embedding of the helper packages

    The Go packages [config], [database], [middleware], [responses], [server]
    and [types] are embedded as pure functions.  Conventions:

    - Go's [int] and [int64] are 64-bit two's-complement integers, carried
      as [Z] together with an explicit [GoInt.wrap] wherever the source does
      arithmetic on them;
    - a Go [string] is a byte sequence, carried as [string];
    - a Go [map] is a [gmap];
    - a method with a pointer receiver that assigns to its receiver returns
      the updated receiver next to its result;
    - [time.Now().UTC()] is the clock reading [now] handed to the function;
    - a call [c.JSON(status, obj)] is the pair [JSON status body] of the
      status and the marshalled object that the handler hands to gin;
      [Gin.Render] gives what gin (v1.9.1) and [net/http] send for it;
    - [router.GET(path, handler)] acts on the router, which is passed along
      ([Server.router_GET]). *)

From Stdlib Require Import ZArith Lia Bool String Ascii List.
From Stdlib Require SpecFloat.
From stdpp Require Import gmap strings list fin_maps.
Import ListNotations.

Local Open Scope string_scope.
Local Open Scope Z_scope.

(** ** Go integers and [strconv.Atoi] *)

Module GoInt.

Definition int_min : Z := - 2 ^ 63.
Definition int_max : Z := 2 ^ 63 - 1.

Definition in_int (z : Z) : Prop := int_min <= z <= int_max.

(** Two's-complement reduction of an exact result to the 64-bit range. *)
Definition wrap (z : Z) : Z := (z - int_min) mod 2 ^ 64 + int_min.

(** The two ways [strconv.Atoi] fails ([strconv.ErrSyntax], [strconv.ErrRange]). *)
Inductive NumError := ErrSyntax | ErrRange.

Definition digit_of (c : ascii) : option Z :=
  let n := Z.of_N (N_of_ascii c) in
  if (48 <=? n) && (n <=? 57) then Some (n - 48) else None.

Definition uint64_max : Z := 2 ^ 64 - 1.

(** The digit loop of [strconv.ParseUint] in base 10: a byte that is not a
    digit is a syntax error, a value beyond [uint64] a range error, whichever
    comes first. *)
Fixpoint parse_digits (n : Z) (s : string) : Z + NumError :=
  match s with
  | EmptyString => inl n
  | String c rest =>
      match digit_of c with
      | None => inr ErrSyntax
      | Some d =>
          if n * 10 + d >? uint64_max then inr ErrRange
          else parse_digits (n * 10 + d) rest
      end
  end.

Definition is_sign (c : ascii) : bool := (c =? "-")%char || (c =? "+")%char.

(** [strconv.Atoi] of the Go standard library: an optional sign, then one
    or more decimal digits and nothing else (base 10, so no underscores);
    the value has to fit in [int].  (The shortcut that [Atoi] takes for
    strings of fewer than 19 bytes returns the same results.) *)
Definition Atoi (s : string) : Z + NumError :=
  match s with
  | EmptyString => inr ErrSyntax
  | String c rest =>
      let body := if is_sign c then rest else s in
      match body with
      | EmptyString => inr ErrSyntax
      | _ =>
          match parse_digits 0 body with
          | inr e => inr e
          | inl n =>
              let v := if (c =? "-")%char then - n else n in
              if (int_min <=? v) && (v <=? int_max) then inl v else inr ErrRange
          end
      end
  end.

(** The decimal digits of [n >= 0], most significant first, in front of
    [acc]; [fuel] bounds their number. *)
Fixpoint format_digits (fuel : nat) (n : Z) (acc : string) : string :=
  match fuel with
  | O => acc
  | S fuel' =>
      let acc' := String (ascii_of_N (Z.to_N (48 + n mod 10))) acc in
      if n <? 10 then acc' else format_digits fuel' (n / 10) acc'
  end.

(** [strconv.Itoa]: a minus sign for a negative number, then the digits of
    its magnitude (a 64-bit integer has at most 19). *)
Definition Itoa (n : Z) : string :=
  if n <? 0 then String "-" (format_digits 20 (- n) "") else format_digits 20 n "".

End GoInt.

(** ** package types: [PaginationRequest] *)

Module Types.

Record PaginationRequest := mkPaginationRequest {
  Page : Z;
  PageSize : Z;
  SortBy : string;
  SortOrder : string
}.

Definition DefaultPaginationRequest : PaginationRequest :=
  {| Page := 1; PageSize := 10; SortBy := "created_at"; SortOrder := "desc" |}.

Definition set_Page (v : Z) (p : PaginationRequest) : PaginationRequest :=
  {| Page := v; PageSize := PageSize p; SortBy := SortBy p; SortOrder := SortOrder p |}.

Definition set_PageSize (v : Z) (p : PaginationRequest) : PaginationRequest :=
  {| Page := Page p; PageSize := v; SortBy := SortBy p; SortOrder := SortOrder p |}.

Definition set_SortOrder (v : string) (p : PaginationRequest) : PaginationRequest :=
  {| Page := Page p; PageSize := PageSize p; SortBy := SortBy p; SortOrder := v |}.

(** [func (p *PaginationRequest) Validate() error]: the four assignments
    in source order; the result is the returned error ([None] is [nil])
    and the receiver after the call. *)
Definition Validate (p : PaginationRequest) : option string * PaginationRequest :=
  let p := if Page p <? 1 then set_Page 1 p else p in
  let p := if PageSize p <? 1 then set_PageSize 10 p else p in
  let p := if PageSize p >? 100 then set_PageSize 100 p else p in
  let p :=
    if negb (String.eqb (SortOrder p) "asc") && negb (String.eqb (SortOrder p) "desc")
    then set_SortOrder "desc" p else p in
  (None, p).

Definition GetOffset (p : PaginationRequest) : Z :=
  GoInt.wrap ((Page p - 1) * PageSize p).

Definition GetLimit (p : PaginationRequest) : Z := PageSize p.

Module CursorPaginationRequest.
Record t := mk {
  Cursor : string;
  Limit : Z;
  SortBy : string;
  SortOrder : string
}.

Definition set_Limit (v : Z) (c : t) : t :=
  {| Cursor := Cursor c; Limit := v; SortBy := SortBy c; SortOrder := SortOrder c |}.

Definition set_SortOrder (v : string) (c : t) : t :=
  {| Cursor := Cursor c; Limit := Limit c; SortBy := SortBy c; SortOrder := v |}.

(** [func (c *CursorPaginationRequest) Validate() error]. *)
Definition Validate (c : t) : option string * t :=
  let c := if Limit c <? 1 then set_Limit 10 c else c in
  let c := if Limit c >? 100 then set_Limit 100 c else c in
  let c :=
    if negb (String.eqb (SortOrder c) "asc") && negb (String.eqb (SortOrder c) "desc")
    then set_SortOrder "desc" c else c in
  (None, c).
End CursorPaginationRequest.

(** [DefaultCursorPaginationRequest]. *)
Definition DefaultCursorPaginationRequest : CursorPaginationRequest.t :=
  {| CursorPaginationRequest.Cursor := "";
     CursorPaginationRequest.Limit := 10;
     CursorPaginationRequest.SortBy := "created_at";
     CursorPaginationRequest.SortOrder := "desc" |}.

End Types.

(** ** package config: [DatabaseConfig] *)

Module Config.

Record DatabaseConfig := mkDatabaseConfig {
  Host : string;
  Port : string;
  User : string;
  Password : string;
  DatabaseName : string;
  SSLMode : string;
  TimeZone : string;
  MaxIdleConns : Z;
  MaxOpenConns : Z;
  LogLevel : string
}.

(** [fmt.Errorf(msg)] and [fmt.Errorf(msg ++ ": %w", err)]. *)
Record error := Errorf { message : string; wrapped : option GoInt.NumError }.

Definition is_empty (s : string) : bool := String.eqb s "".

(** [func (dc *DatabaseConfig) Validate() error].  The receiver is only
    read; it is returned next to the error to make that a statement. *)
Definition Validate (dc : DatabaseConfig) : option error * DatabaseConfig :=
  let result :=
    if is_empty (Host dc) then Some (Errorf "database host is required" None)
    else if is_empty (Port dc) then Some (Errorf "database port is required" None)
    else
      match GoInt.Atoi (Port dc) with
      | inr err => Some (Errorf "database port must be a number" (Some err))
      | inl _ =>
          if is_empty (User dc) then Some (Errorf "database user is required" None)
          else if is_empty (Password dc) then Some (Errorf "database password is required" None)
          else if is_empty (DatabaseName dc) then Some (Errorf "database name is required" None)
          else if MaxIdleConns dc <? 0
            then Some (Errorf "max idle connections cannot be negative" None)
          else if MaxOpenConns dc <? 0
            then Some (Errorf "max open connections cannot be negative" None)
          else if (MaxOpenConns dc >? 0) && (MaxIdleConns dc >? MaxOpenConns dc)
            then Some (Errorf "max idle connections cannot exceed max open connections" None)
          else None
      end
  in (result, dc).

(** [ConnectionString]. *)
Definition ConnectionString (dc : DatabaseConfig) : string :=
  ("host=" ++ Host dc ++ " port=" ++ Port dc ++ " user=" ++ User dc
   ++ " password=" ++ Password dc ++ " dbname=" ++ DatabaseName dc
   ++ " sslmode=" ++ SSLMode dc ++ " TimeZone=" ++ TimeZone dc)%string.

(** [IsSSLEnabled]. *)
Definition IsSSLEnabled (dc : DatabaseConfig) : bool :=
  negb (String.eqb (SSLMode dc) "disable").

Definition validLevels : list string := ["silent"; "error"; "warn"; "info"].

(** [func (dc *DatabaseConfig) GetLogLevel() string]: the loop over
    [validLevels] returns at the first level equal to [dc.LogLevel]. *)
Definition GetLogLevel (dc : DatabaseConfig) : string :=
  if existsb (fun level => String.eqb (LogLevel dc) level) validLevels
  then LogLevel dc else "silent".

Module KeycloakConfig.
Record t := mk {
  URL : string;
  Realm : string;
  PublicKeyBase64 : string;
  RequiredClaims : list string;
  SkipPaths : list string;
  KeyRefreshInterval : Z;
  HTTPTimeout : Z
}.

(** [HasStaticKey]. *)
Definition HasStaticKey (kc : t) : bool := negb (String.eqb (PublicKeyBase64 kc) "").

(** [HasJWKS]. *)
Definition HasJWKS (kc : t) : bool :=
  negb (String.eqb (URL kc) "") && negb (String.eqb (Realm kc) "").

(** [func (kc *KeycloakConfig) Validate() error]. *)
Definition Validate (kc : t) : option string :=
  let hasStaticKey := negb (String.eqb (PublicKeyBase64 kc) "") in
  let hasJWKS := negb (String.eqb (URL kc) "") && negb (String.eqb (Realm kc) "") in
  if negb hasStaticKey && negb hasJWKS
  then Some "keycloak config must provide either PublicKeyBase64 or both URL and Realm"
  else if KeyRefreshInterval kc <=? 0 then Some "key refresh interval must be positive"
  else if HTTPTimeout kc <=? 0 then Some "HTTP timeout must be positive"
  else None.

(** [GetJWKSURL]. *)
Definition GetJWKSURL (kc : t) : string :=
  if negb (HasJWKS kc) then ""
  else (URL kc ++ "/realms/" ++ Realm kc ++ "/protocol/openid-connect/certs")%string.

(** [ShouldSkipPath]; [strings.HasPrefix(path, skipPath)] is
    [String.prefix skipPath path]. *)
Definition ShouldSkipPath (kc : t) (path : string) : bool :=
  existsb (fun skipPath => String.eqb path skipPath || String.prefix skipPath path)
          (SkipPaths kc).
End KeycloakConfig.

(** [type Config struct] of config/config.go. *)
Module AppConfig.
Record t := mk {
  Port : string;
  AllowedOrigins : list string;
  Database : DatabaseConfig;
  Keycloak : KeycloakConfig.t;
  LogLevel : string;
  Environment : string;
  ServiceName : string;
  ServiceVersion : string
}.

(** The errors of [Config.Validate]: its own, or one of a part wrapped with
    [%w]. *)
Inductive error :=
| Required (msg : string)
| DatabaseError (e : Config.error)
| KeycloakError (msg : string).

(** [func (c *Config) Validate() error]. *)
Definition Validate (c : t) : option error :=
  if String.eqb (Port c) "" then Some (Required "PORT is required")
  else if String.eqb (ServiceName c) "" then Some (Required "SERVICE_NAME is required")
  else
    match fst (Config.Validate (Database c)) with
    | Some err => Some (DatabaseError err)
    | None =>
        match KeycloakConfig.Validate (Keycloak c) with
        | Some err => Some (KeycloakError err)
        | None => None
        end
    end.

(** [IsDevelopment], [IsProduction], [IsStaging]. *)
Definition IsDevelopment (c : t) : bool :=
  String.eqb (Environment c) "dev" || String.eqb (Environment c) "development".

Definition IsProduction (c : t) : bool :=
  String.eqb (Environment c) "prod" || String.eqb (Environment c) "production".

Definition IsStaging (c : t) : bool := String.eqb (Environment c) "staging".
End AppConfig.

Module ValidationError.
Record t := mk {
  Field : string;
  Value : string;
  Message : string
}.

(** [func (e ValidationError) Error() string]. *)
Definition Error (e : t) : string :=
  ("validation error for field '" ++ Field e ++ "': " ++ Message e)%string.
End ValidationError.

(** [type Validator struct] of config/validation.go: the errors collected
    so far.  A method returns the validator it leaves behind. *)
Module Validator.
Record t := mk { errors : list ValidationError.t }.

(** [NewValidator]. *)
Definition NewValidator : t := {| errors := [] |}.

Definition add (v : t) (field value msg : string) : t :=
  {| errors := (errors v ++ [ValidationError.mk field value msg])%list |}.

(** [ValidatePort]. *)
Definition ValidatePort (v : t) (field value : string) : t :=
  if String.eqb value "" then v
  else
    match GoInt.Atoi value with
    | inr _ => add v field value "must be a valid port number"
    | inl port =>
        if (port <? 1) || (port >? 65535)
        then add v field value "port must be between 1 and 65535"
        else v
    end.

(** [ValidateOneOf]. *)
Definition ValidateOneOf (v : t) (field value : string) (allowed : list string) : t :=
  if String.eqb value "" then v
  else if existsb (fun allowedValue => String.eqb value allowedValue) allowed then v
  else add v field value ("must be one of: " ++ String.concat ", " allowed)%string.

(** [ValidateMinMax]. *)
Definition ValidateMinMax (v : t) (field value : string) (min max : Z) : t :=
  if String.eqb value "" then v
  else
    match GoInt.Atoi value with
    | inr _ => add v field value "must be a valid number"
    | inl num =>
        if (num <? min) || (num >? max)
        then add v field value
               ("must be between " ++ GoInt.Itoa min ++ " and " ++ GoInt.Itoa max)%string
        else v
    end.

(** [HasErrors] and [GetErrors]. *)
Definition HasErrors (v : t) : bool := (0 <? length (errors v))%nat.

Definition GetErrors (v : t) : list ValidationError.t := errors v.

Definition newline : string := String (ascii_of_nat 10) "".

(** [func (v *Validator) Error() error]. *)
Definition Error (v : t) : option string :=
  if negb (HasErrors v) then None
  else
    Some ("configuration validation failed:" ++ newline ++ "  - "
          ++ String.concat (newline ++ "  - ") (map ValidationError.Error (errors v)))%string.
End Validator.

(** [strings.Split(s, ",")]. *)
Fixpoint split_comma (s : string) : list string :=
  match s with
  | EmptyString => [EmptyString]
  | String c rest =>
      if (c =? ",")%char then EmptyString :: split_comma rest
      else
        match split_comma rest with
        | piece :: pieces => String c piece :: pieces
        | [] => [String c EmptyString]
        end
  end.

Section Parsing.

(** [strings.TrimSpace] of the Go standard library. *)
Variable TrimSpace : string -> string.

(** The loop shared by [parseOrigins] and [parseStringSlice]: the trimmed
    parts that are not empty. *)
Definition trimmed_parts (parts : list string) : list string :=
  List.filter (fun trimmed => negb (String.eqb trimmed "")) (map TrimSpace parts).

(** [parseOrigins]. *)
Definition parseOrigins (origins : string) : list string :=
  if String.eqb origins "" then ["http://localhost:3000"]
  else
    let result := trimmed_parts (split_comma origins) in
    if (length result =? 0)%nat then ["http://localhost:3000"] else result.

(** [parseStringSlice]. *)
Definition parseStringSlice (value : string) : list string :=
  if String.eqb value "" then []
  else trimmed_parts (split_comma value).

End Parsing.

End Config.

(** ** IEEE 754 binary64, as far as the pagination arithmetic uses it

    [float64(n)] of a 64-bit integer, the quotient of two such values,
    [math.Ceil] and the conversion back to [int].  All of these stay inside
    the normal range of binary64 (magnitudes between 2^-64 and 2^64), so the
    exponent is left unbounded and neither overflow nor subnormals occur. *)

Module Float64.

(** A finite value is [m * 2^e] with a signed mantissa (the sign of a zero
    is not kept: [int(-0.0)] is [0]). *)
Inductive float64 :=
| Fin (m e : Z)
| Inf (negative : bool)
| NaN.

(** Round-half-to-even of the quotient [N / D], for [0 <= N] and [0 < D]. *)
Definition rne (N D : Z) : Z :=
  let q := N / D in
  let r := N mod D in
  match 2 * r ?= D with
  | Lt => q
  | Gt => q + 1
  | Eq => if Z.even q then q else q + 1
  end.

(** [floor (log2 (n / d))] for positive [n] and [d]. *)
Definition log2_ratio (n d : Z) : Z :=
  let k := Z.log2 n - Z.log2 d in
  if n * 2 ^ Z.max 0 (- k) <? d * 2 ^ Z.max 0 k then k - 1 else k.

(** The binary64 nearest to [n / d] (positive [n], [d]): the exponent [e] of
    its last place, with [2^52 <= (n / d) / 2^e < 2^53], and the mantissa
    rounded at that place. *)
Definition round53 (n d : Z) : Z * Z :=
  let e := log2_ratio n d - 52 in
  (rne (n * 2 ^ Z.max 0 (- e)) (d * 2 ^ Z.max 0 e), e).

(** [float64(n)]: exact up to 2^53 in magnitude, rounded above. *)
Definition of_int (n : Z) : float64 :=
  if Z.abs n <=? 2 ^ 53 then Fin n 0
  else let '(m, e) := round53 (Z.abs n) 1 in Fin (Z.sgn n * m) e.

(** [x / y]. *)
Definition div (x y : float64) : float64 :=
  match x, y with
  | NaN, _ | _, NaN => NaN
  | Inf _, Inf _ => NaN
  | Inf s, Fin m _ => Inf (xorb s (m <? 0))
  | Fin _ _, Inf _ => Fin 0 0
  | Fin mx ex, Fin my ey =>
      if my =? 0 then (if mx =? 0 then NaN else Inf (mx <? 0))
      else if mx =? 0 then Fin 0 0
      else
        let '(m, e) := round53 (Z.abs mx) (Z.abs my) in
        Fin (Z.sgn mx * Z.sgn my * m) (e + ex - ey)
  end.

(** [math.Ceil]. *)
Definition Ceil (x : float64) : float64 :=
  match x with
  | Fin m e => if 0 <=? e then x else Fin (- ((- m) / 2 ^ (- e))) 0
  | _ => x
  end.

(** [int(x)]: truncation toward zero.  For a value outside the range of
    [int] (and for infinities and NaN) Go leaves the result to the
    implementation; amd64 gives the most negative integer. *)
Definition to_int (x : float64) : Z :=
  match x with
  | Fin m e =>
      let v := if 0 <=? e then m * 2 ^ e else Z.quot m (2 ^ (- e)) in
      if (GoInt.int_min <=? v) && (v <=? GoInt.int_max) then v else GoInt.int_min
  | _ => GoInt.int_min
  end.

(** The Standard Library's specification of IEEE 754 arithmetic, at the
    parameters of binary64, to compare the definitions above with. *)
Definition binary64_of_int (n : Z) : SpecFloat.spec_float :=
  SpecFloat.binary_normalize 53 1024 n 0 false.

Definition binary64_div (x y : SpecFloat.spec_float) : SpecFloat.spec_float :=
  SpecFloat.SFdiv 53 1024 x y.

(** Both denote the same number. *)
Definition same_value (x : SpecFloat.spec_float) (y : float64) : bool :=
  match x, y with
  | SpecFloat.S754_zero _, Fin m _ => m =? 0
  | SpecFloat.S754_finite s m e, Fin m' e' =>
      let lo := Z.min e e' in
      (if s then Z.neg m else Z.pos m) * 2 ^ (e - lo) =? m' * 2 ^ (e' - lo)
  | SpecFloat.S754_infinity s, Inf s' => Bool.eqb s s'
  | SpecFloat.S754_nan, NaN => true
  | _, _ => false
  end.

Definition agree (operands : Z * Z) : bool :=
  same_value (binary64_div (binary64_of_int (fst operands)) (binary64_of_int (snd operands)))
             (div (of_int (fst operands)) (of_int (snd operands))).

End Float64.

(** ** Dynamic values, marshalled objects and the Gin context *)

Module Gin.

(** A Go [interface{}] value ([VNil] is the nil interface), which is also
    what [encoding/json] writes for a field. *)
#[warnings="-register-all"]
Inductive value :=
| VNil
| VBool (b : bool)
| VInt (n : Z)
| VString (s : string)
| VTime (t : Z)
| VList (l : list value)
| VMap (l : list (string * value)).

(** A marshalled struct: its fields in declaration order. *)
Definition object := list (string * value).

Fixpoint json_get (key : string) (o : object) : option value :=
  match o with
  | [] => None
  | (k, v) :: rest => if String.eqb k key then Some v else json_get key rest
  end.

Definition json_keys (o : object) : list string := map fst o.

(** A field tagged [json:"name"]. *)
Definition field (name : string) (v : value) : object := [(name, v)].

(** A [string] field tagged [json:"name,omitempty"]. *)
Definition field_omitempty_string (name : string) (s : string) : object :=
  if String.eqb s "" then [] else [(name, VString s)].

(** An [interface{}] field tagged [json:"name,omitempty"]: left out when nil. *)
Definition field_omitempty_any (name : string) (v : value) : object :=
  match v with
  | VNil => []
  | _ => [(name, v)]
  end.

Definition is_nil (v : value) : bool :=
  match v with VNil => true | _ => false end.

(** What a handler reads of [*gin.Context]: [c.Request.URL.Path], the
    query string ([url.Values]) and the keys stored with [c.Set]. *)
Record Context := mkContext {
  RequestPath : string;
  QueryValues : gmap string (list string);
  Keys : gmap string value
}.

(** [c.Query(key)]: the first value of the parameter, or the empty string. *)
Definition Query (c : Context) (key : string) : string :=
  match QueryValues c !! key with
  | Some (v :: _) => v
  | _ => ""
  end.

(** [c.Get(key)]. *)
Definition Get (c : Context) (key : string) : value * bool :=
  match Keys c !! key with
  | Some v => (v, true)
  | None => (VNil, false)
  end.

(** The call [c.JSON(status, obj)]: the status and the object that the
    handler hands to gin.  What gin sends for it is [Render] below. *)
Record Response (A : Type) := JSON { Status : Z; Body : A }.
Arguments JSON {A} _ _.
Arguments Status {A} _.
Arguments Body {A} _.

Definition StatusOK : Z := 200.
Definition StatusServiceUnavailable : Z := 503.

(** What gin and [net/http] make of a call [c.JSON(code, obj)] on a
    context whose response nobody has touched yet (status 200, nothing
    written): the header and the JSON body, the header alone, or a panic. *)
Inductive reply (A : Type) :=
| Written (status : Z) (body : A)
| HeaderOnly (status : Z)
| Panics.
Arguments Written {A} _ _.
Arguments HeaderOnly {A} _.
Arguments Panics {A}.

(** gin's [responseWriter.WriteHeader(code)] on the status kept so far: a
    code that is not positive is ignored. *)
Definition WriteHeader (status code : Z) : Z :=
  if code >? 0 then code else status.

(** gin's [bodyAllowedForStatus]. *)
Definition bodyAllowedForStatus (status : Z) : bool :=
  if (100 <=? status) && (status <=? 199) then false
  else if status =? 204 then false
  else if status =? 304 then false
  else true.

(** [checkWriteHeaderCode] of [net/http] panics unless the code has three
    digits. *)
Definition checkWriteHeaderCode (code : Z) : bool :=
  (100 <=? code) && (code <=? 999).

(** gin's [Context.Render(code, render.JSON{obj})], which [c.JSON] calls:
    [c.Status(code)]; when the code allows no body, the header is written
    and nothing else; otherwise the body is written, and with it the
    header, which [net/http] refuses for a status outside 100..999. *)
Definition Render {A : Type} (r : Response A) : reply A :=
  let status := WriteHeader StatusOK (Status r) in
  if negb (bodyAllowedForStatus (Status r)) then HeaderOnly status
  else if checkWriteHeaderCode status then Written status (Body r)
  else Panics.

(** [strings.Split(s, "/")], the elements of a path. *)
Fixpoint split_slash (s : string) : list string :=
  match s with
  | EmptyString => [EmptyString]
  | String c rest =>
      if (c =? "/")%char then EmptyString :: split_slash rest
      else
        match split_slash rest with
        | piece :: pieces => String c piece :: pieces
        | [] => [String c EmptyString]
        end
  end.

(** One element in the loop of [path.Clean] on a rooted path, [kept] being
    the elements written so far, last one first: an empty element and [.]
    are skipped, [..] removes the last element written (if any). *)
Definition clean_step (kept : list string) (element : string) : list string :=
  if String.eqb element "" || String.eqb element "." then kept
  else if String.eqb element ".." then tl kept
  else element :: kept.

(** The elements [path.Clean] keeps. *)
Definition clean_elements (p : string) : list string :=
  rev (fold_left clean_step (split_slash p) []).

(** [path.Clean(p)] of the Go standard library for a path [p] that starts
    with a slash, the only case gin's engine needs. *)
Definition Clean (p : string) : string :=
  String "/" (String.concat "/" (clean_elements p)).

Fixpoint lastChar (s : string) : option ascii :=
  match s with
  | EmptyString => None
  | String c EmptyString => Some c
  | String _ rest => lastChar rest
  end.

Definition ends_with_slash (s : string) : bool :=
  match lastChar s with
  | Some c => (c =? "/")%char
  | None => false
  end.

(** gin's [joinPaths(absolutePath, relativePath)] for the base path ["/"] of
    the engine: [path.Join("/", relativePath)] is [path.Clean] of
    ["/" + "/" + relativePath]. *)
Definition joinPaths (relativePath : string) : string :=
  if String.eqb relativePath "" then "/"
  else
    let finalPath := Clean (String "/" (String "/" relativePath)) in
    if ends_with_slash relativePath && negb (ends_with_slash finalPath)
    then (finalPath ++ "/")%string
    else finalPath.

(** A path pattern with a parameter ([:name]) or a catch-all ([*name]). *)
Fixpoint has_wildcard (p : string) : bool :=
  match p with
  | EmptyString => false
  | String c rest => (c =? ":")%char || (c =? "*")%char || has_wildcard rest
  end.

End Gin.

(** ** package responses *)

Module Responses.
Import Gin.

Module PaginationResponse.
Record t := mk {
  Data : value;
  Total : Z;
  Page : Z;
  PageSize : Z;
  TotalPages : Z;
  HasNext : bool;
  HasPrev : bool;
  Timestamp : Z
}.
End PaginationResponse.

Module PaginationMeta.
Record t := mk {
  Total : Z;
  Page : Z;
  PageSize : Z;
  TotalPages : Z;
  HasNext : bool;
  HasPrev : bool
}.
End PaginationMeta.

Module PaginationParams.
Record t := mk {
  Page : Z;
  PageSize : Z;
  Offset : Z;
  Limit : Z
}.
End PaginationParams.

Definition DefaultPage : Z := 1.
Definition DefaultPageSize : Z := 10.
Definition MaxPageSize : Z := 100.

(** [CalculateTotalPages]: [int(math.Ceil(float64(total) / float64(pageSize)))]. *)
Definition CalculateTotalPages (total pageSize : Z) : Z :=
  Float64.to_int (Float64.Ceil (Float64.div (Float64.of_int total) (Float64.of_int pageSize))).

(** [Paginated]. *)
Definition Paginated (now : Z) (data : value) (total page pageSize : Z)
  : Response PaginationResponse.t :=
  let totalPages :=
    Float64.to_int (Float64.Ceil (Float64.div (Float64.of_int total) (Float64.of_int pageSize))) in
  JSON StatusOK
    {| PaginationResponse.Data := data;
       PaginationResponse.Total := total;
       PaginationResponse.Page := page;
       PaginationResponse.PageSize := pageSize;
       PaginationResponse.TotalPages := totalPages;
       PaginationResponse.HasNext := page <? totalPages;
       PaginationResponse.HasPrev := page >? 1;
       PaginationResponse.Timestamp := now |}.

(** [CreatePaginationMeta]. *)
Definition CreatePaginationMeta (total page pageSize : Z) : PaginationMeta.t :=
  let totalPages :=
    Float64.to_int (Float64.Ceil (Float64.div (Float64.of_int total) (Float64.of_int pageSize))) in
  {| PaginationMeta.Total := total;
     PaginationMeta.Page := page;
     PaginationMeta.PageSize := pageSize;
     PaginationMeta.TotalPages := totalPages;
     PaginationMeta.HasNext := page <? totalPages;
     PaginationMeta.HasPrev := page >? 1 |}.

(** [getIntParam]. *)
Definition getIntParam (c : Context) (key : string) (defaultValue : Z) : Z :=
  let param := Query c key in
  if String.eqb param "" then defaultValue
  else
    match GoInt.Atoi param with
    | inr _ => defaultValue
    | inl value => value
    end.

(** [GetPaginationParams]; [page - 1] and the product are Go [int]
    operations. *)
Definition GetPaginationParams (c : Context) : PaginationParams.t :=
  let page := getIntParam c "page" DefaultPage in
  let pageSize := getIntParam c "page_size" DefaultPageSize in
  let page := if page <? 1 then DefaultPage else page in
  let pageSize := if pageSize <? 1 then DefaultPageSize else pageSize in
  let pageSize := if pageSize >? MaxPageSize then MaxPageSize else pageSize in
  let offset := GoInt.wrap (GoInt.wrap (page - 1) * pageSize) in
  {| PaginationParams.Page := page;
     PaginationParams.PageSize := pageSize;
     PaginationParams.Offset := offset;
     PaginationParams.Limit := pageSize |}.

(** [CalculateOffset]. *)
Definition CalculateOffset (page pageSize : Z) : Z :=
  GoInt.wrap (GoInt.wrap (page - 1) * pageSize).

Module ErrorResponse.
Record t := mk {
  Error : string;
  Code : string;
  Details : string;
  Timestamp : Z;
  Path : string;
  RequestID : string;
  Metadata : value
}.

(** The struct tags of [ErrorResponse]. *)
Definition marshal (r : t) : object :=
  (field "error" (VString (Error r))
   ++ field "code" (VString (Code r))
   ++ field_omitempty_string "details" (Details r)
   ++ field "timestamp" (VTime (Timestamp r))
   ++ field_omitempty_string "path" (Path r)
   ++ field_omitempty_string "request_id" (RequestID r)
   ++ field_omitempty_any "metadata" (Metadata r))%list.

Definition set_RequestID (id : string) (r : t) : t :=
  {| Error := Error r; Code := Code r; Details := Details r; Timestamp := Timestamp r;
     Path := Path r; RequestID := id; Metadata := Metadata r |}.
End ErrorResponse.

Module APIError.
Record t := mk {
  StatusCode : Z;
  Code : string;
  Message : string;
  Details : string;
  Metadata : value
}.
End APIError.

Module SuccessResponse.
Record t := mk {
  Message : string;
  Data : value;
  Timestamp : Z
}.

(** The struct tags of [SuccessResponse]. *)
Definition marshal (r : t) : object :=
  (field "message" (VString (Message r))
   ++ field_omitempty_any "data" (Data r)
   ++ field "timestamp" (VTime (Timestamp r)))%list.
End SuccessResponse.

(** The block "Add request ID if available" that every error helper
    repeats: the key has to exist and to hold a [string]. *)
Definition addRequestID (c : Context) (response : ErrorResponse.t) : ErrorResponse.t :=
  match Get c "request_id" with
  | (requestID, true) =>
      match requestID with
      | VString id => ErrorResponse.set_RequestID id response
      | _ => response
      end
  | (_, false) => response
  end.

(** [Error]: the envelope and the call [c.JSON(status, response)] it ends
    with; [Gin.Render] gives what gin sends for that call. *)
Definition Error (now : Z) (c : Context) (status : Z) (code message : string)
  : Response object :=
  let response :=
    {| ErrorResponse.Error := message;
       ErrorResponse.Code := code;
       ErrorResponse.Details := "";
       ErrorResponse.Timestamp := now;
       ErrorResponse.Path := RequestPath c;
       ErrorResponse.RequestID := "";
       ErrorResponse.Metadata := VNil |} in
  let response := addRequestID c response in
  JSON status (ErrorResponse.marshal response).

(** [HandleAPIError]: the call [c.JSON(err.StatusCode, response)] it ends
    with; [Gin.Render] gives what gin sends for that call. *)
Definition HandleAPIError (now : Z) (c : Context) (err : APIError.t) : Response object :=
  let response :=
    {| ErrorResponse.Error := APIError.Message err;
       ErrorResponse.Code := APIError.Code err;
       ErrorResponse.Details := APIError.Details err;
       ErrorResponse.Timestamp := now;
       ErrorResponse.Path := RequestPath c;
       ErrorResponse.RequestID := "";
       ErrorResponse.Metadata := APIError.Metadata err |} in
  let response := addRequestID c response in
  JSON (APIError.StatusCode err) (ErrorResponse.marshal response).

(** [Success]. *)
Definition Success (now : Z) (message : string) (data : value) : Response object :=
  let response :=
    {| SuccessResponse.Message := message;
       SuccessResponse.Data := data;
       SuccessResponse.Timestamp := now |} in
  JSON StatusOK (SuccessResponse.marshal response).

(** [OK]: "a simple 200 OK response with just a message". *)
Definition OK (now : Z) (message : string) : Response object :=
  Success now message VNil.

(** The [net/http] status codes the helpers use. *)
Definition StatusCreated : Z := 201.
Definition StatusAccepted : Z := 202.
Definition StatusBadRequest : Z := 400.
Definition StatusUnauthorized : Z := 401.
Definition StatusForbidden : Z := 403.
Definition StatusNotFound : Z := 404.
Definition StatusMethodNotAllowed : Z := 405.
Definition StatusConflict : Z := 409.
Definition StatusUnprocessableEntity : Z := 422.
Definition StatusTooManyRequests : Z := 429.
Definition StatusInternalServerError : Z := 500.
Definition StatusBadGateway : Z := 502.

(** The error codes. *)
Definition ErrCodeBadRequest : string := "bad_request".
Definition ErrCodeUnauthorized : string := "unauthorized".
Definition ErrCodeForbidden : string := "forbidden".
Definition ErrCodeNotFound : string := "not_found".
Definition ErrCodeMethodNotAllowed : string := "method_not_allowed".
Definition ErrCodeConflict : string := "conflict".
Definition ErrCodeUnprocessableEntity : string := "unprocessable_entity".
Definition ErrCodeTooManyRequests : string := "too_many_requests".
Definition ErrCodeInternalError : string := "internal_error".
Definition ErrCodeServiceUnavailable : string := "service_unavailable".
Definition ErrCodeValidationFailed : string := "validation_failed".
Definition ErrCodeDatabaseError : string := "database_error".
Definition ErrCodeExternalServiceError : string := "external_service_error".

(** [ErrorWithDetails]: the call of [c.JSON] it ends with. *)
Definition ErrorWithDetails (now : Z) (c : Context) (status : Z)
    (code message details : string) : Response object :=
  let response :=
    {| ErrorResponse.Error := message;
       ErrorResponse.Code := code;
       ErrorResponse.Details := details;
       ErrorResponse.Timestamp := now;
       ErrorResponse.Path := RequestPath c;
       ErrorResponse.RequestID := "";
       ErrorResponse.Metadata := VNil |} in
  let response := addRequestID c response in
  JSON status (ErrorResponse.marshal response).

(** [ErrorWithMetadata]: the call of [c.JSON] it ends with. *)
Definition ErrorWithMetadata (now : Z) (c : Context) (status : Z)
    (code message : string) (metadata : value) : Response object :=
  let response :=
    {| ErrorResponse.Error := message;
       ErrorResponse.Code := code;
       ErrorResponse.Details := "";
       ErrorResponse.Timestamp := now;
       ErrorResponse.Path := RequestPath c;
       ErrorResponse.RequestID := "";
       ErrorResponse.Metadata := metadata |} in
  let response := addRequestID c response in
  JSON status (ErrorResponse.marshal response).

(** The helpers with a fixed status and code. *)
Definition BadRequest (now : Z) (c : Context) (message : string) : Response object :=
  Error now c StatusBadRequest ErrCodeBadRequest message.

Definition BadRequestWithDetails (now : Z) (c : Context) (message details : string)
  : Response object :=
  ErrorWithDetails now c StatusBadRequest ErrCodeBadRequest message details.

Definition Unauthorized (now : Z) (c : Context) (message : string) : Response object :=
  Error now c StatusUnauthorized ErrCodeUnauthorized message.

Definition Forbidden (now : Z) (c : Context) (message : string) : Response object :=
  Error now c StatusForbidden ErrCodeForbidden message.

Definition NotFound (now : Z) (c : Context) (message : string) : Response object :=
  Error now c StatusNotFound ErrCodeNotFound message.

Definition MethodNotAllowed (now : Z) (c : Context) (message : string) : Response object :=
  Error now c StatusMethodNotAllowed ErrCodeMethodNotAllowed message.

Definition Conflict (now : Z) (c : Context) (message : string) : Response object :=
  Error now c StatusConflict ErrCodeConflict message.

Definition UnprocessableEntity (now : Z) (c : Context) (message : string) : Response object :=
  Error now c StatusUnprocessableEntity ErrCodeUnprocessableEntity message.

Definition TooManyRequests (now : Z) (c : Context) (message : string) : Response object :=
  Error now c StatusTooManyRequests ErrCodeTooManyRequests message.

Definition InternalError (now : Z) (c : Context) (message : string) : Response object :=
  Error now c StatusInternalServerError ErrCodeInternalError message.

Definition ServiceUnavailable (now : Z) (c : Context) (message : string) : Response object :=
  Error now c StatusServiceUnavailable ErrCodeServiceUnavailable message.

Definition ValidationError (now : Z) (c : Context) (message : string)
    (validationErrors : value) : Response object :=
  ErrorWithMetadata now c StatusBadRequest ErrCodeValidationFailed message validationErrors.

Definition DatabaseError (now : Z) (c : Context) (message : string) : Response object :=
  Error now c StatusInternalServerError ErrCodeDatabaseError message.

Definition ExternalServiceError (now : Z) (c : Context) (message : string) : Response object :=
  Error now c StatusBadGateway ErrCodeExternalServiceError message.

(** [NewAPIError], [NewAPIErrorWithDetails], [NewAPIErrorWithMetadata]. *)
Definition NewAPIError (statusCode : Z) (code message : string) : APIError.t :=
  {| APIError.StatusCode := statusCode; APIError.Code := code;
     APIError.Message := message; APIError.Details := ""; APIError.Metadata := VNil |}.

Definition NewAPIErrorWithDetails (statusCode : Z) (code message details : string)
  : APIError.t :=
  {| APIError.StatusCode := statusCode; APIError.Code := code;
     APIError.Message := message; APIError.Details := details;
     APIError.Metadata := VNil |}.

Definition NewAPIErrorWithMetadata (statusCode : Z) (code message : string)
    (metadata : value) : APIError.t :=
  {| APIError.StatusCode := statusCode; APIError.Code := code;
     APIError.Message := message; APIError.Details := ""; APIError.Metadata := metadata |}.

(** The common error constructors. *)
Definition NewBadRequestError (message : string) : APIError.t :=
  NewAPIError StatusBadRequest ErrCodeBadRequest message.

Definition NewUnauthorizedError (message : string) : APIError.t :=
  NewAPIError StatusUnauthorized ErrCodeUnauthorized message.

Definition NewForbiddenError (message : string) : APIError.t :=
  NewAPIError StatusForbidden ErrCodeForbidden message.

Definition NewNotFoundError (message : string) : APIError.t :=
  NewAPIError StatusNotFound ErrCodeNotFound message.

Definition NewConflictError (message : string) : APIError.t :=
  NewAPIError StatusConflict ErrCodeConflict message.

Definition NewValidationError (message : string) (validationErrors : value) : APIError.t :=
  NewAPIErrorWithMetadata StatusBadRequest ErrCodeValidationFailed message validationErrors.

Definition NewInternalError (message : string) : APIError.t :=
  NewAPIError StatusInternalServerError ErrCodeInternalError message.

(** A Go [error] as [HandleError] tells them apart: an [*APIError], or any
    other error with its [Error()] text. *)
Inductive error :=
| IsAPIError (e : APIError.t)
| OtherError (text : string).

(** [HandleError]. *)
Definition HandleError (now : Z) (c : Context) (err : error) : Response object :=
  match err with
  | IsAPIError apiErr => HandleAPIError now c apiErr
  | OtherError text => InternalError now c text
  end.

(** [SuccessWithStatus], [Created], [Accepted]. *)
Definition SuccessWithStatus (now : Z) (status : Z) (message : string) (data : value)
  : Response object :=
  let response :=
    {| SuccessResponse.Message := message;
       SuccessResponse.Data := data;
       SuccessResponse.Timestamp := now |} in
  JSON status (SuccessResponse.marshal response).

Definition Created (now : Z) (message : string) (data : value) : Response object :=
  SuccessWithStatus now StatusCreated message data.

Definition Accepted (now : Z) (message : string) (data : value) : Response object :=
  SuccessWithStatus now StatusAccepted message data.

(** [Data] and [Message]: a [gin.H] is written with its keys sorted, and a
    nil value of a map is written as [null]. *)
Definition Data (now : Z) (data : value) : Response object :=
  JSON StatusOK [("data", data); ("timestamp", VTime now)].

Definition Message (now : Z) (message : string) : Response object :=
  JSON StatusOK [("message", VString message); ("timestamp", VTime now)].

(** [PaginatedWithStatus]. *)
Definition PaginatedWithStatus (now : Z) (status : Z) (data : value)
    (total page pageSize : Z) : Response PaginationResponse.t :=
  let totalPages :=
    Float64.to_int (Float64.Ceil (Float64.div (Float64.of_int total) (Float64.of_int pageSize))) in
  JSON status
    {| PaginationResponse.Data := data;
       PaginationResponse.Total := total;
       PaginationResponse.Page := page;
       PaginationResponse.PageSize := pageSize;
       PaginationResponse.TotalPages := totalPages;
       PaginationResponse.HasNext := page <? totalPages;
       PaginationResponse.HasPrev := page >? 1;
       PaginationResponse.Timestamp := now |}.

(** [GetPaginationParamsWithDefaults]. *)
Definition GetPaginationParamsWithDefaults (c : Context)
    (defaultPage defaultPageSize maxPageSize : Z) : PaginationParams.t :=
  let page := getIntParam c "page" defaultPage in
  let pageSize := getIntParam c "page_size" defaultPageSize in
  let page := if page <? 1 then defaultPage else page in
  let pageSize := if pageSize <? 1 then defaultPageSize else pageSize in
  let pageSize := if pageSize >? maxPageSize then maxPageSize else pageSize in
  let offset := GoInt.wrap (GoInt.wrap (page - 1) * pageSize) in
  {| PaginationParams.Page := page;
     PaginationParams.PageSize := pageSize;
     PaginationParams.Offset := offset;
     PaginationParams.Limit := pageSize |}.

(** [ValidatePaginationParams]. *)
Definition ValidatePaginationParams (page pageSize : Z) : option APIError.t :=
  if page <? 1 then Some (NewBadRequestError "Page must be greater than 0")
  else if pageSize <? 1 then Some (NewBadRequestError "Page size must be greater than 0")
  else if pageSize >? MaxPageSize
  then Some (NewBadRequestError
               ("Page size cannot exceed " ++ GoInt.Itoa MaxPageSize)%string)
  else None.

(** [GetCursorParams]. *)
Definition GetCursorParams (c : Context) : string * Z :=
  let cursor := Query c "cursor" in
  let limit := getIntParam c "limit" DefaultPageSize in
  let limit := if limit >? MaxPageSize then MaxPageSize else limit in
  (cursor, limit).

(** [EmptyPaginatedResponse]: [[]interface{}{}] is the empty list. *)
Definition EmptyPaginatedResponse (now : Z) (page pageSize : Z)
  : Response PaginationResponse.t :=
  Paginated now (VList []) 0 page pageSize.

Module PaginationLinks.
Record t := mk {
  Self : string;
  First : string;
  Last : string;
  Next : string;
  Prev : string
}.

(** The struct tags of [PaginationLinks]: every field is [omitempty]. *)
Definition marshal (l : t) : object :=
  (field_omitempty_string "self" (Self l)
   ++ field_omitempty_string "first" (First l)
   ++ field_omitempty_string "last" (Last l)
   ++ field_omitempty_string "next" (Next l)
   ++ field_omitempty_string "prev" (Prev l))%list.
End PaginationLinks.

(** [buildURL]. *)
Definition buildURL (baseURL : string) (page pageSize : Z) : string :=
  (baseURL ++ "?page=" ++ GoInt.Itoa page ++ "&page_size=" ++ GoInt.Itoa pageSize)%string.

(** The [gin.H] of [PaginatedWithLinks]. *)
Module LinkedResponse.
Record t := mk {
  Data : value;
  Links : PaginationLinks.t;
  Meta : PaginationMeta.t;
  Timestamp : Z
}.
End LinkedResponse.

(** [PaginatedWithLinks]; [page + 1] and [page - 1] are Go [int]
    operations. *)
Definition PaginatedWithLinks (now : Z) (data : value) (total page pageSize : Z)
    (baseURL : string) : Response LinkedResponse.t :=
  let totalPages :=
    Float64.to_int (Float64.Ceil (Float64.div (Float64.of_int total) (Float64.of_int pageSize))) in
  let next :=
    if page <? totalPages then buildURL baseURL (GoInt.wrap (page + 1)) pageSize else "" in
  let prev :=
    if page >? 1 then buildURL baseURL (GoInt.wrap (page - 1)) pageSize else "" in
  let links :=
    {| PaginationLinks.Self := buildURL baseURL page pageSize;
       PaginationLinks.First := buildURL baseURL 1 pageSize;
       PaginationLinks.Last := buildURL baseURL totalPages pageSize;
       PaginationLinks.Next := next;
       PaginationLinks.Prev := prev |} in
  JSON StatusOK
    {| LinkedResponse.Data := data;
       LinkedResponse.Links := links;
       LinkedResponse.Meta := CreatePaginationMeta total page pageSize;
       LinkedResponse.Timestamp := now |}.

End Responses.

(** ** package database: [ConnectionManager.Connect] *)

Module Database.

(** What [Connect] does to the outside, in order: a call of
    [pgconnect.New] (with the loop counter at the call) and a
    [time.Sleep].  The progress lines written with [fmt.Printf] are not
    recorded, and neither is the [db] field of the manager, which receives
    whatever the connector returned last. *)
Inductive event :=
| Attempt (attempt : Z)
| Slept (d : Z).

Definition is_attempt (ev : event) : bool :=
  match ev with Attempt _ => true | Slept _ => false end.

Definition is_sleep (ev : event) : bool :=
  match ev with Attempt _ => false | Slept _ => true end.

Definition attempts (tr : list event) : nat := length (List.filter is_attempt tr).

Definition sleeps (tr : list event) : nat := length (List.filter is_sleep tr).

(** [fmt.Errorf("failed to connect to database after %d attempts: %w",
    maxRetries, err)]. *)
Record ConnectError (Err : Type) := mkConnectError {
  attempts_reported : Z;
  cause : option Err
}.
Arguments mkConnectError {Err} _ _.
Arguments attempts_reported {Err} _.
Arguments cause {Err} _.

(** The variables of the retry loop. *)
Record state (Err : Type) := mkState {
  attempt : Z;
  calls : nat;
  err : option Err;
  trace : list event
}.
Arguments mkState {Err} _ _ _ _.
Arguments attempt {Err} _.
Arguments calls {Err} _.
Arguments err {Err} _.
Arguments trace {Err} _.

(** The loop is still running, or [Connect] has returned [(db, err)]. *)
Inductive progress (DB Err : Type) :=
| Running (s : state Err)
| Returned (db : option DB) (e : option (ConnectError Err)) (tr : list event).
Arguments Running {DB Err} _.
Arguments Returned {DB Err} _ _ _.

Section Connect.
Context {DB Err : Type}.

(** The third-party connector: the outcome of the [n]-th call (counted from
    0) of [pgconnect.New]. *)
Variable pgconnect_New : nat -> DB + Err.

(** [utils.GetEnvInt("DB_MAX_RETRIES", 3)] and the duration made of
    [utils.GetEnvInt("DB_RETRY_DELAY_SECONDS", 30)]. *)
Variables maxRetries retryDelay : Z.

(** One pass through [for attempt := 1; attempt <= maxRetries; attempt++],
    or the [return] after the loop. *)
Definition step (s : state Err) : progress DB Err :=
  if attempt s <=? maxRetries then
    let tr := (trace s ++ [Attempt (attempt s)])%list in
    match pgconnect_New (calls s) with
    | inl db => Returned (Some db) None tr
    | inr e =>
        let tr := if attempt s <? maxRetries then (tr ++ [Slept retryDelay])%list else tr in
        Running {| attempt := GoInt.wrap (attempt s + 1);
                   calls := S (calls s);
                   err := Some e;
                   trace := tr |}
    end
  else Returned None (Some (mkConnectError maxRetries (err s))) (trace s).

Fixpoint run (fuel : nat) (s : state Err) : progress DB Err :=
  match fuel with
  | O => Running s
  | S fuel' =>
      match step s with
      | Running s' => run fuel' s'
      | r => r
      end
  end.

Definition Connect (fuel : nat) : progress DB Err :=
  run fuel {| attempt := 1; calls := 0; err := None; trace := [] |}.

End Connect.

(** [k] attempts numbered from 1, a sleep of [d] after each but the last. *)
Definition schedule (k : nat) (d : Z) : list event :=
  (flat_map (fun j => [Attempt (Z.of_nat j + 1); Slept d]) (seq 0 (k - 1))
   ++ [Attempt (Z.of_nat k)])%list.

Definition failed {DB Err : Type} (outcome : DB + Err) : Prop :=
  match outcome with inl _ => False | inr _ => True end.

(** [i] failed attempts, each followed by its sleep. *)
Definition failures (i : nat) (d : Z) : list event :=
  flat_map (fun j => [Attempt (Z.of_nat j + 1); Slept d]) (seq 0 i).

(** What [Connect] has to return after [k] attempts: the first [k - 1]
    failed; either the last one succeeded and its connection is returned
    without an error, or it failed as well, [k] is [maxRetries], and the
    error wraps that last failure. *)
Definition outcome {DB Err : Type} (pgconnect_New : nat -> DB + Err) (maxRetries : Z)
    (k : nat) (db : option DB) (e : option (ConnectError Err)) : Prop :=
  (1 <= k)%nat /\ Z.of_nat k <= maxRetries /\
  (forall j, (j < k - 1)%nat -> failed (pgconnect_New j)) /\
  match db with
  | Some conn => pgconnect_New (k - 1)%nat = inl conn /\ e = None
  | None =>
      Z.of_nat k = maxRetries /\
      exists cause,
        pgconnect_New (k - 1)%nat = inr cause /\
        e = Some (mkConnectError maxRetries (Some cause))
  end.

(** What [MustConnect] does: it returns the connection, it panics, or the
    loop inside is still running when the fuel is used up. *)
Inductive must (DB : Type) :=
| Connected (db : option DB)
| Panicked
| Unfinished.
Arguments Connected {DB} _.
Arguments Panicked {DB}.
Arguments Unfinished {DB}.

Section Callers.
Context {DB Err : Type}.
Variable pgconnect_New : nat -> DB + Err.
Variables maxRetries retryDelay : Z.

(** [ConnectWithConfig]: a new manager, and [Connect] on it. *)
Definition ConnectWithConfig (fuel : nat) : progress DB Err :=
  Connect pgconnect_New maxRetries retryDelay fuel.

(** [MustConnect]. *)
Definition MustConnect (fuel : nat) : must DB :=
  match ConnectWithConfig fuel with
  | Returned db (Some _) _ => Panicked
  | Returned db None _ => Connected db
  | Running _ => Unfinished
  end.

End Callers.

(** *** database/migration.go *)

Record MigrationOptions := mkMigrationOptions {
  DropTables : bool;
  CreateIndexes : bool;
  Verbose : bool
}.

(** [DefaultMigrationOptions]. *)
Definition DefaultMigrationOptions : MigrationOptions :=
  {| DropTables := false; CreateIndexes := true; Verbose := true |}.

(** A call on the database, in the order [Migrate] makes them. *)
Inductive dbcall (Model : Type) :=
| DropTable (model : Model)
| AutoMigrate (models : list Model)
| Exec (sql : string).
Arguments DropTable {Model} _.
Arguments AutoMigrate {Model} _.
Arguments Exec {Model} _.

(** The errors of [Migrate]. *)
Inductive MigrateError (Err : Type) :=
| NoModels
| MigrationFailed (cause : Err).
Arguments NoModels {Err}.
Arguments MigrationFailed {Err} _.

(** The statements of [createIndexes]. *)
Definition index_statements : list string :=
  ["CREATE INDEX IF NOT EXISTS idx_created_at ON base_projects(created_at);";
   "CREATE INDEX IF NOT EXISTS idx_updated_at ON base_projects(updated_at);";
   "CREATE INDEX IF NOT EXISTS idx_owner_id ON base_projects(owner_id);";
   "CREATE INDEX IF NOT EXISTS idx_company_id ON base_projects(company_id);";
   "CREATE INDEX IF NOT EXISTS idx_status ON base_projects(status);";
   "CREATE INDEX IF NOT EXISTS idx_company_members_user ON company_members(user_id);";
   "CREATE INDEX IF NOT EXISTS idx_company_members_company ON company_members(company_id);";
   "CREATE INDEX IF NOT EXISTS idx_company_members_status ON company_members(status);";
   "CREATE INDEX IF NOT EXISTS idx_project_members_user ON project_members(user_id);";
   "CREATE INDEX IF NOT EXISTS idx_project_members_project ON project_members(project_id);"].

Section Migrator.
Context {Model Err : Type}.

(** The database: the error, if any, of the [n]-th call (counted from 0)
    that [Migrate] makes. *)
Variable db : nat -> option Err.

(** A run of calls starting as the [first] one: each call with a flag that
    tells whether it failed (and a warning was printed). *)
Fixpoint perform (first : nat) (calls : list (dbcall Model))
  : list (dbcall Model * bool) :=
  match calls with
  | [] => []
  | call :: rest =>
      (call, match db first with Some _ => true | None => false end)
      :: perform (S first) rest
  end.

(** [func (m *Migrator) Migrate() error] on the models added so far: the
    error and the calls made.  The lines printed when [Verbose] is set are
    left out. *)
Definition Migrate (options : MigrationOptions) (models : list Model)
  : option (MigrateError Err) * list (dbcall Model * bool) :=
  match models with
  | [] => (Some NoModels, [])
  | _ =>
      let drops := if DropTables options then map DropTable models else [] in
      let dropped := perform 0 drops in
      let at_migrate := length drops in
      match db at_migrate with
      | Some err =>
          (Some (MigrationFailed err), (dropped ++ [(AutoMigrate models, true)])%list)
      | None =>
          let indexes :=
            if CreateIndexes options then map Exec index_statements else [] in
          (None,
           (dropped ++ [(AutoMigrate models, false)]
            ++ perform (S at_migrate) indexes)%list)
      end
  end.

(** [QuickMigrate] and [UnsafeMigrate]: [AddModels(models...)] on a new
    migrator leaves exactly [models]. *)
Definition QuickMigrate (models : list Model) :=
  Migrate DefaultMigrationOptions models.

Definition UnsafeMigrate (models : list Model) :=
  Migrate {| DropTables := true; CreateIndexes := true; Verbose := true |} models.

End Migrator.

End Database.

(** ** package server: the default routes *)

Module Server.

Record ServerOptions := mkServerOptions {
  ServiceName : string;
  ServiceVersion : string;
  Port : string;
  GinMode : string;
  DisableLogging : bool;
  DisableCORS : bool;
  DisableHealth : bool;
  DisableRecover : bool;
  HealthPath : string;
  MetricsPath : string
}.


Inductive handler := healthCheckHandler | detailedHealthHandler.

(** A GET route of the router: the full path gin registered it under. *)
Record route := GET { path : string; serves : handler }.

(** The engine's routes after some calls of [router.GET].  A call panics
    when its path is registered already.  A pattern with a wildcard makes
    gin build parameter nodes, or panic for a pattern it rejects: that part
    of gin's tree is not embedded, and [Parametric] stands for whatever it
    gives. *)
Inductive router :=
| Routes (routes : list route)
| Panicked
| Parametric.

(** [gin.New()]. *)
Definition New : router := Routes [].

(** [router.GET(relativePath, handler)]: the route goes under
    [joinPaths("/", relativePath)]. *)
Definition router_GET (r : router) (relativePath : string) (h : handler) : router :=
  match r with
  | Routes routes =>
      let absolutePath := Gin.joinPaths relativePath in
      if Gin.has_wildcard absolutePath then Parametric
      else if existsb (fun known => String.eqb (path known) absolutePath) routes
      then Panicked
      else Routes (routes ++ [GET absolutePath h])
  | Panicked => Panicked
  | Parametric => Parametric
  end.

(** [setupHealthRoutes], on the router of the server. *)
Definition setupHealthRoutes (options : ServerOptions) (r : router) : router :=
  let healthPath := HealthPath options in
  let healthPath := if String.eqb healthPath "" then "/health" else healthPath in
  let r := router_GET r healthPath healthCheckHandler in
  router_GET r (healthPath ++ "/detailed")%string detailedHealthHandler.

(** [setupDefaultRoutes]. *)
Definition setupDefaultRoutes (options : ServerOptions) (r : router) : router :=
  if negb (DisableHealth options) then setupHealthRoutes options r else r.


End Server.

(** ** package middleware: health checks *)

Module Middleware.
Import Gin.

(** [type HealthStatus string]. *)
Definition HealthStatus := string.
Definition HealthStatusHealthy : HealthStatus := "healthy".
Definition HealthStatusUnhealthy : HealthStatus := "unhealthy".
Definition HealthStatusDegraded : HealthStatus := "degraded".

Module HealthCheck.
Record t := mk {
  Name : string;
  Status : HealthStatus;
  Message : string;
  LastChecked : Z;
  Duration : Z;
  Metadata : object
}.
End HealthCheck.

(** [type HealthChecker func() HealthCheck]. *)
Definition HealthChecker := unit -> HealthCheck.t.

Module HealthConfig.
Record t := mk {
  ServiceName : string;
  ServiceVersion : string;
  StartTime : Z;
  Checkers : gmap string HealthChecker;
  HealthPath : string;
  ReadinessPath : string;
  LivenessPath : string
}.
End HealthConfig.

Module HealthResponse.
Record t := mk {
  Status : HealthStatus;
  Timestamp : Z;
  Service : string;
  Version : string;
  Uptime : Z;
  Checks : gmap string HealthCheck.t;
  Metadata : object
}.
End HealthResponse.

(** [DefaultHealthConfig]. *)
Definition DefaultHealthConfig (now : Z) (serviceName version : string) : HealthConfig.t :=
  {| HealthConfig.ServiceName := serviceName;
     HealthConfig.ServiceVersion := version;
     HealthConfig.StartTime := now;
     HealthConfig.Checkers := ∅;
     HealthConfig.HealthPath := "/health";
     HealthConfig.ReadinessPath := "/ready";
     HealthConfig.LivenessPath := "/live" |}.

(** [runHealthChecks]: every checker is called and its result stored under
    the checker's name; the clock does not advance during the call. *)
Definition runHealthChecks (now : Z) (checkers : gmap string HealthChecker)
  : gmap string HealthCheck.t :=
  (fun checker : HealthChecker =>
     let check := checker tt in
     {| HealthCheck.Name := HealthCheck.Name check;
        HealthCheck.Status := HealthCheck.Status check;
        HealthCheck.Message := HealthCheck.Message check;
        HealthCheck.LastChecked := now;
        HealthCheck.Duration := 0;
        HealthCheck.Metadata := HealthCheck.Metadata check |}) <$> checkers.

(** The body of the [for _, check := range checks] loop of
    [determineOverallStatus], on the flags [(hasUnhealthy, hasDegraded)]. *)
Definition note_status (check : HealthCheck.t) (flags : bool * bool) : bool * bool :=
  if String.eqb (HealthCheck.Status check) HealthStatusUnhealthy then (true, snd flags)
  else if String.eqb (HealthCheck.Status check) HealthStatusDegraded then (fst flags, true)
  else flags.

(** [determineOverallStatus]. *)
Definition determineOverallStatus (checks : gmap string HealthCheck.t) : HealthStatus :=
  if (size checks =? 0)%nat then HealthStatusHealthy
  else
    let flags := map_fold (fun _ check flags => note_status check flags) (false, false) checks in
    if fst flags then HealthStatusUnhealthy
    else if snd flags then HealthStatusDegraded
    else HealthStatusHealthy.

(** [handleHealthCheck]. *)
Definition handleHealthCheck (now : Z) (config : HealthConfig.t) (detailed : bool)
  : Response HealthResponse.t :=
  let run := detailed && (0 <? size (HealthConfig.Checkers config))%nat in
  let checks := if run then runHealthChecks now (HealthConfig.Checkers config) else ∅ in
  let status := if run then determineOverallStatus checks else HealthStatusHealthy in
  let response :=
    {| HealthResponse.Status := status;
       HealthResponse.Timestamp := now;
       HealthResponse.Service := HealthConfig.ServiceName config;
       HealthResponse.Version := HealthConfig.ServiceVersion config;
       HealthResponse.Uptime := now - HealthConfig.StartTime config;
       HealthResponse.Checks := checks;
       HealthResponse.Metadata := [] |} in
  let statusCode :=
    if String.eqb (HealthResponse.Status response) HealthStatusUnhealthy
    then StatusServiceUnavailable else StatusOK in
  JSON statusCode response.

(** [handleReadinessCheck]; a [gin.H] is written with its keys sorted. *)
Definition handleReadinessCheck (now : Z) (config : HealthConfig.t) : Response object :=
  let checks := runHealthChecks now (HealthConfig.Checkers config) in
  let status := determineOverallStatus checks in
  let response :=
    [("service", VString (HealthConfig.ServiceName config));
     ("status", VString status);
     ("timestamp", VTime now)] in
  let statusCode :=
    if String.eqb status HealthStatusUnhealthy then StatusServiceUnavailable else StatusOK in
  JSON statusCode response.

(** [handleLivenessCheck]. *)
Definition handleLivenessCheck (now : Z) (config : HealthConfig.t) : Response object :=
  JSON StatusOK
    [("service", VString (HealthConfig.ServiceName config));
     ("status", VString HealthStatusHealthy);
     ("timestamp", VTime now);
     ("uptime", VInt (now - HealthConfig.StartTime config))].

(** What the handler returned by [HealthMiddleware] does with a request. *)
Inductive served :=
| Health (r : Response HealthResponse.t)
| Readiness (r : Response object)
| Liveness (r : Response object)
| Next.



(** [SimpleHealthMiddleware]: the configuration is
    [DefaultHealthConfig(serviceName, version)], made at [start]. *)
Definition SimpleHealthMiddleware (start : Z) (serviceName version : string)
    (now : Z) (c : Context) : served :=
  let config := DefaultHealthConfig start serviceName version in
  if String.eqb (RequestPath c) "/health"
  then Health (handleHealthCheck now config false)
  else Next.

(** [func (c *HealthConfig) AddHealthChecker(name, checker)]: the
    configuration it leaves behind (a nil map and an empty one are both
    the empty map here). *)
Definition AddHealthChecker (c : HealthConfig.t) (name : string) (checker : HealthChecker)
  : HealthConfig.t :=
  {| HealthConfig.ServiceName := HealthConfig.ServiceName c;
     HealthConfig.ServiceVersion := HealthConfig.ServiceVersion c;
     HealthConfig.StartTime := HealthConfig.StartTime c;
     HealthConfig.Checkers := <[name := checker]> (HealthConfig.Checkers c);
     HealthConfig.HealthPath := HealthConfig.HealthPath c;
     HealthConfig.ReadinessPath := HealthConfig.ReadinessPath c;
     HealthConfig.LivenessPath := HealthConfig.LivenessPath c |}.

(** [100 * time.Millisecond] and [duration.Milliseconds()], durations being
    nanoseconds. *)
Definition hundred_milliseconds : Z := 100000000.

Definition Milliseconds (d : Z) : Z := Z.quot d 1000000.

(** [DatabaseHealthChecker(pingFunc)]: [pingFunc] returns its error, if
    any, and [duration] is the time the call took. *)
Definition DatabaseHealthChecker (pingFunc : unit -> option string) (duration : Z)
  : HealthChecker :=
  fun _ =>
    match pingFunc tt with
    | Some err =>
        {| HealthCheck.Name := "database";
           HealthCheck.Status := HealthStatusUnhealthy;
           HealthCheck.Message := err;
           HealthCheck.LastChecked := 0;
           HealthCheck.Duration := duration;
           HealthCheck.Metadata := [] |}
    | None =>
        let status :=
          if duration >? hundred_milliseconds then HealthStatusDegraded
          else HealthStatusHealthy in
        {| HealthCheck.Name := "database";
           HealthCheck.Status := status;
           HealthCheck.Message := "";
           HealthCheck.LastChecked := 0;
           HealthCheck.Duration := duration;
           HealthCheck.Metadata := [("response_time_ms", VInt (Milliseconds duration))] |}
    end.

(** [MemoryHealthChecker(maxMemoryMB)], called: the check, or [None] when
    the call panics (the usage percentage divides by [maxMemoryMB]).  The
    arithmetic is [int64]: the product wraps, the quotient truncates. *)
Definition MemoryHealthChecker (maxMemoryMB : Z) : unit -> option HealthCheck.t :=
  fun _ =>
    let currentMemoryMB := 50 in
    let '(status, message) :=
      if currentMemoryMB >? maxMemoryMB
      then (HealthStatusUnhealthy, "Memory usage exceeded threshold")
      else if currentMemoryMB >? Z.quot (GoInt.wrap (maxMemoryMB * 80)) 100
      then (HealthStatusDegraded, "Memory usage approaching threshold")
      else (HealthStatusHealthy, "Memory usage within normal range") in
    if maxMemoryMB =? 0 then None
    else
      Some {| HealthCheck.Name := "memory";
              HealthCheck.Status := status;
              HealthCheck.Message := message;
              HealthCheck.LastChecked := 0;
              HealthCheck.Duration := 0;
              HealthCheck.Metadata :=
                [("current_memory_mb", VInt currentMemoryMB);
                 ("max_memory_mb", VInt maxMemoryMB);
                 ("usage_percent",
                  VInt (GoInt.wrap (Z.quot (GoInt.wrap (currentMemoryMB * 100)) maxMemoryMB)))] |}.

(** [DiskHealthChecker(path, maxUsagePercent)]. *)
Definition DiskHealthChecker (path : string) (maxUsagePercent : Z) : HealthChecker :=
  fun _ =>
    let currentUsagePercent := 45 in
    let '(status, message) :=
      if currentUsagePercent >? maxUsagePercent
      then (HealthStatusUnhealthy, "Disk usage exceeded threshold")
      else if currentUsagePercent >? Z.quot (GoInt.wrap (maxUsagePercent * 80)) 100
      then (HealthStatusDegraded, "Disk usage approaching threshold")
      else (HealthStatusHealthy, "Disk usage within normal range") in
    {| HealthCheck.Name := "disk";
       HealthCheck.Status := status;
       HealthCheck.Message := message;
       HealthCheck.LastChecked := 0;
       HealthCheck.Duration := 0;
       HealthCheck.Metadata :=
         [("max_usage_percent", VInt maxUsagePercent);
          ("path", VString path);
          ("usage_percent", VInt currentUsagePercent)] |}.

End Middleware.

(** ** The vocabulary of the specification

    Definitions that follow the wording of the specification rather than
    the code; the theorems compare the two. *)

Module Spec.

Definition is_digit (c : ascii) : bool :=
  let n := Z.of_N (N_of_ascii c) in (48 <=? n) && (n <=? 57).

Fixpoint all_digits (s : string) : bool :=
  match s with
  | EmptyString => true
  | String c rest => is_digit c && all_digits rest
  end.

(** The number a string of digits denotes, by position. *)
Fixpoint digits_value (s : string) : Z :=
  match s with
  | EmptyString => 0
  | String c rest =>
      (Z.of_N (N_of_ascii c) - 48) * 10 ^ Z.of_nat (String.length rest) + digits_value rest
  end.

Definition digits_of (s : string) : string :=
  match s with
  | String c rest => if GoInt.is_sign c then rest else s
  | EmptyString => EmptyString
  end.

Definition is_negative (s : string) : bool :=
  match s with
  | String c _ => (c =? "-")%char
  | EmptyString => false
  end.

(** "A decimal integer": an optional sign and one or more decimal digits. *)
Definition is_decimal_integer (s : string) : bool :=
  negb (String.eqb (digits_of s) "") && all_digits (digits_of s).

Definition decimal_value (s : string) : Z :=
  if is_negative s then - digits_value (digits_of s) else digits_value (digits_of s).

(** The condition under which the specification expects
    [DatabaseConfig.Validate] to report an error. *)
Definition invalid_database_config (dc : Config.DatabaseConfig) : bool :=
  String.eqb (Config.Host dc) ""
  || String.eqb (Config.Port dc) ""
  || String.eqb (Config.User dc) ""
  || String.eqb (Config.Password dc) ""
  || String.eqb (Config.DatabaseName dc) ""
  || negb (is_decimal_integer (Config.Port dc))
  || (Config.MaxIdleConns dc <? 0)
  || (Config.MaxOpenConns dc <? 0)
  || ((Config.MaxOpenConns dc >? 0) && (Config.MaxIdleConns dc >? Config.MaxOpenConns dc)).

(** Some check of the map has the status [st]. *)
Definition has_status (m : gmap string Middleware.HealthCheck.t)
    (st : Middleware.HealthStatus) : Prop :=
  exists name check, m !! name = Some check /\ Middleware.HealthCheck.Status check = st.

(** Some registered checker answers with the status [st]. *)
Definition reports (config : Middleware.HealthConfig.t) (st : Middleware.HealthStatus) : Prop :=
  exists name checker,
    Middleware.HealthConfig.Checkers config !! name = Some checker /\
    Middleware.HealthCheck.Status (checker tt) = st.

(** [n] is the ceiling of [a / b], for positive [b]. *)
Definition is_ceiling (n a b : Z) : Prop := (n - 1) * b < a <= n * b.

(** The validator [v'] holds the errors of [v], in order, followed by at
    most one more, which is about [field] and [value]. *)
Definition appended (v v' : Config.Validator.t) (field value : string) : Prop :=
  exists new,
    Config.Validator.errors v' = (Config.Validator.errors v ++ new)%list /\
    (length new <= 1)%nat /\
    Forall (fun e => Config.ValidationError.Field e = field /\
                     Config.ValidationError.Value e = value) new.

End Spec.

(** ** Inputs of the examples *)

Module Inputs.
Import Gin.

(** A valid configuration, except that the port does not fit in an [int]. *)
Definition port_out_of_range : Config.DatabaseConfig :=
  {| Config.Host := "localhost"; Config.Port := "9223372036854775808";
     Config.User := "user"; Config.Password := "pass"; Config.DatabaseName := "db";
     Config.SSLMode := "disable"; Config.TimeZone := "UTC";
     Config.MaxIdleConns := 10; Config.MaxOpenConns := 100;
     Config.LogLevel := "silent" |}.

(** [GET /items?page=9223372036854775807]. *)
Definition huge_page_request : Context :=
  {| RequestPath := "/items";
     QueryValues := {[ "page" := ["9223372036854775807"] ]};
     Keys := ∅ |}.

(** A context on which [c.Set("request_id", 42)] was called. *)
Definition numeric_request_id : Context :=
  {| RequestPath := "/users/7";
     QueryValues := ∅;
     Keys := {[ "request_id" := VInt 42 ]} |}.


(** A checker that answers with the given status. *)
Definition answering (name : string) (st : Middleware.HealthStatus)
  : Middleware.HealthChecker :=
  fun _ =>
    {| Middleware.HealthCheck.Name := name;
       Middleware.HealthCheck.Status := st;
       Middleware.HealthCheck.Message := "";
       Middleware.HealthCheck.LastChecked := 0;
       Middleware.HealthCheck.Duration := 0;
       Middleware.HealthCheck.Metadata := [] |}.

(** A connector that never succeeds. *)
Definition unreachable : nat -> unit + unit := fun _ => inr tt.

(** A connector that fails twice and then succeeds. *)
Definition third_time_lucky : nat -> string + string :=
  fun n => if (n <? 2)%nat then inr "connection refused" else inl "db".

End Inputs.

(** * Properties *)

Ltac split_ifs :=
  repeat (match goal with
          | |- context [if ?b then _ else _] => destruct b eqn:?
          end; cbn in *).

Ltac bool_facts :=
  repeat match goal with
  | H : (_ <? _) = true |- _ => apply Z.ltb_lt in H
  | H : (_ <? _) = false |- _ => apply Z.ltb_ge in H
  | H : (_ >? _) = true |- _ => rewrite Z.gtb_ltb in H
  | H : (_ >? _) = false |- _ => rewrite Z.gtb_ltb in H
  | H : (_ <=? _) = true |- _ => apply Z.leb_le in H
  | H : (_ <=? _) = false |- _ => apply Z.leb_gt in H
  | H : (_ =? _) = true |- _ => apply Z.eqb_eq in H
  | H : (_ =? _) = false |- _ => apply Z.eqb_neq in H
  | H : String.eqb _ _ = true |- _ => apply String.eqb_eq in H
  | H : String.eqb _ _ = false |- _ => apply String.eqb_neq in H
  | H : negb _ = true |- _ => apply negb_true_iff in H
  | H : negb _ = false |- _ => apply negb_false_iff in H
  | H : _ && _ = true |- _ => apply andb_true_iff in H; destruct H
  | H : _ && _ = false |- _ => apply andb_false_iff in H; destruct H
  | H : _ || _ = true |- _ => apply orb_true_iff in H; destruct H
  | H : _ || _ = false |- _ => apply orb_false_iff in H; destruct H
  end.

(** ** Go integers *)

Module GoIntFacts.
Import GoInt.

Lemma wrap_id (z : Z) : in_int z -> wrap z = z.
Proof.
  unfold in_int, wrap, int_min, int_max. intros H.
  rewrite Z.mod_small; lia.
Qed.

Lemma wrap_in_int (z : Z) : in_int (wrap z).
Proof.
  unfold in_int, wrap, int_min, int_max.
  pose proof (Z.mod_pos_bound (z - - 2 ^ 63) (2 ^ 64)). lia.
Qed.

Lemma Atoi_in_int (s : string) (v : Z) : Atoi s = inl v -> in_int v.
Proof.
  unfold Atoi, in_int. destruct s as [|c rest]; [discriminate|].
  destruct (if is_sign c then rest else String c rest); [discriminate|].
  destruct (parse_digits 0 _) as [n|]; [|discriminate].
  destruct (_ && _) eqn:Hrange; [|discriminate].
  intros [= <-]. apply andb_true_iff in Hrange. lia.
Qed.

Example Atoi_5432 : Atoi "5432" = inl 5432.
Proof. reflexivity. Qed.

Example Atoi_signed : Atoi "-17" = inl (-17) /\ Atoi "+17" = inl 17.
Proof. split; reflexivity. Qed.

Example Atoi_syntax :
  Atoi "" = inr ErrSyntax /\ Atoi "-" = inr ErrSyntax /\
  Atoi "12a" = inr ErrSyntax /\ Atoi " 12" = inr ErrSyntax /\ Atoi "1_000" = inr ErrSyntax.
Proof. repeat split; reflexivity. Qed.

Example Atoi_range :
  Atoi "9223372036854775807" = inl int_max /\
  Atoi "9223372036854775808" = inr ErrRange /\
  Atoi "-9223372036854775808" = inl int_min /\
  Atoi "-9223372036854775809" = inr ErrRange /\
  Atoi "000000000000000000000005432" = inl 5432 /\
  Atoi "99999999999999999999x" = inr ErrRange /\
  Atoi "9999999999999999999x" = inr ErrSyntax.
Proof. repeat split; reflexivity. Qed.

End GoIntFacts.

(** ** [PaginationRequest.Validate] *)

Module TypesFacts.
Import Types.

(** C10: [Validate] never reports an error.  It returns [nil], and the
    request it leaves behind has [Page >= 1], [1 <= PageSize <= 100] and
    [SortOrder] one of ["asc"], ["desc"]; a field that already met its
    constraint keeps its value, one that did not receives the default
    ([1], [10] below the range, [100] above it, ["desc"]);
    [SortBy] is never touched. *)
Theorem Validate_never_fails (p : PaginationRequest) :
  fst (Validate p) = None /\
  1 <= Page (snd (Validate p)) /\
  1 <= PageSize (snd (Validate p)) <= 100 /\
  (SortOrder (snd (Validate p)) = "asc" \/ SortOrder (snd (Validate p)) = "desc") /\
  (1 <= Page p -> Page (snd (Validate p)) = Page p) /\
  (1 <= PageSize p <= 100 -> PageSize (snd (Validate p)) = PageSize p) /\
  (SortOrder p = "asc" \/ SortOrder p = "desc" ->
   SortOrder (snd (Validate p)) = SortOrder p) /\
  (Page p < 1 -> Page (snd (Validate p)) = 1) /\
  (PageSize p < 1 -> PageSize (snd (Validate p)) = 10) /\
  (100 < PageSize p -> PageSize (snd (Validate p)) = 100) /\
  (SortOrder p <> "asc" -> SortOrder p <> "desc" ->
   SortOrder (snd (Validate p)) = "desc") /\
  SortBy (snd (Validate p)) = SortBy p.
Proof.
  destruct p as [page pageSize sortBy sortOrder].
  unfold Validate, set_Page, set_PageSize, set_SortOrder; cbn.
  split_ifs; bool_facts; repeat split; intros; subst;
    try lia; try congruence; try tauto; auto.
Qed.

Example Validate_zero_request :
  Validate {| Page := 0; PageSize := 1000; SortBy := "name"; SortOrder := "up" |}
  = (None, {| Page := 1; PageSize := 100; SortBy := "name"; SortOrder := "desc" |}).
Proof. reflexivity. Qed.

End TypesFacts.

(** ** [strconv.Atoi] against "decimal integer" *)

Module AtoiFacts.
Import GoInt Spec.

Lemma digit_of_spec (c : ascii) :
  digit_of c = if is_digit c then Some (Z.of_N (N_of_ascii c) - 48) else None.
Proof. reflexivity. Qed.

Lemma is_digit_range (c : ascii) :
  is_digit c = true -> 0 <= Z.of_N (N_of_ascii c) - 48 <= 9.
Proof. unfold is_digit. intros H. apply andb_true_iff in H as [H1 H2]. lia. Qed.

Lemma digits_value_nonneg (s : string) : all_digits s = true -> 0 <= digits_value s.
Proof.
  induction s as [|c rest IH]; cbn [all_digits digits_value]; [lia|].
  intros H. apply andb_true_iff in H as [Hc Hrest].
  pose proof (is_digit_range c Hc). specialize (IH Hrest).
  assert (0 < 10 ^ Z.of_nat (String.length rest)) by (apply Z.pow_pos_nonneg; lia).
  nia.
Qed.

(** The digit loop accepts exactly the digit strings whose value, continued
    from [n], stays within [uint64]. *)
Lemma parse_digits_spec (s : string) : forall n v,
  0 <= n <= uint64_max ->
  parse_digits n s = inl v <->
  all_digits s = true /\
  v = n * 10 ^ Z.of_nat (String.length s) + digits_value s /\
  v <= uint64_max.
Proof.
  induction s as [|c rest IH]; intros n v Hn;
    cbn [parse_digits all_digits digits_value String.length].
  - cbn. split.
    + intros [= <-]. repeat split; lia.
    + intros (_ & -> & _). f_equal. lia.
  - rewrite digit_of_spec. destruct (is_digit c) eqn:Hc; cbn [andb].
    + pose proof (is_digit_range c Hc) as Hd.
      set (d := Z.of_N (N_of_ascii c) - 48) in *.
      rewrite Nat2Z.inj_succ, Z.pow_succ_r by lia.
      assert (Hpow : 0 < 10 ^ Z.of_nat (String.length rest))
        by (apply Z.pow_pos_nonneg; lia).
      destruct (Z.gtb_spec (n * 10 + d) uint64_max) as [Hover|Hfits].
      * split; [discriminate|]. intros (Hrest & -> & Hv).
        pose proof (digits_value_nonneg rest Hrest). nia.
      * rewrite IH by lia. split.
        -- intros (Hrest & -> & Hv). repeat split; [assumption | ring | lia].
        -- intros (Hrest & -> & Hv). repeat split; [assumption | ring | lia].
    + split; [discriminate | intros [? _]; discriminate].
Qed.

(** [Atoi] accepts exactly the decimal integers whose value is an [int],
    and returns that value. *)
Lemma Atoi_spec (s : string) (v : Z) :
  Atoi s = inl v <->
  is_decimal_integer s = true /\ in_int (decimal_value s) /\ v = decimal_value s.
Proof.
  unfold Atoi, is_decimal_integer, decimal_value, in_int.
  destruct s as [|c rest]; cbn [digits_of is_negative].
  - cbn. split; [discriminate | intros [? _]; discriminate].
  - set (body := if is_sign c then rest else String c rest).
    destruct body as [|b bs] eqn:Hbody.
    + cbn. split; [discriminate | intros [? _]; discriminate].
    + replace (String.eqb (String b bs) "") with false
        by (symmetry; apply String.eqb_neq; discriminate).
      cbn [negb andb].
      assert (Hparse : forall v,
                 parse_digits 0 (String b bs) = inl v <->
                 all_digits (String b bs) = true /\
                 v = digits_value (String b bs) /\ v <= uint64_max).
      { intros v'. rewrite parse_digits_spec by (unfold uint64_max; lia).
        rewrite Z.mul_0_l, Z.add_0_l. reflexivity. }
      set (value := digits_value (String b bs)) in *.
      destruct (parse_digits 0 (String b bs)) as [n|e].
      * destruct (proj1 (Hparse n) eq_refl) as (Hdigits & Hn & _).
        subst n. rewrite Hdigits.
        destruct ((int_min <=? (if (c =? "-")%char then - value else value))
                  && ((if (c =? "-")%char then - value else value) <=? int_max)) eqn:Hrange.
        -- apply andb_true_iff in Hrange as [H1 H2].
           apply Z.leb_le in H1, H2.
           split; [intros [= <-]; auto | intros (_ & _ & ->); reflexivity].
        -- split; [discriminate|]. intros (_ & [H1 H2] & _).
           apply Z.leb_le in H1, H2. rewrite H1, H2 in Hrange. discriminate.
      * split; [discriminate|]. intros (Hdigits & [H1 H2] & _).
        assert (Hvalue : value <= uint64_max).
        { unfold int_min, int_max, uint64_max in *.
          destruct (c =? "-")%char; lia. }
        assert (Hok : @inr Z NumError e = inl value); [|discriminate].
        apply Hparse. repeat split; assumption.
Qed.

Lemma Atoi_ok_iff (s : string) :
  (exists v, Atoi s = inl v) <->
  is_decimal_integer s = true /\ in_int (decimal_value s).
Proof.
  split.
  - intros [v Hv]. apply Atoi_spec in Hv. tauto.
  - intros [H1 H2]. exists (decimal_value s). apply Atoi_spec. auto.
Qed.

End AtoiFacts.

(** ** [DatabaseConfig.Validate] *)

Module ConfigFacts.
Import Config Spec Inputs.

(** C7, as stated, fails: a port of decimal digits that does not fit in an
    [int] is rejected although none of the listed conditions holds. *)
Lemma Validate_rejects_large_port :
  invalid_database_config port_out_of_range = false /\
  is_decimal_integer (Port port_out_of_range) = true /\
  fst (Validate port_out_of_range)
  = Some (Errorf "database port must be a number" (Some GoInt.ErrRange)).
Proof. repeat split; reflexivity. Qed.

(** C7 (amended): [Validate] returns an error exactly when one of [Host],
    [Port], [User], [Password], [DatabaseName] is empty, or [Port] is not a
    decimal integer within the range of [int], or [MaxIdleConns] is
    negative, or [MaxOpenConns] is negative, or [MaxOpenConns > 0] and
    [MaxIdleConns > MaxOpenConns]; otherwise it returns [nil].  The
    config is left as it was. *)
Theorem Validate_error_iff (dc : DatabaseConfig) :
  (fst (Validate dc) <> None <->
   Host dc = "" \/ Port dc = "" \/ User dc = "" \/ Password dc = "" \/
   DatabaseName dc = "" \/
   ~ (is_decimal_integer (Port dc) = true /\ GoInt.in_int (decimal_value (Port dc))) \/
   MaxIdleConns dc < 0 \/ MaxOpenConns dc < 0 \/
   (MaxOpenConns dc > 0 /\ MaxIdleConns dc > MaxOpenConns dc)) /\
  snd (Validate dc) = dc.
Proof.
  split; [|reflexivity].
  unfold Validate, is_empty; cbn [fst].
  pose proof (AtoiFacts.Atoi_ok_iff (Port dc)) as Hport.
  destruct (GoInt.Atoi (Port dc)) as [v|e] eqn:HAtoi.
  - assert (Hok : is_decimal_integer (Port dc) = true
                  /\ GoInt.in_int (decimal_value (Port dc)))
      by (apply Hport; eauto).
    split_ifs; bool_facts; split; intros Hgoal; try congruence; try tauto;
      try (exfalso; lia);
      try (decompose [or and] Hgoal; try congruence; try lia; tauto).
  - assert (Hbad : ~ (is_decimal_integer (Port dc) = true
                      /\ GoInt.in_int (decimal_value (Port dc)))).
    { intros Hok. apply Hport in Hok as [v Hv]. congruence. }
    split_ifs; bool_facts; split; intros Hgoal; try congruence; tauto.
Qed.

Example Validate_accepts_test_config :
  fst (Validate {| Host := "localhost"; Port := "5432"; User := "user";
                   Password := "pass"; DatabaseName := "db"; SSLMode := "";
                   TimeZone := ""; MaxIdleConns := 10; MaxOpenConns := 100;
                   LogLevel := "" |}) = None.
Proof. reflexivity. Qed.

Example Validate_rejects_test_port :
  fst (Validate {| Host := "localhost"; Port := "invalid"; User := "user";
                   Password := "pass"; DatabaseName := "db"; SSLMode := "";
                   TimeZone := ""; MaxIdleConns := 0; MaxOpenConns := 0;
                   LogLevel := "" |})
  = Some (Errorf "database port must be a number" (Some GoInt.ErrSyntax)).
Proof. reflexivity. Qed.

End ConfigFacts.

(** ** package responses: pagination parameters *)

Module ParamsFacts.
Import Gin Responses Inputs.

Lemma getIntParam_in_int (c : Context) (key : string) (d : Z) :
  GoInt.in_int d -> GoInt.in_int (getIntParam c key d).
Proof.
  intros Hd. unfold getIntParam.
  destruct (String.eqb (Query c key) ""); [assumption|].
  destruct (GoInt.Atoi (Query c key)) as [v|e] eqn:HAtoi; [|assumption].
  eapply GoIntFacts.Atoi_in_int; eassumption.
Qed.

(** C8, as stated, fails: for [?page=9223372036854775807] the product
    [(Page - 1) * PageSize] does not fit in an [int] and [Offset] is
    negative. *)
Lemma GetPaginationParams_offset_overflows :
  PaginationParams.Page (GetPaginationParams huge_page_request) = 9223372036854775807 /\
  PaginationParams.PageSize (GetPaginationParams huge_page_request) = 10 /\
  PaginationParams.Offset (GetPaginationParams huge_page_request) = -20 /\
  (9223372036854775807 - 1) * 10 = 92233720368547758060.
Proof. vm_compute. repeat split; reflexivity. Qed.

(** C8 (amended): for every request [GetPaginationParams] returns
    [Page >= 1], [1 <= PageSize <= 100], [Limit = PageSize] and the [Offset]
    that Go's 64-bit multiplication gives for [(Page - 1) * PageSize]: the
    exact product when that is at most [2^63 - 1], its reduction modulo
    [2^64] otherwise. *)
Theorem GetPaginationParams_invariants (c : Context) :
  let p := GetPaginationParams c in
  1 <= PaginationParams.Page p /\
  1 <= PaginationParams.PageSize p <= 100 /\
  PaginationParams.Limit p = PaginationParams.PageSize p /\
  PaginationParams.Offset p
  = GoInt.wrap ((PaginationParams.Page p - 1) * PaginationParams.PageSize p) /\
  ((PaginationParams.Page p - 1) * PaginationParams.PageSize p <= GoInt.int_max ->
   PaginationParams.Offset p
   = (PaginationParams.Page p - 1) * PaginationParams.PageSize p).
Proof.
  unfold GetPaginationParams, DefaultPage, DefaultPageSize, MaxPageSize.
  pose proof (getIntParam_in_int c "page" 1) as Hpage.
  pose proof (getIntParam_in_int c "page_size" 10) as Hsize.
  set (page := getIntParam c "page" 1) in *.
  set (pageSize := getIntParam c "page_size" 10) in *.
  assert (GoInt.in_int page) as [Hp1 Hp2]
    by (apply Hpage; unfold GoInt.in_int, GoInt.int_min, GoInt.int_max; lia).
  clear Hpage Hsize. unfold GoInt.int_min, GoInt.int_max in *.
  cbn zeta.
  cbn [PaginationParams.Page PaginationParams.PageSize
       PaginationParams.Limit PaginationParams.Offset].
  assert (Hwrap : forall q, 1 <= q <= 2 ^ 63 - 1 -> GoInt.wrap (q - 1) = q - 1).
  { intros q Hq. apply GoIntFacts.wrap_id.
    unfold GoInt.in_int, GoInt.int_min, GoInt.int_max. lia. }
  destruct (Z.ltb_spec page 1);
    destruct (Z.ltb_spec pageSize 1);
    rewrite ?Z.gtb_ltb;
    repeat match goal with
           | |- context [?a <? ?b] => destruct (Z.ltb_spec a b)
           end;
    rewrite Hwrap by lia;
    (repeat split; try lia;
     intros Hfit; apply GoIntFacts.wrap_id;
     unfold GoInt.in_int, GoInt.int_min, GoInt.int_max in *; nia).
Qed.

Example GetPaginationParams_defaults :
  GetPaginationParams {| RequestPath := "/items"; QueryValues := ∅; Keys := ∅ |}
  = {| PaginationParams.Page := 1; PaginationParams.PageSize := 10;
       PaginationParams.Offset := 0; PaginationParams.Limit := 10 |}.
Proof. vm_compute. reflexivity. Qed.

Example GetPaginationParams_clamped :
  GetPaginationParams
    {| RequestPath := "/items";
       QueryValues := {[ "page" := ["-3"]; "page_size" := ["5000"] ]};
       Keys := ∅ |}
  = {| PaginationParams.Page := 1; PaginationParams.PageSize := 100;
       PaginationParams.Offset := 0; PaginationParams.Limit := 100 |}.
Proof. vm_compute. reflexivity. Qed.

Example GetPaginationParams_third_page :
  GetPaginationParams
    {| RequestPath := "/items";
       QueryValues := {[ "page" := ["3"; "9"]; "page_size" := ["abc"] ]};
       Keys := ∅ |}
  = {| PaginationParams.Page := 3; PaginationParams.PageSize := 10;
       PaginationParams.Offset := 20; PaginationParams.Limit := 10 |}.
Proof. vm_compute. reflexivity. Qed.

End ParamsFacts.

(** ** package responses: the envelopes *)

Module EnvelopeFacts.
Import Gin Responses Inputs.






(** C5, as stated, fails: with nil data the envelope has no [data] field. *)
Lemma Success_omits_nil_data :
  json_keys (Body (Success 0 "done" VNil)) = ["message"; "timestamp"] /\
  json_get "data" (Body (Success 0 "done" VNil)) = None.
Proof. split; reflexivity. Qed.

(** C5 (amended): [Success] answers with status 200 and an envelope made of
    [message] (the given message), then [data] (the given data) unless the
    data is nil, then [timestamp] (the current UTC time), and nothing else. *)
Theorem Success_envelope (now : Z) (message : string) (data : value) :
  let r := Success now message data in
  Status r = 200 /\
  Body r = (("message", VString message)
            :: (if is_nil data then [] else [("data", data)])
            ++ [("timestamp", VTime now)])%list /\
  json_keys (Body r)
  = (if is_nil data then ["message"; "timestamp"] else ["message"; "data"; "timestamp"]).
Proof.
  unfold Success, SuccessResponse.marshal, field, field_omitempty_any, StatusOK.
  destruct data; cbn; repeat split; reflexivity.
Qed.



Example HandleAPIError_not_found :
  HandleAPIError 1700000000
    {| RequestPath := "/users/7"; QueryValues := ∅;
       Keys := {[ "request_id" := VString "req-1" ]} |}
    {| APIError.StatusCode := 404; APIError.Code := "not_found";
       APIError.Message := "no such user"; APIError.Details := "";
       APIError.Metadata := VNil |}
  = JSON 404 [("error", VString "no such user"); ("code", VString "not_found");
              ("timestamp", VTime 1700000000); ("path", VString "/users/7");
              ("request_id", VString "req-1")].
Proof. vm_compute. reflexivity. Qed.

End EnvelopeFacts.

(** ** The default health endpoints *)

Module EndpointFacts.
Import Gin.



End EndpointFacts.

(** ** package middleware: the overall health status *)

Module HealthFacts.
Import Gin Middleware Spec Inputs.

Lemma has_status_empty (st : HealthStatus) : ~ has_status ∅ st.
Proof. intros (name & check & Hlookup & _). by rewrite lookup_empty in Hlookup. Qed.

Lemma has_status_insert (m : gmap string HealthCheck.t) name check st :
  m !! name = None ->
  has_status (<[name:=check]> m) st <-> HealthCheck.Status check = st \/ has_status m st.
Proof.
  intros Hfresh. split.
  - intros (name' & check' & Hlookup & Hst).
    apply lookup_insert_Some in Hlookup as [[-> ->]|[_ Hlookup]].
    + by left.
    + right. by exists name', check'.
  - intros [Hst|(name' & check' & Hlookup & Hst)].
    + exists name, check. by rewrite lookup_insert_eq.
    + exists name', check'. split; [|done].
      rewrite lookup_insert_ne; [done|]. intros ->. congruence.
Qed.

(** The flags after the loop of [determineOverallStatus]. *)
Lemma note_status_fold (m : gmap string HealthCheck.t) :
  let flags := map_fold (fun _ check flags => note_status check flags) (false, false) m in
  (fst flags = true <-> has_status m HealthStatusUnhealthy) /\
  (snd flags = true <-> has_status m HealthStatusDegraded).
Proof.
  cbn zeta.
  apply (map_fold_weak_ind
           (fun flags m =>
              (fst flags = true <-> has_status m HealthStatusUnhealthy) /\
              (snd flags = true <-> has_status m HealthStatusDegraded))).
  - cbn. split; (split; [discriminate | intros H; by apply has_status_empty in H]).
  - intros name check m' [u d] Hfresh [IHu IHd]. cbn [fst snd] in *.
    rewrite !has_status_insert by done.
    unfold note_status.
    destruct (String.eqb_spec (HealthCheck.Status check) HealthStatusUnhealthy) as [Hu|Hu].
    + cbn [fst snd]. rewrite Hu. split; [tauto|].
      rewrite IHd. split; [tauto|]. intros [?|?]; [discriminate|done].
    + destruct (String.eqb_spec (HealthCheck.Status check) HealthStatusDegraded) as [Hd|Hd];
        cbn [fst snd]; tauto.
Qed.

Lemma determineOverallStatus_spec (m : gmap string HealthCheck.t) :
  (has_status m HealthStatusUnhealthy ->
   determineOverallStatus m = HealthStatusUnhealthy) /\
  (~ has_status m HealthStatusUnhealthy -> has_status m HealthStatusDegraded ->
   determineOverallStatus m = HealthStatusDegraded) /\
  (~ has_status m HealthStatusUnhealthy -> ~ has_status m HealthStatusDegraded ->
   determineOverallStatus m = HealthStatusHealthy).
Proof.
  unfold determineOverallStatus.
  destruct (Nat.eqb_spec (size m) 0) as [Hsize|Hsize].
  - apply map_size_empty_inv in Hsize as ->.
    repeat split; intros; try done; exfalso; eapply has_status_empty; eauto.
  - destruct (note_status_fold m) as [Hu Hd]. cbn zeta in *.
    destruct (map_fold _ _ m) as [u d]. cbn [fst snd] in *.
    destruct u, d; repeat split; intros; try done;
      try (exfalso; tauto);
      match goal with
      | H : has_status _ _ |- _ =>
          first [apply Hu in H | apply Hd in H]; discriminate
      end.
Qed.

Lemma has_status_run (now : Z) (config : HealthConfig.t) (st : HealthStatus) :
  has_status (runHealthChecks now (HealthConfig.Checkers config)) st <-> reports config st.
Proof.
  unfold has_status, reports, runHealthChecks. split.
  - intros (name & check & Hlookup & Hst).
    apply lookup_fmap_Some in Hlookup as (checker & <- & Hchecker).
    by exists name, checker.
  - intros (name & checker & Hchecker & Hst).
    eexists name, _. split.
    + apply lookup_fmap_Some. exists checker. split; [reflexivity | exact Hchecker].
    + exact Hst.
Qed.

Lemma handleHealthCheck_status (now : Z) (config : HealthConfig.t) :
  HealthResponse.Status (Body (handleHealthCheck now config true))
  = determineOverallStatus (runHealthChecks now (HealthConfig.Checkers config)).
Proof.
  unfold handleHealthCheck. cbn [Body HealthResponse.Status andb].
  destruct (Nat.ltb_spec 0 (size (HealthConfig.Checkers config))) as [|Hsize]; [reflexivity|].
  assert (HealthConfig.Checkers config = ∅) as -> by (apply map_size_empty_inv; lia).
  unfold runHealthChecks. rewrite fmap_empty. reflexivity.
Qed.

Lemma handleHealthCheck_code (now : Z) (config : HealthConfig.t) (detailed : bool) :
  Status (handleHealthCheck now config detailed)
  = if String.eqb (HealthResponse.Status (Body (handleHealthCheck now config detailed)))
         HealthStatusUnhealthy
    then StatusServiceUnavailable else StatusOK.
Proof. reflexivity. Qed.

(** C9: the detailed health check ([handleHealthCheck] with [detailed]
    set, as [HealthMiddleware] calls it) reports [unhealthy] if some checker
    answers unhealthy, otherwise [degraded] if some checker answers
    degraded, otherwise [healthy], in particular [healthy] without
    checkers; the HTTP status is 503 when the overall status is [unhealthy]
    and 200 in every other case. *)
Theorem handleHealthCheck_overall_status (now : Z) (config : HealthConfig.t) :
  let r := handleHealthCheck now config true in
  (reports config HealthStatusUnhealthy ->
   HealthResponse.Status (Body r) = HealthStatusUnhealthy) /\
  (~ reports config HealthStatusUnhealthy ->
   reports config HealthStatusDegraded ->
   HealthResponse.Status (Body r) = HealthStatusDegraded) /\
  (~ reports config HealthStatusUnhealthy ->
   ~ reports config HealthStatusDegraded ->
   HealthResponse.Status (Body r) = HealthStatusHealthy) /\
  (HealthConfig.Checkers config = ∅ ->
   HealthResponse.Status (Body r) = HealthStatusHealthy) /\
  (Status r = 503 <-> HealthResponse.Status (Body r) = HealthStatusUnhealthy) /\
  (HealthResponse.Status (Body r) <> HealthStatusUnhealthy -> Status r = 200).
Proof.
  cbn zeta. rewrite handleHealthCheck_code, handleHealthCheck_status.
  destruct (determineOverallStatus_spec
              (runHealthChecks now (HealthConfig.Checkers config))) as (Hu & Hd & Hh).
  pose proof (has_status_run now config HealthStatusUnhealthy) as Eu.
  pose proof (has_status_run now config HealthStatusDegraded) as Ed.
  split; [intros; apply Hu; tauto|].
  split; [intros; apply Hd; tauto|].
  split; [intros; apply Hh; tauto|]. split.
  - intros Hempty. apply Hh; rewrite ?Eu, ?Ed;
      intros (name & checker & Hlookup & _);
      rewrite Hempty, lookup_empty in Hlookup; discriminate.
  - unfold StatusServiceUnavailable, StatusOK.
    destruct (String.eqb_spec
                (determineOverallStatus (runHealthChecks now (HealthConfig.Checkers config)))
                HealthStatusUnhealthy); split; intros; try done; lia.
Qed.

Example handleHealthCheck_database_down :
  let config :=
    {| HealthConfig.ServiceName := "svc"; HealthConfig.ServiceVersion := "1.0.0";
       HealthConfig.StartTime := 0;
       HealthConfig.Checkers :=
         {[ "database" := answering "database" HealthStatusUnhealthy;
            "memory" := answering "memory" HealthStatusDegraded ]};
       HealthConfig.HealthPath := "/health"; HealthConfig.ReadinessPath := "/ready";
       HealthConfig.LivenessPath := "/live" |} in
  Status (handleHealthCheck 5 config true) = 503 /\
  HealthResponse.Status (Body (handleHealthCheck 5 config true)) = "unhealthy".
Proof. vm_compute. split; reflexivity. Qed.

End HealthFacts.

(** ** package database: the retry loop *)

Module ConnectFacts.
Import Database Inputs.

Lemma failures_S (i : nat) (d : Z) :
  failures (S i) d = (failures i d ++ [Attempt (Z.of_nat i + 1); Slept d])%list.
Proof.
  unfold failures. rewrite seq_S, flat_map_app. cbn. reflexivity.
Qed.

Lemma schedule_S (i : nat) (d : Z) :
  schedule (S i) d = (failures i d ++ [Attempt (Z.of_nat i + 1)])%list.
Proof.
  unfold schedule, failures. rewrite Nat.sub_succ, Nat.sub_0_r.
  do 3 f_equal. lia.
Qed.

Lemma failures_attempts (i : nat) (d : Z) :
  attempts (failures i d) = i /\
  sleeps (failures i d) = i /\
  Forall (fun ev => is_sleep ev = true -> ev = Slept d) (failures i d).
Proof.
  induction i as [|i (IHa & IHs & IHd)].
  - cbn. repeat split. constructor.
  - unfold attempts, sleeps in *. rewrite failures_S, !List.filter_app, !length_app. cbn.
    repeat split; [lia | lia |].
    apply Forall_app. split; [assumption|].
    repeat constructor; discriminate.
Qed.

(** A schedule of [k >= 1] attempts has [k] attempts and [k - 1] sleeps,
    all of the same length [d]. *)
Lemma schedule_counts (k : nat) (d : Z) :
  (1 <= k)%nat ->
  attempts (schedule k d) = k /\
  sleeps (schedule k d) = (k - 1)%nat /\
  Forall (fun ev => is_sleep ev = true -> ev = Slept d) (schedule k d).
Proof.
  intros Hk. destruct k as [|i]; [lia|].
  destruct (failures_attempts i d) as (Ha & Hs & Hd).
  unfold attempts, sleeps in *. rewrite schedule_S, !List.filter_app, !length_app. cbn.
  repeat split; [lia | lia |].
  apply Forall_app. split; [assumption|]. repeat constructor. discriminate.
Qed.

Section Loop.
Context {DB Err : Type}.
Variable pgconnect_New : nat -> DB + Err.
Variables maxRetries retryDelay : Z.
Hypothesis maxRetries_range : 1 <= maxRetries < GoInt.int_max.

Lemma run_S (fuel : nat) (s : state Err) :
  run pgconnect_New maxRetries retryDelay (S fuel) s
  = match step pgconnect_New maxRetries retryDelay s with
    | Running s' => run pgconnect_New maxRetries retryDelay fuel s'
    | r => r
    end.
Proof using Type. reflexivity. Qed.

(** From the head of the loop with [i] failures behind and [n] attempts
    left, [n + 1] passes are enough to return. *)
Lemma run_from_head (n : nat) : forall (i fuel : nat) (e : option Err),
  (1 <= n)%nat ->
  Z.of_nat (i + n) = maxRetries ->
  (n < fuel)%nat ->
  (forall j, (j < i)%nat -> failed (pgconnect_New j)) ->
  exists db e' k,
    run pgconnect_New maxRetries retryDelay fuel
      {| attempt := Z.of_nat i + 1; calls := i; err := e; trace := failures i retryDelay |}
    = Returned db e' (schedule k retryDelay) /\
    outcome pgconnect_New maxRetries k db e'.
Proof using maxRetries_range.
  unfold GoInt.int_max in maxRetries_range.
  induction n as [|n IH]; intros i fuel e Hn Hleft Hfuel Hfailed; [lia|].
  destruct fuel as [|fuel]; [lia|].
  rewrite run_S. unfold step. cbn [attempt calls err trace].
  destruct (Z.leb_spec (Z.of_nat i + 1) maxRetries) as [_|Hgt]; [|lia].
  destruct (pgconnect_New i) as [conn|cause] eqn:Hcall.
  - exists (Some conn), None, (S i). rewrite schedule_S. split; [reflexivity|].
    unfold outcome. rewrite Nat.sub_succ, Nat.sub_0_r.
    repeat split; try lia; assumption.
  - assert (Hfailed' : forall j, (j < S i)%nat -> failed (pgconnect_New j)).
    { intros j Hj. destruct (Nat.eq_dec j i) as [->|]; [by rewrite Hcall|].
      apply Hfailed. lia. }
    rewrite GoIntFacts.wrap_id
      by (unfold GoInt.in_int, GoInt.int_min, GoInt.int_max; lia).
    destruct (Z.ltb_spec (Z.of_nat i + 1) maxRetries) as [Hlt|Hlast].
    + rewrite <- app_assoc. cbn [app]. rewrite <- failures_S.
      replace (Z.of_nat i + 1 + 1) with (Z.of_nat (S i) + 1) by lia.
      apply IH; try lia. exact Hfailed'.
    + destruct fuel as [|fuel]; [lia|].
      rewrite run_S. unfold step. cbn [attempt calls err trace].
      destruct (Z.leb_spec (Z.of_nat i + 1 + 1) maxRetries) as [|_]; [lia|].
      exists None, (Some (mkConnectError maxRetries (Some cause))), (S i).
      rewrite schedule_S. split; [reflexivity|].
      unfold outcome. rewrite Nat.sub_succ, Nat.sub_0_r.
      repeat split; try lia; [assumption|].
      exists cause. split; [assumption | reflexivity].
Qed.

End Loop.

Lemma run_unreachable (d : Z) (n : nat) : forall s : state unit,
  GoInt.in_int (attempt s) ->
  exists s',
    run unreachable GoInt.int_max d n s = Running s' /\
    calls s' = (calls s + n)%nat /\ GoInt.in_int (attempt s').
Proof.
  induction n as [|n IH]; intros s Hs.
  - exists s. cbn [run]. split; [reflexivity|]. split; [lia | assumption].
  - cbn [run]. unfold step.
    destruct (Z.leb_spec (attempt s) GoInt.int_max) as [_|Hgt];
      [|unfold GoInt.in_int in Hs; lia].
    cbn [unreachable].
    match goal with
    | |- context [run _ _ _ n ?s1] => destruct (IH s1) as (s' & Hrun & Hcalls & Hin)
    end.
    { cbn [attempt]. apply GoIntFacts.wrap_in_int. }
    exists s'. cbn [calls] in Hcalls. split; [assumption|]. split; [lia | assumption].
Qed.

(** C2, as stated, fails for [maxRetries = 2^63 - 1]: the loop counter
    wraps around instead of exceeding [maxRetries], and a connector that
    keeps failing is called more than [maxRetries] times without [Connect]
    having returned. *)
Lemma Connect_exceeds_max_int_retries :
  exists fuel s,
    Connect unreachable GoInt.int_max 30000000000 fuel = Running s /\
    GoInt.int_max < Z.of_nat (calls s).
Proof.
  destruct (run_unreachable 30000000000 (Z.to_nat (2 ^ 63))
              {| attempt := 1; calls := 0; err := None; trace := [] |})
    as (s & Hrun & Hcalls & _).
  { unfold GoInt.in_int, GoInt.int_min, GoInt.int_max. cbn [attempt]. lia. }
  exists (Z.to_nat (2 ^ 63)), s. split; [exact Hrun|].
  rewrite Hcalls. cbn [calls]. unfold GoInt.int_max. lia.
Qed.

(** C2 (amended): for every [maxRetries] with [1 <= maxRetries < 2^63 - 1]
    and every [retryDelay], [Connect] returns (any fuel above [maxRetries]
    is enough) after [k <= maxRetries] attempts with a sleep of
    [retryDelay], always the same, between consecutive attempts and nowhere
    else, so [k - 1] sleeps; all attempts before the last one failed.  It
    returns the connection and no error if the last attempt succeeded;
    otherwise [k = maxRetries], the last attempt failed too, and it returns
    no connection and an error that wraps the last failure. *)
Theorem Connect_bounded_retry {DB Err : Type} (pgconnect_New : nat -> DB + Err)
    (maxRetries retryDelay : Z) (fuel : nat) :
  1 <= maxRetries < GoInt.int_max ->
  (Z.to_nat maxRetries < fuel)%nat ->
  exists db e k,
    Connect pgconnect_New maxRetries retryDelay fuel
    = Returned db e (schedule k retryDelay) /\
    outcome pgconnect_New maxRetries k db e /\
    attempts (schedule k retryDelay) = k /\
    sleeps (schedule k retryDelay) = (k - 1)%nat /\
    Forall (fun ev => is_sleep ev = true -> ev = Slept retryDelay) (schedule k retryDelay).
Proof.
  intros Hrange Hfuel.
  destruct (run_from_head pgconnect_New maxRetries retryDelay Hrange
              (Z.to_nat maxRetries) 0 fuel None) as (db & e & k & Hrun & Hout);
    try lia.
  exists db, e, k. split; [exact Hrun|]. split; [exact Hout|].
  apply schedule_counts. destruct Hout as [Hk _]. exact Hk.
Qed.

(** The amended C2 at an instance: three retries allowed, the third
    attempt succeeds. *)
Lemma Connect_bounded_retry_witness :
  1 <= 3 < GoInt.int_max /\ (Z.to_nat 3 < 5)%nat /\
  exists db e k,
    Connect third_time_lucky 3 30 5 = Returned db e (schedule k 30) /\
    outcome third_time_lucky 3 k db e /\
    attempts (schedule k 30) = k /\
    sleeps (schedule k 30) = (k - 1)%nat /\
    Forall (fun ev => is_sleep ev = true -> ev = Slept 30) (schedule k 30).
Proof.
  assert (H1 : 1 <= 3 < GoInt.int_max) by (unfold GoInt.int_max; lia).
  assert (H2 : (Z.to_nat 3 < 5)%nat) by (cbn; lia).
  split; [exact H1|]. split; [exact H2|].
  exact (Connect_bounded_retry third_time_lucky 3 30 5 H1 H2).
Defined.

Example Connect_third_time_lucky :
  Connect third_time_lucky 3 30 5
  = Returned (Some "db") None [Attempt 1; Slept 30; Attempt 2; Slept 30; Attempt 3].
Proof. reflexivity. Qed.

Example Connect_gives_up :
  Connect (fun _ => inr "connection refused" : string + string) 3 30 4
  = Returned None (Some (mkConnectError 3 (Some "connection refused")))
      [Attempt 1; Slept 30; Attempt 2; Slept 30; Attempt 3].
Proof. reflexivity. Qed.

Example Connect_no_retries_configured :
  Connect (fun _ => inl "db" : string + string) 0 30 1
  = Returned None (Some (mkConnectError 0 None)) [].
Proof. reflexivity. Qed.

End ConnectFacts.

(** ** binary64 rounding *)

Module Float64Facts.
Import Float64.

Lemma pow2_pos (k : Z) : 0 <= k -> 0 < 2 ^ k.
Proof. intros Hk. apply Z.pow_pos_nonneg; lia. Qed.

Lemma pow2_add (a b : Z) : 0 <= a -> 0 <= b -> 2 ^ (a + b) = 2 ^ a * 2 ^ b.
Proof. intros. apply Z.pow_add_r; assumption. Qed.

Lemma floor_unique (x a b : Z) : 0 < b -> a * b <= x < (a + 1) * b -> x / b = a.
Proof.
  intros Hb Hx. symmetry. apply (Z.div_unique x b a (x - a * b)); lia.
Qed.

(** *** Rounding to nearest *)

Section Rne.
Variables N D : Z.
Hypothesis D_pos : 0 < D.

Lemma rne_cases : rne N D = N / D \/ rne N D = N / D + 1.
Proof using Type.
  unfold rne. destruct (2 * (N mod D) ?= D); [destruct (Z.even (N / D))| |]; auto.
Qed.

Lemma rne_exact (c : Z) : N = c * D -> rne N D = c.
Proof using D_pos.
  intros ->. unfold rne. rewrite Z.mod_mul, Z.div_mul by lia.
  replace (2 * 0 ?= D) with Lt by (symmetry; apply Z.compare_lt_iff; lia).
  reflexivity.
Qed.

Lemma rne_ge (c : Z) : c * D <= N -> c <= rne N D.
Proof using D_pos.
  intros Hc. assert (c <= N / D) by (apply Z.div_le_lower_bound; lia).
  destruct rne_cases as [-> | ->]; lia.
Qed.

Lemma rne_le (c : Z) : N <= c * D -> rne N D <= c.
Proof using D_pos.
  intros Hc.
  destruct (Z.eq_dec N (c * D)) as [Heq|Hne]; [rewrite (rne_exact c Heq); lia|].
  assert (N / D < c) by (apply Z.div_lt_upper_bound; lia).
  destruct rne_cases as [-> | ->]; lia.
Qed.

(** Past the midpoint above [c], the quotient is rounded to more than [c]. *)
Lemma rne_gt (c : Z) : c * D <= N -> D < 2 * (N - c * D) -> c < rne N D.
Proof using D_pos.
  intros Hc Hhalf.
  assert (Hq : c <= N / D) by (apply Z.div_le_lower_bound; lia).
  destruct (Z.eq_dec (N / D) c) as [Heq|Hne].
  - unfold rne. rewrite Heq.
    assert (Hr : N mod D = N - c * D) by (rewrite Z.mod_eq by lia; rewrite Heq; ring).
    rewrite Hr.
    replace (2 * (N - c * D) ?= D) with Gt by (symmetry; apply Z.compare_gt_iff; lia).
    lia.
  - destruct rne_cases as [-> | ->]; lia.
Qed.

End Rne.

(** *** The exponent chosen by [round53] *)

Lemma log2_ratio_lower (n d : Z) :
  0 < n -> 0 < d ->
  d * 2 ^ Z.max 0 (log2_ratio n d) <= n * 2 ^ Z.max 0 (- log2_ratio n d).
Proof.
  intros Hn Hd. unfold log2_ratio.
  destruct (Z.log2_spec n Hn) as [Hn1 Hn2].
  destruct (Z.log2_spec d Hd) as [Hd1 Hd2].
  pose proof (Z.log2_nonneg n) as Hln. pose proof (Z.log2_nonneg d) as Hld.
  set (ln := Z.log2 n) in *. set (ld := Z.log2 d) in *.
  destruct (Z.ltb_spec (n * 2 ^ Z.max 0 (- (ln - ld))) (d * 2 ^ Z.max 0 (ln - ld)))
    as [Hlt|Hge]; [|lia].
  destruct (Z_le_gt_dec 1 (ln - ld)) as [Hk|Hk].
  - rewrite (Z.max_r 0 (ln - ld - 1)), (Z.max_l 0 (- (ln - ld - 1))) by lia.
    rewrite Z.pow_0_r, Z.mul_1_r.
    assert (Hpow : 2 ^ ln = 2 ^ (ld + 1) * 2 ^ (ln - ld - 1)).
    { rewrite <- pow2_add by lia. f_equal. lia. }
    pose proof (pow2_pos (ln - ld - 1)). nia.
  - rewrite (Z.max_l 0 (ln - ld - 1)), (Z.max_r 0 (- (ln - ld - 1))) by lia.
    rewrite Z.pow_0_r, Z.mul_1_r.
    assert (Hpow : 2 ^ (ld + 1) = 2 ^ ln * 2 ^ (- (ln - ld - 1))).
    { rewrite <- pow2_add by lia. f_equal. lia. }
    nia.
Qed.

(** The scaled quotient that [round53] rounds is at least [2^52]. *)
Lemma round53_normal (n d : Z) :
  0 < n -> 0 < d ->
  let e := snd (round53 n d) in
  2 ^ 52 * (d * 2 ^ Z.max 0 e) <= n * 2 ^ Z.max 0 (- e).
Proof.
  intros Hn Hd. cbn [round53 snd].
  pose proof (log2_ratio_lower n d Hn Hd) as Hlg.
  set (lg := log2_ratio n d) in *.
  destruct (Z_le_gt_dec 52 lg) as [Hbig|Hsmall].
  - rewrite (Z.max_r 0 lg), (Z.max_l 0 (- lg)) in Hlg by lia.
    rewrite (Z.max_r 0 (lg - 52)), (Z.max_l 0 (- (lg - 52))) by lia.
    replace lg with (52 + (lg - 52)) in Hlg at 1 by lia.
    rewrite pow2_add in Hlg by lia. rewrite Z.pow_0_r in *. lia.
  - rewrite (Z.max_l 0 (lg - 52)), (Z.max_r 0 (- (lg - 52))) by lia.
    rewrite Z.pow_0_r, Z.mul_1_r.
    destruct (Z_le_gt_dec 0 lg) as [Hpos|Hneg].
    + rewrite (Z.max_r 0 lg), (Z.max_l 0 (- lg)) in Hlg by lia.
      rewrite Z.pow_0_r, Z.mul_1_r in Hlg.
      assert (Hpow : 2 ^ 52 = 2 ^ lg * 2 ^ (- (lg - 52))).
      { rewrite <- pow2_add by lia. f_equal. lia. }
      pose proof (pow2_pos (- (lg - 52))). rewrite Hpow. nia.
    + rewrite (Z.max_l 0 lg), (Z.max_r 0 (- lg)) in Hlg by lia.
      rewrite Z.pow_0_r, Z.mul_1_r in Hlg.
      assert (Hpow : 2 ^ (- (lg - 52)) = 2 ^ (- lg) * 2 ^ 52).
      { rewrite <- pow2_add by lia. f_equal. lia. }
      rewrite Hpow. nia.
Qed.

(** *** Agreement with the Standard Library's IEEE 754 specification *)

Example div_agrees_with_SpecFloat :
  forallb agree
    [(10, 3); (1, 3); (2, 3); (5, 4); (0, 5); (5, 0); (0, 0); (-7, 2); (7, -2);
     (9007199254740992, 3); (9007199254740993, 1); (9007199254740993, 3);
     (9007199254740995, 1); (18014398509481985, 3); (18014398509481987, 1);
     (36028797018963971, 1); (4503599627370497, 2); (123456789012345678, 987654321);
     (9007199254740991, 9007199254740993); (1, 9223372036854775807);
     (9223372036854775807, 7); (9223372036854775807, 9223372036854775806);
     (-9223372036854775808, 3); (6148914691236517205, 9223372036854775807)]
  = true.
Proof. vm_compute. reflexivity. Qed.

Example of_int_rounds_to_even :
  of_int 9007199254740993 = Fin 4503599627370496 1 /\
  of_int 9007199254740995 = Fin 4503599627370498 1 /\
  of_int 9007199254740992 = Fin 9007199254740992 0.
Proof. repeat split; reflexivity. Qed.

Example Ceil_examples :
  to_int (Ceil (div (of_int 10) (of_int 3))) = 4 /\
  to_int (Ceil (div (of_int 9) (of_int 3))) = 3 /\
  to_int (Ceil (div (of_int (-7)) (of_int 2))) = -3 /\
  to_int (Ceil (div (of_int 5) (of_int 0))) = GoInt.int_min.
Proof. repeat split; reflexivity. Qed.

(** *** Conversions *)

Lemma to_int_integer (v : Z) : GoInt.in_int v -> to_int (Fin v 0) = v.
Proof.
  unfold GoInt.in_int. intros [H1 H2]. unfold to_int.
  cbn [Z.leb Z.compare]. rewrite Z.pow_0_r, Z.mul_1_r.
  apply Z.leb_le in H1, H2. rewrite H1, H2. reflexivity.
Qed.

Lemma of_int_exact (n : Z) : Z.abs n <= 2 ^ 53 -> of_int n = Fin n 0.
Proof.
  intros Hn. unfold of_int. apply Z.leb_le in Hn. rewrite Hn. reflexivity.
Qed.

(** Above [2^53] the conversion rounds to a mantissa of at least [2^52]
    with a positive exponent. *)
Lemma of_int_large (n : Z) :
  2 ^ 53 < n ->
  exists m e, of_int n = Fin m e /\ 2 ^ 52 <= m /\ 1 <= e.
Proof.
  intros Hn. unfold of_int.
  destruct (Z.leb_spec (Z.abs n) (2 ^ 53)) as [Hsmall|_]; [lia|].
  rewrite Z.abs_eq, Z.sgn_pos by lia.
  pose proof (round53_normal n 1 ltac:(lia) ltac:(lia)) as Hnormal.
  unfold round53 in *. cbn [snd] in Hnormal.
  assert (Hlg : 53 <= log2_ratio n 1).
  { unfold log2_ratio. change (Z.log2 1) with 0. rewrite Z.sub_0_r.
    pose proof (Z.log2_nonneg n).
    assert (53 <= Z.log2 n).
    { change 53 with (Z.log2 (2 ^ 53)). apply Z.log2_le_mono. lia. }
    rewrite (Z.max_l 0 (- Z.log2 n)), (Z.max_r 0 (Z.log2 n)) by lia.
    rewrite Z.pow_0_r, Z.mul_1_r, Z.mul_1_l.
    destruct (Z.log2_spec n ltac:(lia)) as [Hlow _].
    destruct (Z.ltb_spec n (2 ^ Z.log2 n)); lia. }
  set (e := log2_ratio n 1 - 52) in *.
  rewrite (Z.max_r 0 e), (Z.max_l 0 (- e)) in * by lia.
  rewrite Z.pow_0_r, Z.mul_1_r, Z.mul_1_l in *.
  eexists _, e. split; [reflexivity|]. split; [|lia].
  rewrite Z.mul_1_l. apply rne_ge; [apply pow2_pos; lia | lia].
Qed.

(** *** The quotient of two exactly represented integers, rounded up *)

Lemma ceil_div_exact_operands (A P : Z) :
  0 < A <= 2 ^ 53 -> 0 < P <= 2 ^ 53 ->
  Spec.is_ceiling (to_int (Ceil (div (Fin A 0) (Fin P 0)))) A P.
Proof.
  intros HA HP. unfold div.
  destruct (Z.eqb_spec P 0) as [|_]; [lia|].
  destruct (Z.eqb_spec A 0) as [|_]; [lia|].
  rewrite !Z.abs_eq, !Z.sgn_pos by lia.
  pose proof (round53_normal A P ltac:(lia) ltac:(lia)) as Hnormal.
  unfold round53 in *. cbn [snd] in Hnormal.
  set (e := log2_ratio A P - 52) in *.
  rewrite !Z.mul_1_l, Z.add_0_r, Z.sub_0_r.
  unfold Spec.is_ceiling.
  destruct (Z_le_gt_dec 0 e) as [Hpos|Hneg].
  - (* the quotient is at least 2^52: only 2^53/1, 2^53/2 and A/1 qualify *)
    rewrite (Z.max_r 0 e), (Z.max_l 0 (- e)) in * by lia.
    rewrite Z.pow_0_r, Z.mul_1_r in *.
    assert (He : e = 0 \/ e = 1).
    { destruct (Z_le_gt_dec e 1); [lia|].
      assert (2 ^ 2 <= 2 ^ e) by (apply Z.pow_le_mono_r; lia).
      change (2 ^ 2) with 4 in *. nia. }
    destruct He as [-> | ->]; cbn [Ceil Z.leb Z.compare].
    + rewrite Z.pow_0_r, Z.mul_1_r in *.
      assert (HP' : P = 1 \/ (P = 2 /\ A = 2 ^ 53)) by lia.
      destruct HP' as [-> | [-> ->]].
      * rewrite (rne_exact A 1 ltac:(lia) A) by lia.
        rewrite to_int_integer by (unfold GoInt.in_int, GoInt.int_min, GoInt.int_max; lia).
        lia.
      * vm_compute. split; [reflexivity | discriminate].
    + change (2 ^ 1) with 2 in *.
      assert (P = 1 /\ A = 2 ^ 53) as [-> ->] by lia.
      vm_compute. split; [reflexivity | discriminate].
  - (* the quotient is below 2^52 and is rounded at the bit 2^e, e < 0 *)
    rewrite (Z.max_l 0 e), (Z.max_r 0 (- e)) in * by lia.
    rewrite Z.pow_0_r, Z.mul_1_r in *.
    cbn [Ceil]. destruct (Z.leb_spec 0 e) as [|_]; [lia|].
    set (k := - e) in *.
    assert (Hk : 0 < 2 ^ k) by (apply pow2_pos; lia).
    assert (Hk2 : 2 ^ k = 2 * 2 ^ (k - 1)).
    { rewrite <- Z.pow_succ_r by lia. f_equal. lia. }
    assert (Hk1 : 0 < 2 ^ (k - 1)) by (apply pow2_pos; lia).
    set (m := rne (A * 2 ^ k) P).
    pose proof (Z.div_mod A P ltac:(lia)) as Hdiv.
    pose proof (Z.mod_pos_bound A P ltac:(lia)) as Hmod.
    set (q := A / P) in *. set (r := A mod P) in *.
    assert (Hq : 0 <= q) by (apply Z.div_pos; lia).
    destruct (Z.eq_dec r 0) as [Hr|Hr].
    + assert (Hm : m = q * 2 ^ k).
      { apply rne_exact; [lia|]. rewrite Hdiv, Hr. ring. }
      rewrite Hm.
      replace (- (q * 2 ^ k)) with (- q * 2 ^ k) by ring.
      rewrite Z.div_mul by lia.
      rewrite to_int_integer
        by (unfold GoInt.in_int, GoInt.int_min, GoInt.int_max; nia).
      nia.
    + assert (Hupper : m <= (q + 1) * 2 ^ k).
      { apply rne_le; [lia|]. nia. }
      assert (Hlower : q * 2 ^ k < m).
      { apply rne_gt; [lia | nia |].
        replace (A * 2 ^ k - q * 2 ^ k * P) with (r * 2 ^ k) by (rewrite Hdiv; ring).
        destruct (Z.eq_dec r 1) as [Hr1|Hr1]; [|nia].
        destruct (Z.eq_dec P (2 * 2 ^ k)) as [HP2|HP2]; [|nia].
        exfalso. assert (A = 2 ^ 53) by nia.
        assert (Heven : 2 ^ 53 = 2 * (q * 2 ^ k) + 1) by lia.
        lia. }
      assert (Hfloor : - m / 2 ^ k = - (q + 1)).
      { apply floor_unique; [lia|]. lia. }
      rewrite Hfloor.
      rewrite to_int_integer
        by (unfold GoInt.in_int, GoInt.int_min, GoInt.int_max; nia).
      nia.
Qed.

(** A divisor above [2^53] exceeds every exactly represented dividend: the
    quotient lies in (0, 1] and is rounded up to 1. *)
Lemma ceil_div_large_divisor (A P : Z) :
  0 < A <= 2 ^ 53 -> 2 ^ 53 < P ->
  to_int (Ceil (div (Fin A 0) (of_int P))) = 1.
Proof.
  intros HA HP.
  destruct (of_int_large P HP) as (mp & ep & -> & Hmp & Hep).
  change (2 ^ 52) with 4503599627370496 in Hmp.
  change (2 ^ 53) with 9007199254740992 in HA.
  unfold div.
  destruct (Z.eqb_spec mp 0) as [|_]; [lia|].
  destruct (Z.eqb_spec A 0) as [|_]; [lia|].
  rewrite !Z.abs_eq, !Z.sgn_pos by lia.
  pose proof (round53_normal A mp ltac:(lia) ltac:(lia)) as Hnormal.
  unfold round53 in *. cbn [snd] in Hnormal.
  set (e := log2_ratio A mp - 52) in *.
  change (2 ^ 52) with 4503599627370496 in Hnormal.
  rewrite !Z.mul_1_l, Z.add_0_r.
  assert (He : e < 0).
  { destruct (Z_le_gt_dec 0 e) as [Hpos|]; [|lia]. exfalso.
    rewrite (Z.max_r 0 e), (Z.max_l 0 (- e)) in Hnormal by lia.
    pose proof (pow2_pos e Hpos). rewrite Z.pow_0_r in Hnormal. nia. }
  rewrite (Z.max_l 0 e), (Z.max_r 0 (- e)) in * by lia.
  rewrite Z.pow_0_r, Z.mul_1_r in *.
  set (k := - e) in *.
  assert (Hk : 0 < 2 ^ k) by (apply pow2_pos; lia).
  set (m := rne (A * 2 ^ k) mp).
  assert (Hlow : 4503599627370496 <= m) by (apply rne_ge; lia).
  assert (Hhigh : m <= 2 * 2 ^ k) by (apply rne_le; [lia | nia]).
  cbn [Ceil]. destruct (Z.leb_spec 0 (e - ep)) as [|_]; [lia|].
  assert (Hpow : 2 ^ (- (e - ep)) = 2 ^ k * 2 ^ ep).
  { rewrite <- pow2_add by lia. f_equal. lia. }
  assert (Hep2 : 2 <= 2 ^ ep).
  { change 2 with (2 ^ 1) at 1. apply Z.pow_le_mono_r; lia. }
  rewrite Hpow.
  assert (Hfloor : - m / (2 ^ k * 2 ^ ep) = - 1).
  { apply floor_unique; nia. }
  rewrite Hfloor. reflexivity.
Qed.

End Float64Facts.

(** ** package responses: pagination metadata *)

Module PaginationFacts.
Import Gin Responses.

(** Up to [2^53] records the float computation gives the ceiling. *)
Lemma CalculateTotalPages_ceiling (total pageSize : Z) :
  0 <= total <= 2 ^ 53 -> 1 <= pageSize <= GoInt.int_max ->
  Spec.is_ceiling (CalculateTotalPages total pageSize) total pageSize.
Proof.
  intros Htotal Hsize. unfold CalculateTotalPages.
  rewrite (Float64Facts.of_int_exact total) by lia.
  destruct (Z_le_gt_dec pageSize (2 ^ 53)) as [Hsmall|Hlarge].
  - rewrite (Float64Facts.of_int_exact pageSize) by lia.
    destruct (Z.eq_dec total 0) as [->|Hpos].
    + unfold Float64.div. destruct (Z.eqb_spec pageSize 0) as [|_]; [lia|].
      rewrite Z.eqb_refl.
      change (Float64.to_int (Float64.Ceil (Float64.Fin 0 0))) with 0.
      unfold Spec.is_ceiling. lia.
    + apply Float64Facts.ceil_div_exact_operands; lia.
  - destruct (Z.eq_dec total 0) as [->|Hpos].
    + destruct (Float64Facts.of_int_large pageSize) as (mp & ep & -> & Hmp & _); [lia|].
      unfold Float64.div. destruct (Z.eqb_spec mp 0) as [|_]; [lia|].
      rewrite Z.eqb_refl.
      change (Float64.to_int (Float64.Ceil (Float64.Fin 0 0))) with 0.
      unfold Spec.is_ceiling. lia.
    + rewrite Float64Facts.ceil_div_large_divisor by lia.
      unfold Spec.is_ceiling. lia.
Qed.

(** C1, as stated, fails: [float64(total)] rounds totals above [2^53], and
    the page count is then not the ceiling.  With [2^53 + 1] records in
    pages of one it is one page short, and page [2^53] is reported to have
    no successor. *)
Lemma Paginated_total_pages_rounded :
  PaginationResponse.TotalPages
    (Body (Paginated 0 VNil 9007199254740993 9007199254740992 1))
  = 9007199254740992 /\
  PaginationResponse.HasNext
    (Body (Paginated 0 VNil 9007199254740993 9007199254740992 1))
  = false /\
  PaginationMeta.TotalPages (CreatePaginationMeta 9007199254740993 9007199254740992 1)
  = 9007199254740992 /\
  9007199254740992 * 1 < 9007199254740993.
Proof. vm_compute. repeat split; reflexivity. Qed.

(** C1 (amended): for every [total] with [0 <= total <= 2^53], every
    [pageSize >= 1] and every [page], the metadata computed by [Paginated]
    and by [CreatePaginationMeta] has [TotalPages] equal to the ceiling of
    [total / pageSize], [HasNext] true exactly when [page < TotalPages] and
    [HasPrev] true exactly when [page > 1]. *)
Theorem pagination_metadata (now : Z) (data : value) (total page pageSize : Z) :
  0 <= total <= 2 ^ 53 ->
  1 <= pageSize <= GoInt.int_max ->
  let r := Body (Paginated now data total page pageSize) in
  let m := CreatePaginationMeta total page pageSize in
  Spec.is_ceiling (PaginationResponse.TotalPages r) total pageSize /\
  (PaginationResponse.HasNext r = true <-> page < PaginationResponse.TotalPages r) /\
  (PaginationResponse.HasPrev r = true <-> page > 1) /\
  Spec.is_ceiling (PaginationMeta.TotalPages m) total pageSize /\
  (PaginationMeta.HasNext m = true <-> page < PaginationMeta.TotalPages m) /\
  (PaginationMeta.HasPrev m = true <-> page > 1).
Proof.
  intros Htotal Hsize. cbn zeta.
  pose proof (CalculateTotalPages_ceiling total pageSize Htotal Hsize) as Hceil.
  unfold Paginated, CreatePaginationMeta.
  cbn [Body PaginationResponse.TotalPages PaginationResponse.HasNext
       PaginationResponse.HasPrev PaginationMeta.TotalPages PaginationMeta.HasNext
       PaginationMeta.HasPrev].
  fold (CalculateTotalPages total pageSize).
  rewrite Z.gtb_ltb, !Z.ltb_lt.
  repeat split; try apply Hceil; lia.
Qed.

(** The amended C1 at the case of the test suite: 10 records in pages of 3. *)
Lemma pagination_metadata_witness :
  0 <= 10 <= 2 ^ 53 /\ 1 <= 3 <= GoInt.int_max /\
  Spec.is_ceiling (PaginationResponse.TotalPages (Body (Paginated 0 VNil 10 1 3))) 10 3 /\
  (PaginationResponse.HasNext (Body (Paginated 0 VNil 10 1 3)) = true
   <-> 1 < PaginationResponse.TotalPages (Body (Paginated 0 VNil 10 1 3))) /\
  (PaginationResponse.HasPrev (Body (Paginated 0 VNil 10 1 3)) = true <-> 1 > 1) /\
  Spec.is_ceiling (PaginationMeta.TotalPages (CreatePaginationMeta 10 1 3)) 10 3 /\
  (PaginationMeta.HasNext (CreatePaginationMeta 10 1 3) = true
   <-> 1 < PaginationMeta.TotalPages (CreatePaginationMeta 10 1 3)) /\
  (PaginationMeta.HasPrev (CreatePaginationMeta 10 1 3) = true <-> 1 > 1).
Proof.
  assert (H1 : 0 <= 10 <= 2 ^ 53) by lia.
  assert (H2 : 1 <= 3 <= GoInt.int_max) by (unfold GoInt.int_max; lia).
  split; [exact H1|]. split; [exact H2|].
  exact (pagination_metadata 0 VNil 10 1 3 H1 H2).
Defined.

Example Paginated_test_case :
  Paginated 1700000000 (VList [VString "item1"; VString "item2"; VString "item3"]) 10 1 3
  = JSON 200
      {| PaginationResponse.Data := VList [VString "item1"; VString "item2"; VString "item3"];
         PaginationResponse.Total := 10;
         PaginationResponse.Page := 1;
         PaginationResponse.PageSize := 3;
         PaginationResponse.TotalPages := 4;
         PaginationResponse.HasNext := true;
         PaginationResponse.HasPrev := false;
         PaginationResponse.Timestamp := 1700000000 |}.
Proof. vm_compute. reflexivity. Qed.

End PaginationFacts.

(** ** Strings *)

Module StringFacts.

Lemma append_cons (a : ascii) (s t : string) :
  (String a s ++ t)%string = String a (s ++ t)%string.
Proof. reflexivity. Qed.

Lemma append_nil_r (s : string) : (s ++ "")%string = s.
Proof.
  induction s as [|a s IH]; [reflexivity|]. rewrite append_cons, IH. reflexivity.
Qed.

Lemma append_length (s t : string) :
  String.length (s ++ t) = (String.length s + String.length t)%nat.
Proof.
  induction s as [|a s IH]; [reflexivity|].
  rewrite append_cons. cbn [String.length]. rewrite IH. reflexivity.
Qed.

Lemma append_nonempty_r (s t : string) : t <> "" -> (s ++ t)%string <> "".
Proof.
  intros Ht H. apply (f_equal String.length) in H.
  rewrite append_length in H. destruct t; [congruence|]. cbn in H. lia.
Qed.

Lemma append_longer (s t : string) : t <> "" -> (s ++ t)%string <> s.
Proof.
  intros Ht H. apply (f_equal String.length) in H.
  rewrite append_length in H. destruct t; [congruence|]. cbn in H. lia.
Qed.

Lemma append_assoc (s t u : string) : ((s ++ t) ++ u)%string = (s ++ (t ++ u))%string.
Proof.
  induction s as [|a s IH]; [reflexivity|]. rewrite !append_cons, IH. reflexivity.
Qed.

End StringFacts.

(** ** [strconv.Itoa] and back *)

Module ItoaFacts.
Import GoInt Spec.

Lemma digit_ascii (d : Z) :
  0 <= d <= 9 ->
  Z.of_N (N_of_ascii (ascii_of_N (Z.to_N (48 + d)))) = 48 + d.
Proof.
  intros Hd. rewrite N_ascii_embedding by lia. lia.
Qed.

Lemma format_digits_spec (fuel : nat) : forall n acc,
  (1 <= fuel)%nat -> 0 <= n < 10 ^ Z.of_nat fuel ->
  all_digits acc = true ->
  exists c rest,
    format_digits fuel n acc = String c rest /\
    is_digit c = true /\
    all_digits rest = true /\
    digits_value (String c rest)
    = n * 10 ^ Z.of_nat (String.length acc) + digits_value acc.
Proof.
  induction fuel as [|fuel IH]; intros n acc Hfuel Hn Hacc; [lia|].
  cbn [format_digits].
  pose proof (Z.mod_pos_bound n 10 ltac:(lia)) as Hmod.
  set (d := ascii_of_N (Z.to_N (48 + n mod 10))).
  assert (Hcode : Z.of_N (N_of_ascii d) = 48 + n mod 10) by (apply digit_ascii; lia).
  assert (Hd : is_digit d = true).
  { unfold is_digit. rewrite Hcode. apply andb_true_iff. split; apply Z.leb_le; lia. }
  destruct (Z.ltb_spec n 10) as [Hsmall|Hbig].
  - exists d, acc. repeat split; try assumption.
    cbn [digits_value]. rewrite Hcode, Z.mod_small by lia. ring.
  - assert (Hfuel' : (1 <= fuel)%nat).
    { destruct fuel; [|lia]. cbn in Hn. lia. }
    rewrite Nat2Z.inj_succ, Z.pow_succ_r in Hn by lia.
    destruct (IH (n / 10) (String d acc) Hfuel') as (c & rest & Heq & Hc & Hrest & Hvalue).
    + split; [apply Z.div_pos; lia | apply Z.div_lt_upper_bound; lia].
    + cbn [all_digits]. rewrite Hd, Hacc. reflexivity.
    + exists c, rest. repeat split; try assumption.
      rewrite Hvalue. cbn [digits_value String.length].
      rewrite Hcode, Nat2Z.inj_succ, Z.pow_succ_r by lia.
      pose proof (Z.div_mod n 10 ltac:(lia)) as Hdiv.
      set (q := n / 10) in *. set (r := n mod 10) in *.
      rewrite Hdiv. ring.
Qed.

Lemma digit_not_sign (c : ascii) : is_digit c = true -> is_sign c = false.
Proof.
  unfold is_digit, is_sign. intros H. apply andb_true_iff in H as [H1 H2].
  apply Z.leb_le in H1, H2.
  apply orb_false_iff. split; apply Ascii.eqb_neq; intros ->; cbn in *; lia.
Qed.

(** What [Itoa] writes, [Atoi] reads back. *)
Lemma Atoi_Itoa (n : Z) : in_int n -> Atoi (Itoa n) = inl n.
Proof.
  unfold in_int, int_min, int_max. intros Hn.
  apply AtoiFacts.Atoi_spec. unfold Itoa.
  destruct (Z.ltb_spec n 0) as [Hneg|Hpos].
  - destruct (format_digits_spec 20 (- n) "" ltac:(lia) ltac:(lia) eq_refl)
      as (c & rest & -> & Hc & Hrest & Hvalue).
    change (digits_value (String c rest) = - n * 1 + 0) in Hvalue.
    unfold is_decimal_integer, decimal_value, in_int. cbn [digits_of is_negative].
    change (is_sign "-") with true. change ("-" =? "-")%char with true. cbv iota.
    rewrite Hvalue. cbn [all_digits]. rewrite Hc, Hrest.
    unfold int_min, int_max.
    repeat split; try reflexivity; lia.
  - destruct (format_digits_spec 20 n "" ltac:(lia) ltac:(lia) eq_refl)
      as (c & rest & -> & Hc & Hrest & Hvalue).
    change (digits_value (String c rest) = n * 1 + 0) in Hvalue.
    pose proof (digit_not_sign c Hc) as Hsign.
    unfold is_decimal_integer, decimal_value, in_int. cbn [digits_of is_negative].
    rewrite Hsign.
    assert (Hminus : (c =? "-")%char = false).
    { unfold is_sign in Hsign. apply orb_false_iff in Hsign. tauto. }
    rewrite Hminus, Hvalue. cbn [all_digits]. rewrite Hc, Hrest.
    unfold int_min, int_max.
    repeat split; try reflexivity; lia.
Qed.

Example Itoa_examples :
  Itoa 0 = "0" /\ Itoa 7 = "7" /\ Itoa 100 = "100" /\ Itoa (-42) = "-42" /\
  Itoa int_max = "9223372036854775807" /\ Itoa int_min = "-9223372036854775808".
Proof. repeat split; reflexivity. Qed.

End ItoaFacts.

(** ** package types: more on the pagination requests *)

Module RequestFacts.
Import Types.

(** X1: validating a request twice changes nothing more: [Validate] leaves
    a request that [Validate] returns unchanged. *)
Theorem Validate_idempotent (p : PaginationRequest) :
  Validate (snd (Validate p)) = Validate p.
Proof.
  destruct p as [page pageSize sortBy sortOrder].
  unfold Validate, set_Page, set_PageSize, set_SortOrder; cbn.
  split_ifs; bool_facts; subst; try reflexivity; try lia; try congruence;
    cbn in *; try discriminate.
Qed.

(** X2: after [Validate], [GetLimit] is between 1 and 100, and [GetOffset]
    is [(Page - 1) * GetLimit], a non-negative number, provided that
    product is at most [2^63 - 1]. *)
Theorem validated_limit_offset (p : PaginationRequest) :
  let q := snd (Validate p) in
  1 <= GetLimit q <= 100 /\
  ((Page q - 1) * PageSize q <= GoInt.int_max ->
   GetOffset q = (Page q - 1) * GetLimit q /\ 0 <= GetOffset q).
Proof.
  cbn zeta. unfold GetLimit, GetOffset.
  assert (Hq : 1 <= Page (snd (Validate p)) /\ 1 <= PageSize (snd (Validate p)) <= 100).
  { destruct p as [page pageSize sortBy sortOrder].
    unfold Validate, set_Page, set_PageSize, set_SortOrder; cbn.
    split_ifs; bool_facts; lia. }
  destruct Hq as [Hpage Hsize]. split; [exact Hsize|].
  intros Hfit. rewrite GoIntFacts.wrap_id.
  - split; [reflexivity | nia].
  - unfold GoInt.in_int, GoInt.int_min, GoInt.int_max in *. nia.
Qed.

(** X3: [CursorPaginationRequest.Validate] never reports an error; it
    leaves [1 <= Limit <= 100] and [SortOrder] one of ["asc"], ["desc"],
    keeps a limit and a sort order that were already valid, never touches
    [Cursor] and [SortBy], and is idempotent. *)
Theorem CursorValidate_normalises (c : CursorPaginationRequest.t) :
  let v := CursorPaginationRequest.Validate c in
  fst v = None /\
  1 <= CursorPaginationRequest.Limit (snd v) <= 100 /\
  (CursorPaginationRequest.SortOrder (snd v) = "asc" \/
   CursorPaginationRequest.SortOrder (snd v) = "desc") /\
  (1 <= CursorPaginationRequest.Limit c <= 100 ->
   CursorPaginationRequest.Limit (snd v) = CursorPaginationRequest.Limit c) /\
  (CursorPaginationRequest.SortOrder c = "asc" \/
   CursorPaginationRequest.SortOrder c = "desc" ->
   CursorPaginationRequest.SortOrder (snd v) = CursorPaginationRequest.SortOrder c) /\
  CursorPaginationRequest.Cursor (snd v) = CursorPaginationRequest.Cursor c /\
  CursorPaginationRequest.SortBy (snd v) = CursorPaginationRequest.SortBy c /\
  CursorPaginationRequest.Validate (snd v) = v.
Proof.
  destruct c as [cursor limit sortBy sortOrder].
  unfold CursorPaginationRequest.Validate, CursorPaginationRequest.set_Limit,
    CursorPaginationRequest.set_SortOrder; cbn.
  split_ifs; bool_facts; repeat split; intros; subst;
    try lia; try congruence; try tauto; auto; cbn in *; try discriminate.
Qed.

End RequestFacts.

(** ** package config: log level, environment, skipped paths *)

Module ConfigMoreFacts.
Import Config.

(** X4: [DatabaseConfig.GetLogLevel] always returns one of ["silent"],
    ["error"], ["warn"], ["info"]: the configured level if it is one of
    them, ["silent"] otherwise. *)
Theorem GetLogLevel_valid (dc : DatabaseConfig) :
  In (GetLogLevel dc) validLevels /\
  (In (LogLevel dc) validLevels -> GetLogLevel dc = LogLevel dc) /\
  (~ In (LogLevel dc) validLevels -> GetLogLevel dc = "silent").
Proof.
  unfold GetLogLevel.
  destruct (existsb _ validLevels) eqn:Hex.
  - apply existsb_exists in Hex as (level & Hin & Heq).
    apply String.eqb_eq in Heq. rewrite Heq.
    split; [assumption|]. split; [reflexivity|]. intros Hnot. contradiction.
  - split; [cbn; auto|]. split; [|reflexivity].
    intros Hin. exfalso.
    assert (Hyes : existsb (fun level => String.eqb (LogLevel dc) level) validLevels = true).
    { apply existsb_exists. exists (LogLevel dc). split; [assumption | apply String.eqb_refl]. }
    congruence.
Qed.

Lemma prefix_iff (s1 s2 : string) :
  String.prefix s1 s2 = true <-> exists rest, s2 = (s1 ++ rest)%string.
Proof.
  revert s2. induction s1 as [|c s1 IH]; intros [|c' s2]; cbn.
  - split; [intros _; exists ""; reflexivity | reflexivity].
  - split; [intros _; exists (String c' s2); reflexivity | reflexivity].
  - split; [discriminate | intros [rest H]; discriminate].
  - destruct (Ascii.ascii_dec c c') as [->|Hne].
    + rewrite IH. split; intros [rest H]; exists rest;
        [subst; reflexivity | rewrite StringFacts.append_cons in H; congruence].
    + split; [discriminate|].
      intros [rest H]. rewrite StringFacts.append_cons in H. congruence.
Qed.

(** X5: a path skips authentication exactly when it starts with one of the
    configured skip paths (so ["/health"] also skips ["/healthz"], and an
    empty skip path skips everything). *)
Theorem ShouldSkipPath_prefix (kc : KeycloakConfig.t) (path : string) :
  KeycloakConfig.ShouldSkipPath kc path = true <->
  exists skipPath rest,
    In skipPath (KeycloakConfig.SkipPaths kc) /\ path = (skipPath ++ rest)%string.
Proof.
  unfold KeycloakConfig.ShouldSkipPath. rewrite existsb_exists. split.
  - intros (skipPath & Hin & H). apply orb_true_iff in H as [H|H].
    + apply String.eqb_eq in H. subst. exists skipPath, "".
      split; [assumption|]. symmetry. apply StringFacts.append_nil_r.
    + apply prefix_iff in H as [rest ->]. exists skipPath, rest. auto.
  - intros (skipPath & rest & Hin & ->). exists skipPath. split; [assumption|].
    apply orb_true_iff. right. apply prefix_iff. eauto.
Qed.

(** X6: the environment predicates exclude one another: at most one of
    [IsDevelopment], [IsProduction], [IsStaging] holds, and they hold for
    exactly the names ["dev"], ["development"], ["prod"], ["production"],
    ["staging"]. *)
Theorem environment_exclusive (c : AppConfig.t) :
  AppConfig.IsDevelopment c && AppConfig.IsProduction c = false /\
  AppConfig.IsDevelopment c && AppConfig.IsStaging c = false /\
  AppConfig.IsProduction c && AppConfig.IsStaging c = false /\
  (AppConfig.IsDevelopment c || AppConfig.IsProduction c || AppConfig.IsStaging c = true
   <-> In (AppConfig.Environment c) ["dev"; "development"; "prod"; "production"; "staging"]).
Proof.
  unfold AppConfig.IsDevelopment, AppConfig.IsProduction, AppConfig.IsStaging.
  set (env := AppConfig.Environment c).
  repeat match goal with
         | |- context [String.eqb env ?s] => destruct (String.eqb_spec env s)
         end; cbn; repeat split; intros; try congruence; try tauto;
    try discriminate;
    repeat match goal with H : _ \/ _ |- _ => destruct H end;
    try congruence; try tauto;
    match goal with e : env = _ |- _ => rewrite e end; cbn; intuition.
Qed.

End ConfigMoreFacts.

(** ** package config: the validator and the list parsers *)

Module ValidatorFacts.
Import Config Spec.

(** X7: [ValidatePort] accepts exactly the empty value (which it leaves to
    [ValidateRequired]) and the decimal integers from 1 to 65535; for every
    other value it records one error for the field. *)
Theorem ValidatePort_accepts (v : Validator.t) (field value : string) :
  (value = "" \/ (is_decimal_integer value = true /\ 1 <= decimal_value value <= 65535) ->
   Validator.ValidatePort v field value = v) /\
  (~ (value = "" \/ (is_decimal_integer value = true /\ 1 <= decimal_value value <= 65535)) ->
   exists msg,
     Validator.errors (Validator.ValidatePort v field value)
     = (Validator.errors v ++ [ValidationError.mk field value msg])%list).
Proof.
  unfold Validator.ValidatePort.
  destruct (String.eqb_spec value "") as [->|Hvalue]; [split; [reflexivity | tauto]|].
  destruct (GoInt.Atoi value) as [port|e] eqn:HAtoi.
  - apply AtoiFacts.Atoi_spec in HAtoi as (Hdec & Hint & ->).
    destruct (Z.ltb_spec (decimal_value value) 1);
      destruct (Z.gtb_spec (decimal_value value) 65535); cbn [orb];
      (split; [intros [?|[_ ?]]; [congruence | try lia; reflexivity]
              | intros Hnot; try (exfalso; apply Hnot; right; split; [assumption | lia]);
                eexists; reflexivity]).
  - split.
    + intros [?|[Hdec Hrange]]; [congruence|]. exfalso.
      assert (Hok : GoInt.Atoi value = inl (decimal_value value)); [|congruence].
      apply AtoiFacts.Atoi_spec. repeat split; try assumption;
        unfold GoInt.int_min, GoInt.int_max; lia.
    + intros _. eexists. reflexivity.
Qed.

Lemma appended_refl (v : Validator.t) (field value : string) : appended v v field value.
Proof. exists []. rewrite app_nil_r. repeat split; [cbn; lia | constructor]. Qed.

Lemma appended_add (v : Validator.t) (field value msg : string) :
  appended v (Validator.add v field value msg) field value.
Proof.
  eexists. split; [reflexivity|]. split; [cbn; lia|].
  repeat constructor.
Qed.

(** X8: a validation step never removes or changes an error recorded
    before; it adds at most one, for the field and value it was given.
    [Error()] is [nil], and [HasErrors()] false, exactly when no error has
    been recorded. *)
Theorem validation_steps_append (v : Validator.t) (field value : string)
    (allowed : list string) (min max : Z) :
  appended v (Validator.ValidatePort v field value) field value /\
  appended v (Validator.ValidateOneOf v field value allowed) field value /\
  appended v (Validator.ValidateMinMax v field value min max) field value /\
  (Validator.Error v = None <-> Validator.errors v = []) /\
  (Validator.HasErrors v = false <-> Validator.errors v = []).
Proof.
  unfold Validator.ValidatePort, Validator.ValidateOneOf, Validator.ValidateMinMax,
    Validator.Error, Validator.HasErrors.
  repeat split;
    try (destruct (Validator.errors v); cbn; intros; congruence);
    repeat match goal with
           | |- appended _ (if ?b then _ else _) _ _ => destruct b
           | |- appended _ (match ?x with inl _ => _ | inr _ => _ end) _ _ => destruct x
           end;
    first [apply appended_refl | apply appended_add].
Qed.

Lemma split_comma_nonempty (s : string) : split_comma s <> [].
Proof.
  induction s as [|c rest IH]; cbn [split_comma]; [discriminate|].
  destruct (c =? ",")%char; [discriminate|].
  destruct (split_comma rest); discriminate.
Qed.

(** [strings.Join(strings.Split(s, ","), ",")] is [s]. *)
Lemma join_split_comma (s : string) : String.concat "," (split_comma s) = s.
Proof.
  induction s as [|c rest IH]; [reflexivity|].
  cbn [split_comma].
  pose proof (split_comma_nonempty rest) as Hne.
  destruct (Ascii.eqb_spec c ",") as [->|Hc].
  - destruct (split_comma rest) as [|piece pieces] eqn:Hsplit; [congruence|].
    cbn [String.concat]. cbn [String.concat] in IH. rewrite IH. reflexivity.
  - destruct (split_comma rest) as [|piece pieces] eqn:Hsplit; [congruence|].
    cbn [String.concat] in *. destruct pieces as [|next more].
    + rewrite IH. reflexivity.
    + rewrite StringFacts.append_cons, IH. reflexivity.
Qed.

Section Parsing.
Variable TrimSpace : string -> string.

Lemma trimmed_parts_spec (parts : list string) (o : string) :
  In o (trimmed_parts TrimSpace parts) <->
  o <> "" /\ exists part, In part parts /\ o = TrimSpace part.
Proof using Type.
  unfold trimmed_parts. rewrite filter_In, in_map_iff. split.
  - intros [(part & <- & Hin) Hne]. apply negb_true_iff, String.eqb_neq in Hne.
    split; [assumption | eauto].
  - intros [Hne (part & Hin & ->)]. split; [eauto|].
    apply negb_true_iff, String.eqb_neq. assumption.
Qed.

(** X9: whatever is configured, [parseOrigins] returns at least one origin
    and no empty one: each is the trimmed text of a comma-separated part of
    the input, or the default origin; [parseStringSlice] returns exactly the
    non-empty trimmed parts (none for the empty input). *)
Theorem parsed_lists (input : string) :
  parseOrigins TrimSpace input <> [] /\
  (forall o, In o (parseOrigins TrimSpace input) ->
     o <> "" /\
     (o = "http://localhost:3000" \/
      exists part, In part (split_comma input) /\ o = TrimSpace part)) /\
  (forall o, In o (parseStringSlice TrimSpace input) <->
     input <> "" /\ o <> "" /\
     exists part, In part (split_comma input) /\ o = TrimSpace part) /\
  String.concat "," (split_comma input) = input.
Proof using Type.
  unfold parseOrigins, parseStringSlice.
  destruct (String.eqb_spec input "") as [->|Hinput].
  - split; [discriminate|]. split; [|split; [|reflexivity]].
    + intros o [<- | []]. split; [discriminate | auto].
    + intros o. cbn. tauto.
  - split; [|split; [|split]].
    + destruct (trimmed_parts TrimSpace (split_comma input)) eqn:E; cbn; discriminate.
    + intros o. destruct (trimmed_parts TrimSpace (split_comma input)) as [|x l] eqn:E.
      * cbn. intros [<- | []]. split; [discriminate | auto].
      * cbn [length Nat.eqb]. rewrite <- E. intros Hin.
        apply trimmed_parts_spec in Hin as [Hne Hpart]. auto.
    + intros o. rewrite trimmed_parts_spec. tauto.
    + apply join_split_comma.
Qed.

End Parsing.

Example parseOrigins_examples :
  parseOrigins (fun s => s) "http://a.example,,http://b.example"
  = ["http://a.example"; "http://b.example"] /\
  parseOrigins (fun s => s) ",," = ["http://localhost:3000"] /\
  parseStringSlice (fun s => s) "sub,preferred_username" = ["sub"; "preferred_username"].
Proof. repeat split; reflexivity. Qed.

End ValidatorFacts.

(** ** package responses: the other helpers *)

Module ResponsesMoreFacts.
Import Gin Responses.

Lemma Itoa_nonempty (n : Z) : GoInt.in_int n -> GoInt.Itoa n <> "".
Proof.
  intros Hn H. pose proof (ItoaFacts.Atoi_Itoa n Hn) as HA.
  rewrite H in HA. discriminate.
Qed.

Lemma getIntParam_Itoa (c : Context) (key : string) (d n : Z) :
  GoInt.in_int n -> Query c key = GoInt.Itoa n -> getIntParam c key d = n.
Proof.
  intros Hn HQ. unfold getIntParam. rewrite HQ.
  destruct (String.eqb_spec (GoInt.Itoa n) "") as [Hempty|_].
  - exfalso. exact (Itoa_nonempty n Hn Hempty).
  - rewrite ItoaFacts.Atoi_Itoa by assumption. reflexivity.
Qed.

(** X10: [getIntParam] returns the value of the query parameter when that
    is a decimal integer that fits an [int], and the default in every
    other case (absent, empty, not a number, out of range); it reads back
    the number that [strconv.Itoa], hence [buildURL], writes. *)
Theorem getIntParam_reads_decimal (c : Context) (key : string) (d : Z) :
  (Spec.is_decimal_integer (Query c key) = true /\
   GoInt.in_int (Spec.decimal_value (Query c key)) ->
   getIntParam c key d = Spec.decimal_value (Query c key)) /\
  (~ (Spec.is_decimal_integer (Query c key) = true /\
      GoInt.in_int (Spec.decimal_value (Query c key))) ->
   getIntParam c key d = d) /\
  (forall n, GoInt.in_int n -> Query c key = GoInt.Itoa n -> getIntParam c key d = n).
Proof.
  split; [|split].
  - intros [Hdec Hint]. unfold getIntParam.
    destruct (String.eqb_spec (Query c key) "") as [Hempty|_].
    + rewrite Hempty in Hdec. discriminate.
    + assert (HA : GoInt.Atoi (Query c key) = inl (Spec.decimal_value (Query c key)))
        by (apply AtoiFacts.Atoi_spec; auto).
      rewrite HA. reflexivity.
  - intros Hnot. unfold getIntParam.
    destruct (String.eqb (Query c key) ""); [reflexivity|].
    destruct (GoInt.Atoi (Query c key)) as [v|e] eqn:HA; [|reflexivity].
    exfalso. apply Hnot. apply AtoiFacts.Atoi_spec in HA. tauto.
  - intros n. apply getIntParam_Itoa.
Qed.

(** X11: with defaults that are themselves valid ([1 <= defaultPage],
    [1 <= defaultPageSize <= maxPageSize]) [GetPaginationParamsWithDefaults]
    returns [Page >= 1], [1 <= PageSize <= maxPageSize], [Limit = PageSize]
    and the [Offset] of [CalculateOffset], which is [(Page - 1) * PageSize]
    when that fits an [int]; absent parameters give the defaults. *)
Theorem GetPaginationParamsWithDefaults_invariants (c : Context)
    (defaultPage defaultPageSize maxPageSize : Z) :
  1 <= defaultPage <= GoInt.int_max ->
  1 <= defaultPageSize <= maxPageSize ->
  let p := GetPaginationParamsWithDefaults c defaultPage defaultPageSize maxPageSize in
  1 <= PaginationParams.Page p /\
  1 <= PaginationParams.PageSize p <= maxPageSize /\
  PaginationParams.Limit p = PaginationParams.PageSize p /\
  PaginationParams.Offset p
  = CalculateOffset (PaginationParams.Page p) (PaginationParams.PageSize p) /\
  ((PaginationParams.Page p - 1) * PaginationParams.PageSize p <= GoInt.int_max ->
   PaginationParams.Offset p
   = (PaginationParams.Page p - 1) * PaginationParams.PageSize p) /\
  (Query c "page" = "" -> PaginationParams.Page p = defaultPage) /\
  (Query c "page_size" = "" -> PaginationParams.PageSize p = defaultPageSize).
Proof.
  intros Hpage Hsize.
  unfold GetPaginationParamsWithDefaults, CalculateOffset.
  pose proof (ParamsFacts.getIntParam_in_int c "page" defaultPage) as Hin.
  assert (Hq1 : Query c "page" = "" -> getIntParam c "page" defaultPage = defaultPage).
  { intros HQ. unfold getIntParam. rewrite HQ. reflexivity. }
  assert (Hq2 : Query c "page_size" = "" ->
                getIntParam c "page_size" defaultPageSize = defaultPageSize).
  { intros HQ. unfold getIntParam. rewrite HQ. reflexivity. }
  set (page := getIntParam c "page" defaultPage) in *.
  set (pageSize := getIntParam c "page_size" defaultPageSize) in *.
  assert (GoInt.in_int page) as [Hp1 Hp2]
    by (apply Hin; unfold GoInt.in_int, GoInt.int_min, GoInt.int_max in *; lia).
  clear Hin. unfold GoInt.int_min, GoInt.int_max in *.
  cbn zeta.
  cbn [PaginationParams.Page PaginationParams.PageSize
       PaginationParams.Limit PaginationParams.Offset].
  assert (Hwrap : forall q, 1 <= q <= 2 ^ 63 - 1 -> GoInt.wrap (q - 1) = q - 1).
  { intros q Hq. apply GoIntFacts.wrap_id.
    unfold GoInt.in_int, GoInt.int_min, GoInt.int_max. lia. }
  destruct (Z.ltb_spec page 1);
    destruct (Z.ltb_spec pageSize 1);
    rewrite ?Z.gtb_ltb;
    repeat match goal with
           | |- context [?a <? ?b] => destruct (Z.ltb_spec a b)
           end;
    rewrite Hwrap by lia;
    (split; [lia|]; split; [lia|]; split; [reflexivity|]; split; [reflexivity|];
     split; [|split; intros HQ; try reflexivity;
                first [specialize (Hq1 HQ) | specialize (Hq2 HQ)]; lia]);
    intros Hfit; apply GoIntFacts.wrap_id;
    unfold GoInt.in_int, GoInt.int_min, GoInt.int_max in *; nia.
Qed.

Lemma GetPaginationParamsWithDefaults_invariants_witness :
  1 <= 2 <= GoInt.int_max /\ 1 <= 20 <= 50 /\
  PaginationParams.PageSize
    (GetPaginationParamsWithDefaults Inputs.huge_page_request 2 20 50) <= 50 /\
  PaginationParams.PageSize
    (GetPaginationParamsWithDefaults Inputs.huge_page_request 2 20 50) = 20.
Proof.
  assert (H1 : 1 <= 2 <= GoInt.int_max) by (unfold GoInt.int_max; lia).
  assert (H2 : 1 <= 20 <= 50) by lia.
  pose proof (GetPaginationParamsWithDefaults_invariants
                Inputs.huge_page_request 2 20 50 H1 H2) as H.
  cbv zeta in H.
  split; [exact H1|]. split; [exact H2|].
  split; [apply H | apply H; reflexivity].
Defined.

(** Defaults that are not valid come back unchecked. *)
Example GetPaginationParamsWithDefaults_bad_defaults :
  GetPaginationParamsWithDefaults
    {| RequestPath := "/items"; QueryValues := ∅; Keys := ∅ |} 0 500 100
  = {| PaginationParams.Page := 0; PaginationParams.PageSize := 100;
       PaginationParams.Offset := -100; PaginationParams.Limit := 100 |}.
Proof. vm_compute. reflexivity. Qed.

(** X12: [ValidatePaginationParams] accepts exactly [page >= 1] with
    [1 <= pageSize <= 100]; what it rejects is a 400 [bad_request] without
    details or metadata, and a too large page size is reported with the
    limit in the message.  The parameters [GetPaginationParams] returns
    always pass. *)
Theorem ValidatePaginationParams_accepts (page pageSize : Z) :
  (ValidatePaginationParams page pageSize = None <-> 1 <= page /\ 1 <= pageSize <= 100) /\
  (forall err, ValidatePaginationParams page pageSize = Some err ->
     APIError.StatusCode err = 400 /\ APIError.Code err = "bad_request" /\
     APIError.Details err = "" /\ APIError.Metadata err = VNil) /\
  (1 <= page -> 100 < pageSize ->
   ValidatePaginationParams page pageSize
   = Some (NewBadRequestError "Page size cannot exceed 100")) /\
  (forall c,
     ValidatePaginationParams (PaginationParams.Page (GetPaginationParams c))
                              (PaginationParams.PageSize (GetPaginationParams c)) = None).
Proof.
  assert (Hacc : forall a b,
            ValidatePaginationParams a b = None <-> 1 <= a /\ 1 <= b <= 100).
  { intros a b. unfold ValidatePaginationParams, MaxPageSize. rewrite Z.gtb_ltb.
    destruct (Z.ltb_spec a 1); [split; [discriminate | lia]|].
    destruct (Z.ltb_spec b 1); [split; [discriminate | lia]|].
    destruct (Z.ltb_spec 100 b); [split; [discriminate | lia]|].
    split; [lia | reflexivity]. }
  split; [apply Hacc|]. split; [|split].
  - intros err. unfold ValidatePaginationParams.
    repeat match goal with
           | |- context [if ?b then _ else _] => destruct b
           end; intros [=<-]; repeat split; reflexivity.
  - intros Hp Hs. unfold ValidatePaginationParams, MaxPageSize. rewrite Z.gtb_ltb.
    destruct (Z.ltb_spec page 1); [lia|].
    destruct (Z.ltb_spec pageSize 1); [lia|].
    destruct (Z.ltb_spec 100 pageSize); [|lia].
    reflexivity.
  - intros c. apply Hacc.
    unfold GetPaginationParams, DefaultPage, DefaultPageSize, MaxPageSize.
    cbn [PaginationParams.Page PaginationParams.PageSize].
    rewrite !Z.gtb_ltb.
    repeat match goal with
           | |- context [?a <? ?b] => destruct (Z.ltb_spec a b)
           end; lia.
Qed.

(** X13: [GetCursorParams] passes the cursor through and caps the limit at
    100 but, unlike [GetPaginationParams], has no lower bound: a limit of
    zero or below in the query is returned as it is. *)
Theorem GetCursorParams_limit (c : Context) :
  fst (GetCursorParams c) = Query c "cursor" /\
  snd (GetCursorParams c) = Z.min (getIntParam c "limit" 10) 100 /\
  snd (GetCursorParams c) <= 100 /\
  (Query c "limit" = "" -> snd (GetCursorParams c) = 10) /\
  (forall n, GoInt.in_int n -> Query c "limit" = GoInt.Itoa n ->
     snd (GetCursorParams c) = Z.min n 100).
Proof.
  unfold GetCursorParams, DefaultPageSize, MaxPageSize. cbn [fst snd].
  assert (Hmin : forall l, (if l >? 100 then 100 else l) = Z.min l 100).
  { intros l. rewrite Z.gtb_ltb. destruct (Z.ltb_spec 100 l); lia. }
  rewrite Hmin. repeat split; try lia.
  - intros HQ. unfold getIntParam. rewrite HQ. reflexivity.
  - intros n Hn HQ. rewrite (getIntParam_Itoa c "limit" 10 n Hn HQ). reflexivity.
Qed.

Example GetCursorParams_negative_limit :
  GetCursorParams
    {| RequestPath := "/items";
       QueryValues := {[ "cursor" := ["abc"]; "limit" := ["-5"] ]};
       Keys := ∅ |}
  = ("abc", -5).
Proof. vm_compute. reflexivity. Qed.

(** [float64(n)] is zero only for [n = 0]. *)
Lemma of_int_nonzero (n : Z) :
  n <> 0 -> exists m e, Float64.of_int n = Float64.Fin m e /\ m <> 0.
Proof.
  intros Hn. unfold Float64.of_int.
  destruct (Z.leb_spec (Z.abs n) (2 ^ 53)) as [Hsmall|Hlarge]; [eauto|].
  destruct (Float64Facts.of_int_large (Z.abs n) Hlarge) as (m & e & Hof & Hm & He).
  unfold Float64.of_int in Hof. rewrite Z.abs_idemp in Hof.
  destruct (Z.leb_spec (Z.abs n) (2 ^ 53)) as [|_]; [lia|].
  destruct (Float64.round53 (Z.abs n) 1) as [m' e'].
  injection Hof as Hm' He'. exists (Z.sgn n * m'), e'. split; [reflexivity|].
  rewrite Z.sgn_pos in Hm' by lia.
  assert (0 < 2 ^ 52) by (apply Z.pow_pos_nonneg; lia).
  destruct (Z.sgn_spec n) as [[? ->]|[[? ->]|[? ->]]]; lia.
Qed.

Lemma CalculateTotalPages_zero (pageSize : Z) :
  pageSize <> 0 ->
  Float64.to_int
    (Float64.Ceil (Float64.div (Float64.of_int 0) (Float64.of_int pageSize))) = 0.
Proof.
  intros Hsize. destruct (of_int_nonzero pageSize Hsize) as (m & e & -> & Hm).
  change (Float64.of_int 0) with (Float64.Fin 0 0). unfold Float64.div.
  destruct (Z.eqb_spec m 0); [contradiction|]. reflexivity.
Qed.

(** X14: for a page size other than zero [EmptyPaginatedResponse] is a 200
    with an empty list, [total = 0] and [total_pages = 0]; [has_next] is
    false for every page from 0 on, and [has_prev] is still [page > 1]. *)
Theorem EmptyPaginatedResponse_no_pages (now page pageSize : Z) :
  pageSize <> 0 ->
  EmptyPaginatedResponse now page pageSize
  = JSON 200
      {| PaginationResponse.Data := VList [];
         PaginationResponse.Total := 0;
         PaginationResponse.Page := page;
         PaginationResponse.PageSize := pageSize;
         PaginationResponse.TotalPages := 0;
         PaginationResponse.HasNext := page <? 0;
         PaginationResponse.HasPrev := page >? 1;
         PaginationResponse.Timestamp := now |}.
Proof.
  intros Hsize. unfold EmptyPaginatedResponse, Paginated.
  rewrite (CalculateTotalPages_zero pageSize Hsize). reflexivity.
Qed.

Lemma EmptyPaginatedResponse_no_pages_witness :
  10 <> 0 /\
  PaginationResponse.TotalPages (Body (EmptyPaginatedResponse 1700000000 1 10)) = 0.
Proof.
  assert (H : 10 <> 0) by lia.
  split; [exact H|].
  rewrite (EmptyPaginatedResponse_no_pages 1700000000 1 10 H). reflexivity.
Defined.

Lemma to_int_in_int (x : Float64.float64) : GoInt.in_int (Float64.to_int x).
Proof.
  assert (Hmin : GoInt.in_int GoInt.int_min)
    by (unfold GoInt.in_int, GoInt.int_min, GoInt.int_max; lia).
  unfold Float64.to_int. destruct x as [m e| |]; try exact Hmin.
  match goal with |- context [if ?b then _ else _] => destruct b eqn:Hb end;
    [|exact Hmin].
  apply andb_true_iff in Hb as [H1 H2]. apply Z.leb_le in H1, H2.
  split; assumption.
Qed.

Lemma buildURL_nonempty (baseURL : string) (page pageSize : Z) :
  String.eqb (buildURL baseURL page pageSize) "" = false.
Proof.
  apply String.eqb_neq. unfold buildURL.
  apply StringFacts.append_nonempty_r. rewrite StringFacts.append_cons. discriminate.
Qed.

(** X15: in [PaginatedWithLinks] the links [self], [first] and [last] are
    always written, [next] exactly when the metadata says [has_next] and
    [prev] exactly when it says [has_prev]; [next] and [prev] point to
    [page + 1] and [page - 1] (no overflow can occur where they are
    written), [last] to [total_pages]. *)
Theorem PaginatedWithLinks_links (now : Z) (data : value) (total page pageSize : Z)
    (baseURL : string) :
  let r := Body (PaginatedWithLinks now data total page pageSize baseURL) in
  let links := PaginationLinks.marshal (LinkedResponse.Links r) in
  let meta := LinkedResponse.Meta r in
  meta = CreatePaginationMeta total page pageSize /\
  json_get "self" links = Some (VString (buildURL baseURL page pageSize)) /\
  json_get "first" links = Some (VString (buildURL baseURL 1 pageSize)) /\
  json_get "last" links
  = Some (VString (buildURL baseURL (PaginationMeta.TotalPages meta) pageSize)) /\
  (json_get "next" links <> None <-> PaginationMeta.HasNext meta = true) /\
  (json_get "prev" links <> None <-> PaginationMeta.HasPrev meta = true) /\
  (GoInt.in_int page -> PaginationMeta.HasNext meta = true ->
   json_get "next" links = Some (VString (buildURL baseURL (page + 1) pageSize))) /\
  (GoInt.in_int page -> PaginationMeta.HasPrev meta = true ->
   json_get "prev" links = Some (VString (buildURL baseURL (page - 1) pageSize))).
Proof.
  unfold PaginatedWithLinks, CreatePaginationMeta.
  pose proof (to_int_in_int
                (Float64.Ceil (Float64.div (Float64.of_int total) (Float64.of_int pageSize))))
    as Htotal.
  set (totalPages :=
         Float64.to_int
           (Float64.Ceil (Float64.div (Float64.of_int total) (Float64.of_int pageSize))))
    in *.
  cbn zeta.
  cbn [Body LinkedResponse.Links LinkedResponse.Meta PaginationMeta.HasNext
       PaginationMeta.HasPrev PaginationMeta.TotalPages].
  unfold PaginationLinks.marshal.
  cbn [PaginationLinks.Self PaginationLinks.First PaginationLinks.Last
       PaginationLinks.Next PaginationLinks.Prev].
  unfold field_omitempty_string. rewrite Z.gtb_ltb.
  unfold GoInt.in_int, GoInt.int_min, GoInt.int_max in *.
  destruct (Z.ltb_spec page totalPages) as [Hnext|Hnext];
    destruct (Z.ltb_spec 1 page) as [Hprev|Hprev];
    rewrite ?buildURL_nonempty; cbn [String.eqb Ascii.eqb Bool.eqb app json_get];
    (repeat split; try reflexivity; try discriminate; try congruence;
     intros Hpage _; rewrite GoIntFacts.wrap_id; try reflexivity;
     unfold GoInt.in_int, GoInt.int_min, GoInt.int_max; lia).
Qed.

Example PaginatedWithLinks_first_page :
  PaginationLinks.marshal
    (LinkedResponse.Links (Body (PaginatedWithLinks 0 VNil 25 1 10 "/items")))
  = [("self", VString "/items?page=1&page_size=10");
     ("first", VString "/items?page=1&page_size=10");
     ("last", VString "/items?page=3&page_size=10");
     ("next", VString "/items?page=2&page_size=10")].
Proof. vm_compute. reflexivity. Qed.

(** X16: handling an [*APIError] built by a constructor gives the response
    of the helper of the same name: [HandleAPIError] of [NewAPIError] is
    [Error], [HandleError] of [NewNotFoundError] is [NotFound], and so on;
    an error that is not an [*APIError] becomes a 500 [internal_error]
    carrying its text. *)
Theorem HandleError_constructors (now : Z) (c : Context) (status : Z)
    (code message details : string) (metadata : value) :
  HandleAPIError now c (NewAPIError status code message) = Error now c status code message /\
  HandleAPIError now c (NewAPIErrorWithDetails status code message details)
  = ErrorWithDetails now c status code message details /\
  HandleAPIError now c (NewAPIErrorWithMetadata status code message metadata)
  = ErrorWithMetadata now c status code message metadata /\
  HandleError now c (IsAPIError (NewBadRequestError message)) = BadRequest now c message /\
  HandleError now c (IsAPIError (NewUnauthorizedError message)) = Unauthorized now c message /\
  HandleError now c (IsAPIError (NewForbiddenError message)) = Forbidden now c message /\
  HandleError now c (IsAPIError (NewNotFoundError message)) = NotFound now c message /\
  HandleError now c (IsAPIError (NewConflictError message)) = Conflict now c message /\
  HandleError now c (IsAPIError (NewValidationError message metadata))
  = ValidationError now c message metadata /\
  HandleError now c (IsAPIError (NewInternalError message)) = InternalError now c message /\
  HandleError now c (OtherError message) = Error now c 500 "internal_error" message.
Proof. repeat split; reflexivity. Qed.





Example ErrorWithDetails_no_content :
  Render (ErrorWithDetails 0 Inputs.numeric_request_id 204 "gone" "nothing here" "really")
  = HeaderOnly 204 /\
  Render (ErrorWithDetails 0 Inputs.numeric_request_id 422 "invalid" "bad input" "name is empty")
  = Written 422 [("error", VString "bad input"); ("code", VString "invalid");
                 ("details", VString "name is empty"); ("timestamp", VTime 0);
                 ("path", VString "/users/7")].
Proof. vm_compute. repeat split; reflexivity. Qed.

(** X18: [OK] and [Message] write the same response; [Data] always writes
    its [data] key, as [null] for nil, where [Success] leaves the key out;
    [Created] and [Accepted] are [Success] with status 201 and 202. *)
Theorem success_helpers (now : Z) (message : string) (data : value) :
  OK now message = Message now message /\
  json_get "data" (Body (Data now data)) = Some data /\
  json_get "data" (Body (Success now message VNil)) = None /\
  Status (Created now message data) = 201 /\
  Status (Accepted now message data) = 202 /\
  Body (Created now message data) = Body (Success now message data) /\
  Body (Accepted now message data) = Body (Success now message data) /\
  SuccessWithStatus now 200 message data = Success now message data.
Proof. repeat split; reflexivity. Qed.

End ResponsesMoreFacts.

(** ** package server: the routes; package middleware: the probes and the
    checkers *)

Module PathFacts.
Import Gin.

Lemma split_slash_nonempty (s : string) : split_slash s <> [].
Proof.
  induction s as [|c rest IH]; cbn [split_slash]; [discriminate|].
  destruct (c =? "/")%char; [discriminate|].
  destruct (split_slash rest); discriminate.
Qed.

Lemma split_slash_app (a b : string) :
  split_slash (a ++ String "/" b) = (split_slash a ++ split_slash b)%list.
Proof.
  induction a as [|c a IH].
  - reflexivity.
  - rewrite StringFacts.append_cons. cbn [split_slash]. rewrite IH.
    destruct (c =? "/")%char; [reflexivity|].
    pose proof (split_slash_nonempty a) as Hne.
    destruct (split_slash a) as [|piece pieces]; [contradiction | reflexivity].
Qed.

Lemma clean_elements_detailed (p : string) :
  clean_elements (p ++ "/detailed") = (clean_elements p ++ ["detailed"])%list.
Proof.
  unfold clean_elements.
  change "/detailed" with (String "/" "detailed").
  rewrite split_slash_app, fold_left_app. reflexivity.
Qed.

Lemma concat_snoc (sep : string) (l : list string) (x : string) :
  l <> [] -> String.concat sep (l ++ [x]) = (String.concat sep l ++ sep ++ x)%string.
Proof.
  induction l as [|a l IH]; [contradiction|]. intros _.
  destruct l as [|b l].
  - reflexivity.
  - change (String.concat sep ((a :: b :: l) ++ [x]))
      with (a ++ sep ++ String.concat sep ((b :: l) ++ [x]))%string.
    rewrite IH by discriminate.
    change (String.concat sep (a :: b :: l))
      with (a ++ sep ++ String.concat sep (b :: l))%string.
    rewrite !StringFacts.append_assoc. reflexivity.
Qed.

Lemma lastChar_app (s t : string) : t <> "" -> lastChar (s ++ t) = lastChar t.
Proof.
  intros Ht. induction s as [|c s IH]; [reflexivity|].
  rewrite StringFacts.append_cons. cbn [lastChar].
  destruct (s ++ t)%string eqn:E; [|exact IH].
  exfalso. apply (StringFacts.append_nonempty_r s t Ht). exact E.
Qed.

(** The path the second route goes under. *)
Lemma joinPaths_detailed (p : string) :
  joinPaths (p ++ "/detailed")
  = match clean_elements (String "/" (String "/" p)) with
    | [] => "/detailed"
    | _ => (Clean (String "/" (String "/" p)) ++ "/detailed")%string
    end.
Proof.
  unfold joinPaths.
  destruct (String.eqb_spec (p ++ "/detailed") "") as [He|_].
  { exfalso. apply (StringFacts.append_nonempty_r p "/detailed"); [discriminate | exact He]. }
  unfold ends_with_slash at 1. rewrite lastChar_app by discriminate.
  cbn [lastChar Ascii.eqb Bool.eqb andb].
  unfold Clean.
  change (String "/" (String "/" (p ++ "/detailed")))
    with (String "/" (String "/" p) ++ "/detailed")%string.
  rewrite clean_elements_detailed.
  destruct (clean_elements (String "/" (String "/" p))) as [|e l] eqn:E; [reflexivity|].
  rewrite concat_snoc by discriminate. reflexivity.
Qed.

(** The path the first route goes under. *)
Lemma joinPaths_cases (p : string) :
  p <> "" ->
  match clean_elements (String "/" (String "/" p)) with
  | [] => joinPaths p = "/"
  | _ =>
      joinPaths p = Clean (String "/" (String "/" p)) \/
      joinPaths p = (Clean (String "/" (String "/" p)) ++ "/")%string
  end.
Proof.
  intros Hp. unfold joinPaths.
  destruct (String.eqb_spec p "") as [|_]; [contradiction|].
  unfold Clean.
  destruct (clean_elements (String "/" (String "/" p))) as [|e l].
  - cbn. rewrite andb_false_r. reflexivity.
  - destruct (ends_with_slash p && negb (ends_with_slash _)); auto.
Qed.

Lemma joinPaths_distinct (p : string) :
  p <> "" -> joinPaths p <> joinPaths (p ++ "/detailed").
Proof.
  intros Hp. pose proof (joinPaths_cases p Hp) as Hfirst.
  rewrite joinPaths_detailed.
  destruct (clean_elements (String "/" (String "/" p))) as [|e l].
  - rewrite Hfirst. discriminate.
  - destruct Hfirst as [-> | ->]; intros He.
    + symmetry in He. revert He. apply StringFacts.append_longer. discriminate.
    + apply (f_equal String.length) in He.
      rewrite !StringFacts.append_length in He. cbn in He. lia.
Qed.

Lemma has_wildcard_app (a b : string) :
  has_wildcard (a ++ b) = has_wildcard a || has_wildcard b.
Proof.
  induction a as [|c a IH]; [reflexivity|].
  rewrite StringFacts.append_cons. cbn [has_wildcard]. rewrite IH.
  destruct (c =? ":")%char; destruct (c =? "*")%char; reflexivity.
Qed.

Lemma split_slash_static (s : string) :
  has_wildcard s = false -> Forall (fun e => has_wildcard e = false) (split_slash s).
Proof.
  induction s as [|c rest IH]; cbn [split_slash has_wildcard].
  - intros _. repeat constructor.
  - intros H. apply orb_false_iff in H as [Hc Hrest]. specialize (IH Hrest).
    destruct (c =? "/")%char; [constructor; [reflexivity | exact IH]|].
    destruct (split_slash rest) as [|piece pieces].
    + constructor; [|constructor]. cbn [has_wildcard]. rewrite Hc. reflexivity.
    + apply Forall_cons in IH as [Hpiece Hpieces].
      constructor; [|exact Hpieces]. cbn [has_wildcard]. rewrite Hc, Hpiece. reflexivity.
Qed.

Lemma clean_step_static (elements kept : list string) :
  Forall (fun e => has_wildcard e = false) elements ->
  Forall (fun e => has_wildcard e = false) kept ->
  Forall (fun e => has_wildcard e = false) (fold_left clean_step elements kept).
Proof.
  revert kept. induction elements as [|e rest IH]; intros kept Hels Hkept; [exact Hkept|].
  apply Forall_cons in Hels as [He Hrest]. cbn [fold_left]. apply IH; [exact Hrest|].
  unfold clean_step.
  destruct (String.eqb e "" || String.eqb e "."); [exact Hkept|].
  destruct (String.eqb e "..").
  - destruct kept as [|k kept']; [constructor|]. apply Forall_cons in Hkept as [_ H]. exact H.
  - constructor; assumption.
Qed.

Lemma concat_static (l : list string) :
  Forall (fun e => has_wildcard e = false) l -> has_wildcard (String.concat "/" l) = false.
Proof.
  induction l as [|a l IH]; intros H; [reflexivity|].
  apply Forall_cons in H as [Ha Hl]. specialize (IH Hl).
  destruct l as [|b l]; [exact Ha|].
  change (String.concat "/" (a :: b :: l))
    with (a ++ "/" ++ String.concat "/" (b :: l))%string.
  rewrite !has_wildcard_app, Ha, IH. reflexivity.
Qed.

(** Cleaning a path brings in no wildcard. *)
Lemma joinPaths_static (p : string) :
  has_wildcard p = false -> has_wildcard (joinPaths p) = false.
Proof.
  intros Hp. unfold joinPaths.
  destruct (String.eqb p ""); [reflexivity|].
  assert (Hclean : has_wildcard (Clean (String "/" (String "/" p))) = false).
  { unfold Clean, clean_elements. cbn [has_wildcard Ascii.eqb Bool.eqb orb].
    apply concat_static. apply Forall_rev.
    apply clean_step_static; [|constructor].
    apply (split_slash_static (String "/" (String "/" p))). exact Hp. }
  destruct (ends_with_slash p && negb (ends_with_slash _)); [|exact Hclean].
  rewrite has_wildcard_app, Hclean. reflexivity.
Qed.

Lemma joinPaths_detailed_static (p : string) :
  p <> "" -> has_wildcard (joinPaths p) = false ->
  has_wildcard (joinPaths (p ++ "/detailed")) = false.
Proof.
  intros Hp Hfirst. pose proof (joinPaths_cases p Hp) as Hcases.
  rewrite joinPaths_detailed.
  destruct (clean_elements (String "/" (String "/" p))) as [|e l]; [reflexivity|].
  rewrite has_wildcard_app.
  destruct Hcases as [He|He]; rewrite He in Hfirst.
  - rewrite Hfirst. reflexivity.
  - rewrite has_wildcard_app in Hfirst. apply orb_false_iff in Hfirst as [-> _]. reflexivity.
Qed.

Example joinPaths_examples :
  joinPaths "/health" = "/health" /\
  joinPaths "/health/" = "/health/" /\
  joinPaths "/health//detailed" = "/health/detailed" /\
  joinPaths "health" = "/health" /\
  joinPaths "/a/./b/../c" = "/a/c" /\
  joinPaths "/../x" = "/x" /\
  joinPaths "/" = "/".
Proof. vm_compute. repeat split; reflexivity. Qed.

End PathFacts.

Module ServerFacts.
Import Server.

(** X19: on the new router [setupDefaultRoutes] registers nothing when
    health is disabled.  Otherwise it registers the health path (["/health"]
    when none is configured) and that path followed by ["/detailed"], each
    under the path gin makes of it ([path.Join] with ["/"]); when the first
    of these has no wildcard the two are different static routes, so the
    second registration does not panic, and when it has one the routes are
    parametric.  A health path without a wildcard gives paths without one,
    and a health path that is already clean and does not end in a slash is
    registered as it is, followed by ["/detailed"]. *)
Theorem setupDefaultRoutes_routes (options : ServerOptions) :
  let healthPath :=
    if String.eqb (HealthPath options) "" then "/health" else HealthPath options in
  (DisableHealth options = true -> setupDefaultRoutes options New = New) /\
  (DisableHealth options = false -> Gin.has_wildcard (Gin.joinPaths healthPath) = false ->
   setupDefaultRoutes options New
   = Routes [GET (Gin.joinPaths healthPath) healthCheckHandler;
             GET (Gin.joinPaths (healthPath ++ "/detailed")) detailedHealthHandler] /\
   Gin.joinPaths healthPath <> Gin.joinPaths (healthPath ++ "/detailed")) /\
  (DisableHealth options = false -> Gin.has_wildcard (Gin.joinPaths healthPath) = true ->
   setupDefaultRoutes options New = Parametric) /\
  (Gin.has_wildcard healthPath = false ->
   Gin.has_wildcard (Gin.joinPaths healthPath) = false) /\
  (Gin.joinPaths healthPath = healthPath -> Gin.ends_with_slash healthPath = false ->
   Gin.joinPaths (healthPath ++ "/detailed") = (healthPath ++ "/detailed")%string).
Proof.
  cbn zeta. unfold setupDefaultRoutes, setupHealthRoutes.
  set (healthPath := if String.eqb (HealthPath options) "" then "/health"
                     else HealthPath options).
  assert (Hne : healthPath <> "").
  { subst healthPath. destruct (String.eqb_spec (HealthPath options) ""); [discriminate|].
    assumption. }
  split; [intros ->; reflexivity|].
  split; [|split; [|split]].
  - intros -> Hstatic. cbn [negb].
    pose proof (PathFacts.joinPaths_distinct healthPath Hne) as Hdistinct.
    split; [|exact Hdistinct].
    unfold New, router_GET at 2. rewrite Hstatic. cbn [existsb].
    unfold router_GET.
    rewrite (PathFacts.joinPaths_detailed_static healthPath Hne Hstatic).
    cbn [existsb path app orb].
    apply String.eqb_neq in Hdistinct. rewrite Hdistinct. reflexivity.
  - intros -> Hwild. cbn [negb]. unfold New, router_GET. rewrite Hwild. reflexivity.
  - apply PathFacts.joinPaths_static.
  - intros Hclean Hslash.
    pose proof (PathFacts.joinPaths_cases healthPath Hne) as Hcases.
    rewrite PathFacts.joinPaths_detailed.
    destruct (Gin.clean_elements (String "/" (String "/" healthPath))) as [|e l].
    + rewrite Hcases in Hclean. rewrite <- Hclean in Hslash. discriminate.
    + destruct Hcases as [He|He]; [rewrite <- He, Hclean; reflexivity|].
      exfalso. rewrite He in Hclean. rewrite <- Hclean in Hslash.
      unfold Gin.ends_with_slash in Hslash.
      rewrite PathFacts.lastChar_app in Hslash by discriminate. discriminate.
Qed.

Example setupDefaultRoutes_trailing_slash :
  setupDefaultRoutes
    {| ServiceName := "svc"; ServiceVersion := "1.0.0"; Port := "";
       GinMode := "release";
       DisableLogging := false; DisableCORS := false;
       DisableHealth := false; DisableRecover := false;
       HealthPath := "/health/"; MetricsPath := "/metrics" |} New
  = Routes [GET "/health/" healthCheckHandler;
            GET "/health/detailed" detailedHealthHandler].
Proof. vm_compute. reflexivity. Qed.

End ServerFacts.

Module ProbeFacts.
Import Gin Middleware Spec Inputs.

Lemma determineOverallStatus_unhealthy (m : gmap string HealthCheck.t) :
  determineOverallStatus m = HealthStatusUnhealthy <-> has_status m HealthStatusUnhealthy.
Proof.
  destruct (HealthFacts.determineOverallStatus_spec m) as (Hu & Hd & Hh).
  unfold determineOverallStatus in *.
  destruct (Nat.eqb_spec (size m) 0) as [Hsize|Hsize].
  - apply map_size_empty_inv in Hsize. subst m.
    split; [discriminate|]. intros H. exfalso. exact (HealthFacts.has_status_empty _ H).
  - destruct (HealthFacts.note_status_fold m) as [Hfst Hsnd]. cbn zeta in Hfst, Hsnd.
    destruct (fst (map_fold (fun _ check flags => note_status check flags) (false, false) m)).
    + split; [intros _; apply Hfst; reflexivity | reflexivity].
    + split; [|intros H; apply Hfst in H; discriminate].
      destruct (snd (map_fold (fun _ check flags => note_status check flags)
                       (false, false) m)); discriminate.
Qed.

(** X20: the readiness probe agrees with the detailed health check: the
    same HTTP status and the same status text, 503 exactly when some
    registered checker answers unhealthy (so 200 when none is
    registered). *)
Theorem readiness_agrees_with_health (now : Z) (config : HealthConfig.t) :
  Status (handleReadinessCheck now config) = Status (handleHealthCheck now config true) /\
  json_get "status" (Body (handleReadinessCheck now config))
  = Some (VString (HealthResponse.Status (Body (handleHealthCheck now config true)))) /\
  (Status (handleReadinessCheck now config) = 503 <-> reports config HealthStatusUnhealthy) /\
  (Status (handleReadinessCheck now config) <> 503 ->
   Status (handleReadinessCheck now config) = 200).
Proof.
  rewrite HealthFacts.handleHealthCheck_code, HealthFacts.handleHealthCheck_status.
  unfold handleReadinessCheck. cbn [Status Body json_get String.eqb Ascii.eqb Bool.eqb].
  split; [reflexivity|]. split; [reflexivity|].
  rewrite <- HealthFacts.has_status_run with (now := now).
  rewrite <- determineOverallStatus_unhealthy.
  destruct (String.eqb_spec
              (determineOverallStatus (runHealthChecks now (HealthConfig.Checkers config)))
              HealthStatusUnhealthy) as [He|Hne].
  - split; [tauto|]. intros H. exfalso. apply H. reflexivity.
  - split; [|reflexivity]. split; [discriminate | contradiction].
Qed.

(** X21: the liveness probe and the simple health endpoint never consult a
    checker: they answer 200 and [healthy] whatever is registered, and
    [SimpleHealthMiddleware] serves only ["/health"], without checks. *)
Theorem probes_without_checkers (now : Z) (config : HealthConfig.t) (name : string)
    (checker : HealthChecker) (start : Z) (serviceName version : string) (c : Context) :
  handleLivenessCheck now (AddHealthChecker config name checker)
  = handleLivenessCheck now config /\
  Status (handleLivenessCheck now config) = 200 /\
  json_get "status" (Body (handleLivenessCheck now config)) = Some (VString "healthy") /\
  Status (handleHealthCheck now config false) = 200 /\
  HealthResponse.Status (Body (handleHealthCheck now config false)) = "healthy" /\
  HealthResponse.Checks (Body (handleHealthCheck now config false)) = ∅ /\
  SimpleHealthMiddleware start serviceName version now c
  = (if String.eqb (RequestPath c) "/health"
     then Health (JSON 200
                    {| HealthResponse.Status := "healthy";
                       HealthResponse.Timestamp := now;
                       HealthResponse.Service := serviceName;
                       HealthResponse.Version := version;
                       HealthResponse.Uptime := now - start;
                       HealthResponse.Checks := ∅;
                       HealthResponse.Metadata := [] |})
     else Next).
Proof. repeat split; reflexivity. Qed.

Lemma reports_unhealthy_503 (now : Z) (config : HealthConfig.t) :
  reports config HealthStatusUnhealthy ->
  Status (handleHealthCheck now config true) = 503 /\
  Status (handleReadinessCheck now config) = 503.
Proof.
  intros Hrep.
  assert (Hst : determineOverallStatus (runHealthChecks now (HealthConfig.Checkers config))
                = HealthStatusUnhealthy).
  { apply determineOverallStatus_unhealthy. apply HealthFacts.has_status_run. exact Hrep. }
  rewrite HealthFacts.handleHealthCheck_code, HealthFacts.handleHealthCheck_status.
  unfold handleReadinessCheck. cbn [Status]. rewrite Hst. split; reflexivity.
Qed.

(** X22: [AddHealthChecker] registers the checker under its name
    (replacing one registered under that name before), leaves every other
    checker and every other field as they were, and from then on an
    unhealthy answer of that checker turns the health and the readiness
    endpoints to 503. *)
Theorem AddHealthChecker_registers (config : HealthConfig.t) (name : string)
    (checker : HealthChecker) (now : Z) :
  let config' := AddHealthChecker config name checker in
  HealthConfig.Checkers config' !! name = Some checker /\
  (forall other, other <> name ->
     HealthConfig.Checkers config' !! other = HealthConfig.Checkers config !! other) /\
  HealthConfig.ServiceName config' = HealthConfig.ServiceName config /\
  HealthConfig.ServiceVersion config' = HealthConfig.ServiceVersion config /\
  HealthConfig.StartTime config' = HealthConfig.StartTime config /\
  HealthConfig.HealthPath config' = HealthConfig.HealthPath config /\
  HealthConfig.ReadinessPath config' = HealthConfig.ReadinessPath config /\
  HealthConfig.LivenessPath config' = HealthConfig.LivenessPath config /\
  (HealthCheck.Status (checker tt) = HealthStatusUnhealthy ->
   Status (handleHealthCheck now config' true) = 503 /\
   Status (handleReadinessCheck now config') = 503).
Proof.
  cbn zeta. unfold AddHealthChecker at 1 2 3 4 5 6 7 8 9.
  cbn [HealthConfig.Checkers HealthConfig.ServiceName HealthConfig.ServiceVersion
       HealthConfig.StartTime HealthConfig.HealthPath HealthConfig.ReadinessPath
       HealthConfig.LivenessPath].
  split; [apply lookup_insert_eq|].
  split; [intros other Hother; apply lookup_insert_ne; congruence|].
  repeat (split; [reflexivity|]).
  intros Hst. apply reports_unhealthy_503.
  exists name, checker. split; [|exact Hst].
  unfold AddHealthChecker. cbn [HealthConfig.Checkers]. apply lookup_insert_eq.
Qed.

(** X23: the check of [DatabaseHealthChecker] is named ["database"]; it is
    unhealthy exactly when the ping fails (with the error text as message),
    degraded when the ping succeeds but took more than 100 ms, healthy
    otherwise, and a failing ping turns the health endpoint of a
    configuration it is registered in to 503. *)
Theorem DatabaseHealthChecker_status (pingFunc : unit -> option string) (duration : Z)
    (config : HealthConfig.t) (now : Z) :
  let check := DatabaseHealthChecker pingFunc duration tt in
  HealthCheck.Name check = "database" /\
  HealthCheck.Duration check = duration /\
  (HealthCheck.Status check = HealthStatusUnhealthy <-> pingFunc tt <> None) /\
  (HealthCheck.Status check = HealthStatusDegraded <->
   pingFunc tt = None /\ 100000000 < duration) /\
  (HealthCheck.Status check = HealthStatusHealthy <->
   pingFunc tt = None /\ duration <= 100000000) /\
  (forall err, pingFunc tt = Some err ->
     HealthCheck.Message check = err /\ HealthCheck.Metadata check = []) /\
  (pingFunc tt = None ->
   json_get "response_time_ms" (HealthCheck.Metadata check)
   = Some (VInt (Z.quot duration 1000000))) /\
  (pingFunc tt <> None ->
   Status (handleHealthCheck now
             (AddHealthChecker config "database" (DatabaseHealthChecker pingFunc duration))
             true) = 503).
Proof.
  cbn zeta.
  assert (Hstatus :
            HealthCheck.Status (DatabaseHealthChecker pingFunc duration tt)
            = HealthStatusUnhealthy <-> pingFunc tt <> None).
  { unfold DatabaseHealthChecker. destruct (pingFunc tt) as [err|].
    - cbn. split; [discriminate | reflexivity].
    - cbn [HealthCheck.Status]. destruct (duration >? hundred_milliseconds).
      + split; [discriminate | congruence].
      + split; [discriminate | congruence]. }
  split; [unfold DatabaseHealthChecker; destruct (pingFunc tt); reflexivity|].
  split; [unfold DatabaseHealthChecker; destruct (pingFunc tt); reflexivity|].
  split; [exact Hstatus|].
  split; [|split; [|split; [|split]]].
  - unfold DatabaseHealthChecker, hundred_milliseconds. rewrite Z.gtb_ltb.
    destruct (pingFunc tt) as [err|]; cbn [HealthCheck.Status].
    + split; [discriminate | intros [? _]; discriminate].
    + destruct (Z.ltb_spec 100000000 duration).
      * split; [auto | reflexivity].
      * split; [discriminate | lia].
  - unfold DatabaseHealthChecker, hundred_milliseconds. rewrite Z.gtb_ltb.
    destruct (pingFunc tt) as [err|]; cbn [HealthCheck.Status].
    + split; [discriminate | intros [? _]; discriminate].
    + destruct (Z.ltb_spec 100000000 duration).
      * split; [discriminate | lia].
      * split; [split; [reflexivity | lia] | reflexivity].
  - intros err Hping. unfold DatabaseHealthChecker. rewrite Hping. split; reflexivity.
  - intros Hping. unfold DatabaseHealthChecker. rewrite Hping. reflexivity.
  - intros Hping. apply reports_unhealthy_503.
    exists "database", (DatabaseHealthChecker pingFunc duration).
    split; [unfold AddHealthChecker; cbn [HealthConfig.Checkers]; apply lookup_insert_eq|].
    apply Hstatus. exact Hping.
Qed.

Lemma wrap_small (z : Z) : - 2 ^ 63 <= z <= 2 ^ 63 - 1 -> GoInt.wrap z = z.
Proof.
  intros Hz. apply GoIntFacts.wrap_id.
  unfold GoInt.in_int, GoInt.int_min, GoInt.int_max. lia.
Qed.

Lemma quot_80_100 (limit current : Z) :
  0 <= limit -> 0 < current ->
  (current >? Z.quot (limit * 80) 100) = (limit * 80 <? current * 100).
Proof.
  intros Hlimit Hcurrent. rewrite Z.gtb_ltb, Z.quot_div_nonneg by lia.
  destruct (Z.ltb_spec (limit * 80 / 100) current) as [H|H];
    destruct (Z.ltb_spec (limit * 80) (current * 100)) as [H'|H']; try reflexivity; exfalso.
  - assert (current <= limit * 80 / 100) by (apply Z.div_le_lower_bound; lia). lia.
  - assert (limit * 80 / 100 < current) by (apply Z.div_lt_upper_bound; lia). lia.
Qed.

(** X24: [MemoryHealthChecker] panics (a division by zero) exactly for a
    threshold of 0.  With the simulated usage of 50 MB it answers
    unhealthy for every threshold below 50, degraded from 50 to 62 and
    healthy from 63 on, as long as 80 times the threshold fits an
    [int64]. *)
Theorem MemoryHealthChecker_thresholds (maxMemoryMB : Z) :
  (MemoryHealthChecker maxMemoryMB tt = None <-> maxMemoryMB = 0) /\
  (forall check, MemoryHealthChecker maxMemoryMB tt = Some check ->
     HealthCheck.Name check = "memory" /\
     (maxMemoryMB < 50 -> HealthCheck.Status check = HealthStatusUnhealthy) /\
     (50 <= maxMemoryMB <= 62 -> HealthCheck.Status check = HealthStatusDegraded) /\
     (63 <= maxMemoryMB -> maxMemoryMB * 80 <= GoInt.int_max ->
      HealthCheck.Status check = HealthStatusHealthy)).
Proof.
  unfold MemoryHealthChecker. split.
  - destruct (50 >? maxMemoryMB); [|destruct (50 >? _)]; cbn beta iota;
      destruct (Z.eqb_spec maxMemoryMB 0) as [Hz|Hz];
      (split; [intros Hnone; first [exact Hz | discriminate Hnone]
              | intros Hzero; first [reflexivity | contradiction]]).
  - intros check. unfold GoInt.int_max.
    destruct (Z.eqb_spec maxMemoryMB 0) as [Hz|Hz]; [destruct (50 >? maxMemoryMB);
      [|destruct (50 >? _)]; discriminate|].
    rewrite (Z.gtb_ltb 50 maxMemoryMB).
    destruct (Z.ltb_spec maxMemoryMB 50) as [Hlow|Hhigh].
    + intros [=<-]. cbn. repeat split; try reflexivity; lia.
    + destruct (Z_le_gt_dec (maxMemoryMB * 80) (2 ^ 63 - 1)) as [Hfit|Hover].
      * rewrite wrap_small by lia. rewrite quot_80_100 by lia.
        destruct (Z.ltb_spec (maxMemoryMB * 80) (50 * 100)); intros [=<-]; cbn;
          repeat split; try reflexivity; lia.
      * destruct (50 >? _); intros [=<-]; cbn; repeat split; try reflexivity; lia.
Qed.

Example MemoryHealthChecker_overflow :
  option_map HealthCheck.Status (MemoryHealthChecker (2 ^ 62) tt) = Some HealthStatusDegraded.
Proof. vm_compute. reflexivity. Qed.

(** X25: with the simulated usage of 45 percent [DiskHealthChecker] answers
    unhealthy for every limit below 45, degraded from 45 to 56 and healthy
    from 57 on (as long as 80 times the limit fits an [int]); the check is
    named ["disk"] and reports the path and the limit it was given. *)
Theorem DiskHealthChecker_thresholds (path : string) (maxUsagePercent : Z) :
  let check := DiskHealthChecker path maxUsagePercent tt in
  HealthCheck.Name check = "disk" /\
  json_get "path" (HealthCheck.Metadata check) = Some (VString path) /\
  json_get "max_usage_percent" (HealthCheck.Metadata check) = Some (VInt maxUsagePercent) /\
  (maxUsagePercent < 45 -> HealthCheck.Status check = HealthStatusUnhealthy) /\
  (45 <= maxUsagePercent <= 56 -> HealthCheck.Status check = HealthStatusDegraded) /\
  (57 <= maxUsagePercent -> maxUsagePercent * 80 <= GoInt.int_max ->
   HealthCheck.Status check = HealthStatusHealthy).
Proof.
  cbn zeta. unfold DiskHealthChecker, GoInt.int_max.
  rewrite (Z.gtb_ltb 45 maxUsagePercent).
  destruct (Z.ltb_spec maxUsagePercent 45) as [Hlow|Hhigh].
  - cbn. repeat split; try reflexivity; lia.
  - destruct (Z_le_gt_dec (maxUsagePercent * 80) (2 ^ 63 - 1)) as [Hfit|Hover].
    + rewrite wrap_small by lia. rewrite quot_80_100 by lia.
      destruct (Z.ltb_spec (maxUsagePercent * 80) (45 * 100)); cbn;
        repeat split; try reflexivity; lia.
    + destruct (45 >? _); cbn; repeat split; try reflexivity; lia.
Qed.

End ProbeFacts.

(** ** package database: the callers of [Connect], and the migrations *)

Module ConnectMoreFacts.
Import Database Inputs.

(** X26: with [DB_MAX_RETRIES] at zero or below [Connect] never calls the
    connector and never sleeps: it returns at once, without a connection,
    the error that reports [maxRetries] attempts and wraps no cause. *)
Theorem Connect_without_retries {DB Err : Type} (pgconnect_New : nat -> DB + Err)
    (maxRetries retryDelay : Z) (fuel : nat) :
  maxRetries <= 0 ->
  (1 <= fuel)%nat ->
  Connect pgconnect_New maxRetries retryDelay fuel
  = Returned None (Some (mkConnectError maxRetries None)) [].
Proof.
  intros Hmax Hfuel. destruct fuel as [|fuel]; [lia|].
  unfold Connect. cbn [run]. unfold step. cbn [attempt err trace].
  destruct (Z.leb_spec 1 maxRetries); [lia | reflexivity].
Qed.

Lemma Connect_without_retries_witness :
  -1 <= 0 /\ (1 <= 1)%nat /\
  Connect third_time_lucky (-1) 30 1 = Returned None (Some (mkConnectError (-1) None)) [].
Proof.
  assert (H1 : -1 <= 0) by lia.
  assert (H2 : (1 <= 1)%nat) by lia.
  split; [exact H1|]. split; [exact H2|].
  exact (Connect_without_retries third_time_lucky (-1) 30 1 H1 H2).
Defined.

(** X27: for [1 <= maxRetries < 2^63 - 1] [MustConnect] finishes; it panics
    exactly when each of the [maxRetries] attempts fails, and otherwise
    returns the connection of the first attempt that succeeds. *)
Theorem MustConnect_panics_iff {DB Err : Type} (pgconnect_New : nat -> DB + Err)
    (maxRetries retryDelay : Z) (fuel : nat) :
  1 <= maxRetries < GoInt.int_max ->
  (Z.to_nat maxRetries < fuel)%nat ->
  (MustConnect pgconnect_New maxRetries retryDelay fuel = Panicked <->
   forall j, (j < Z.to_nat maxRetries)%nat -> failed (pgconnect_New j)) /\
  (forall db, MustConnect pgconnect_New maxRetries retryDelay fuel = Connected db ->
     exists k conn,
       db = Some conn /\ (k < Z.to_nat maxRetries)%nat /\ pgconnect_New k = inl conn /\
       forall j, (j < k)%nat -> failed (pgconnect_New j)) /\
  MustConnect pgconnect_New maxRetries retryDelay fuel <> Unfinished.
Proof.
  intros Hrange Hfuel.
  destruct (ConnectFacts.run_from_head pgconnect_New maxRetries retryDelay Hrange
              (Z.to_nat maxRetries) 0 fuel None) as (db & e & k & Hrun & Hout);
    try lia.
  unfold MustConnect, ConnectWithConfig, Connect.
  change (run pgconnect_New maxRetries retryDelay fuel
            {| attempt := 1; calls := 0; err := None; trace := [] |})
    with (run pgconnect_New maxRetries retryDelay fuel
            {| attempt := Z.of_nat 0 + 1; calls := 0; err := None;
               trace := failures 0 retryDelay |}).
  rewrite Hrun. clear Hrun.
  destruct Hout as (Hk1 & Hk2 & Hbefore & Hlast).
  destruct db as [conn|].
  - destruct Hlast as [Hconn ->]. split; [|split].
    + split; [discriminate|]. intros Hall.
      specialize (Hall (k - 1)%nat). rewrite Hconn in Hall. exfalso. apply Hall. lia.
    + intros db [=<-]. exists (k - 1)%nat, conn.
      split; [reflexivity|]. split; [lia|]. split; assumption.
    + discriminate.
  - destruct Hlast as (Hk & cause & Hcause & ->). split; [|split].
    + split; [|reflexivity]. intros _ j Hj.
      destruct (Nat.eq_dec j (k - 1)%nat) as [->|Hne].
      * rewrite Hcause. exact I.
      * apply Hbefore. lia.
    + discriminate.
    + discriminate.
Qed.

Lemma MustConnect_panics_iff_witness :
  1 <= 3 < GoInt.int_max /\ (Z.to_nat 3 < 5)%nat /\
  MustConnect third_time_lucky 3 30 5 <> Unfinished.
Proof.
  assert (H1 : 1 <= 3 < GoInt.int_max) by (unfold GoInt.int_max; lia).
  assert (H2 : (Z.to_nat 3 < 5)%nat) by (cbn; lia).
  split; [exact H1|]. split; [exact H2|].
  apply (MustConnect_panics_iff third_time_lucky 3 30 5 H1 H2).
Defined.

Example MustConnect_examples :
  MustConnect third_time_lucky 3 30 5 = Connected (Some "db") /\
  MustConnect third_time_lucky 2 30 5 = Panicked /\
  MustConnect third_time_lucky 0 30 5 = Panicked.
Proof. repeat split; reflexivity. Qed.

End ConnectMoreFacts.

Module MigrateFacts.
Import Database.

Section Calls.
Context {Model Err : Type}.
Variable db : nat -> option Err.

Lemma perform_calls (calls : list (dbcall Model)) : forall first,
  map fst (perform db first calls) = calls.
Proof using Type.
  induction calls as [|call rest IH]; intros first; [reflexivity|].
  cbn [perform map fst]. rewrite IH. reflexivity.
Qed.

(** X28: [Migrate] on at least one model issues, in this order, a
    [DropTable] for each model when [DropTables] is set, one [AutoMigrate]
    with all the models and, when that succeeded and [CreateIndexes] is
    set, the index statements.  It fails exactly when [AutoMigrate] fails,
    with that error as cause: errors of [DropTable] and of the index
    statements are ignored. *)
Theorem Migrate_calls (options : MigrationOptions) (models : list Model) :
  models <> [] ->
  let drops := if DropTables options then map DropTable models else [] in
  let result := Migrate db options models in
  map fst (snd result)
  = (drops ++ [AutoMigrate models]
     ++ (match db (length drops) with
         | None => if CreateIndexes options then map Exec index_statements else []
         | Some _ => []
         end))%list /\
  (fst result = None <-> db (length drops) = None) /\
  (forall cause, db (length drops) = Some cause ->
     fst result = Some (MigrationFailed cause)).
Proof using Type.
  intros Hmodels. cbn zeta. unfold Migrate.
  destruct models as [|model rest]; [contradiction|].
  set (models := model :: rest).
  set (drops := if DropTables options then map DropTable models else []).
  destruct (db (length drops)) as [cause|] eqn:Hdb; cbn [fst snd].
  - rewrite map_app, perform_calls. cbn [map fst].
    split; [reflexivity|]. split; [split; discriminate|].
    intros cause' [=<-]. reflexivity.
  - rewrite !map_app, !perform_calls. cbn [map fst].
    split; [reflexivity|]. split; [tauto|]. discriminate.
Qed.

Lemma perform_in (calls : list (dbcall Model)) (call : dbcall Model) (flag : bool) :
  forall first, In (call, flag) (perform db first calls) -> In call calls.
Proof using Type.
  intros first Hin. apply (in_map fst) in Hin. rewrite perform_calls in Hin. exact Hin.
Qed.

(** X29: [QuickMigrate] never drops a table, and fails exactly when there
    is no model or its first call, [AutoMigrate], fails.  [UnsafeMigrate]
    drops the table of every model before it migrates, and fails exactly
    when there is no model or [AutoMigrate], the call after the drops,
    fails. *)
Theorem QuickMigrate_never_drops (models : list Model) :
  (forall model flag, ~ In (DropTable model, flag) (snd (QuickMigrate db models))) /\
  (fst (QuickMigrate db models) = None <-> models <> [] /\ db 0%nat = None) /\
  (models = [] ->
   QuickMigrate db models = (Some NoModels, []) /\
   UnsafeMigrate db models = (Some NoModels, [])) /\
  (models <> [] ->
   firstn (length models) (map fst (snd (UnsafeMigrate db models))) = map DropTable models /\
   nth_error (map fst (snd (UnsafeMigrate db models))) (length models)
   = Some (AutoMigrate models)) /\
  (fst (UnsafeMigrate db models) = None <-> models <> [] /\ db (length models) = None).
Proof using Type.
  unfold QuickMigrate, UnsafeMigrate, Migrate, DefaultMigrationOptions.
  cbn [DropTables CreateIndexes].
  destruct models as [|model rest].
  { cbn. repeat split; try tauto; try discriminate; try (intros [? _]; congruence). }
  set (models := model :: rest). rewrite length_map.
  cbn [perform length app].
  split; [|split; [|split; [|split]]].
  - intros m flag Hin.
    destruct (db 0%nat); cbn [snd] in Hin.
    + destruct Hin as [[=]|[]].
    + destruct Hin as [[=]|Hin]. apply perform_in in Hin.
      apply in_map_iff in Hin as (sql & [=] & _).
  - destruct (db 0%nat); cbn [fst]; split; try discriminate; try (intros [_ ?]; discriminate).
    + intros _. split; [discriminate | reflexivity].
    + reflexivity.
  - discriminate.
  - intros _.
    assert (Hlen : length (perform db 0 (map DropTable models)) = length models).
    { rewrite <- (length_map fst), perform_calls, length_map. reflexivity. }
    destruct (db (length models)); cbn [snd]; rewrite !map_app, perform_calls.
    + split.
      * rewrite <- (length_map (@DropTable Model) models) at 1.
        rewrite firstn_app, firstn_all, Nat.sub_diag. cbn [firstn]. apply app_nil_r.
      * rewrite nth_error_app2 by (rewrite length_map; lia).
        rewrite length_map, Nat.sub_diag. reflexivity.
    + split.
      * rewrite <- (length_map (@DropTable Model) models) at 1.
        rewrite firstn_app, firstn_all, Nat.sub_diag. cbn [firstn]. apply app_nil_r.
      * rewrite nth_error_app2 by (rewrite length_map; lia).
        rewrite length_map, Nat.sub_diag. reflexivity.
  - destruct (db (length models)); cbn [fst]; split; try discriminate;
      try (intros [_ ?]; discriminate).
    + intros _. split; [discriminate | reflexivity].
    + reflexivity.
Qed.

End Calls.

Lemma Migrate_calls_witness :
  ["users"; "orders"] <> [] /\
  (fst (Migrate (fun n => if (n =? 1)%nat then Some "locked" else None)
          DefaultMigrationOptions ["users"; "orders"]) = None
   <-> (fun n => if (n =? 1)%nat then Some "locked" else None) 0%nat = None).
Proof.
  assert (H : ["users"; "orders"] <> []) by discriminate.
  split; [exact H|].
  apply (Migrate_calls (fun n => if (n =? 1)%nat then Some "locked" else None)
           DefaultMigrationOptions ["users"; "orders"] H).
Defined.

Example UnsafeMigrate_drop_failure_ignored :
  UnsafeMigrate (fun n => if (n =? 1)%nat then Some "no such table" else None)
    ["users"; "orders"]
  = (None,
     ([(DropTable "users", false); (DropTable "orders", true);
       (AutoMigrate ["users"; "orders"], false)]
      ++ map (fun sql => (Exec sql, false)) index_statements)%list).
Proof. reflexivity. Qed.

End MigrateFacts.

(** ** package config: the Keycloak settings *)

Module KeycloakFacts.
Import Config.

(** X30: [KeycloakConfig.Validate] accepts exactly the configurations with
    a key source ([HasStaticKey] or [HasJWKS]) and positive refresh
    interval and HTTP timeout; [GetJWKSURL] is non-empty exactly when
    [HasJWKS], so an accepted configuration without a static key always
    has a JWKS URL. *)
Theorem Validate_key_source (kc : KeycloakConfig.t) :
  (KeycloakConfig.Validate kc = None <->
   KeycloakConfig.HasStaticKey kc || KeycloakConfig.HasJWKS kc = true /\
   0 < KeycloakConfig.KeyRefreshInterval kc /\ 0 < KeycloakConfig.HTTPTimeout kc) /\
  (KeycloakConfig.GetJWKSURL kc <> "" <-> KeycloakConfig.HasJWKS kc = true) /\
  (KeycloakConfig.Validate kc = None -> KeycloakConfig.HasStaticKey kc = false ->
   KeycloakConfig.GetJWKSURL kc <> "").
Proof.
  assert (Hurl : KeycloakConfig.GetJWKSURL kc <> "" <-> KeycloakConfig.HasJWKS kc = true).
  { unfold KeycloakConfig.GetJWKSURL.
    destruct (KeycloakConfig.HasJWKS kc); cbn [negb].
    - split; [reflexivity|]. intros _.
      apply StringFacts.append_nonempty_r. rewrite StringFacts.append_cons. discriminate.
    - split; [congruence | discriminate]. }
  assert (Hvalid : KeycloakConfig.Validate kc = None <->
            KeycloakConfig.HasStaticKey kc || KeycloakConfig.HasJWKS kc = true /\
            0 < KeycloakConfig.KeyRefreshInterval kc /\ 0 < KeycloakConfig.HTTPTimeout kc).
  { unfold KeycloakConfig.Validate.
    fold (KeycloakConfig.HasStaticKey kc). fold (KeycloakConfig.HasJWKS kc).
    destruct (KeycloakConfig.HasStaticKey kc); destruct (KeycloakConfig.HasJWKS kc);
      cbn [negb andb orb];
      try (split; [discriminate | intros [? _]; discriminate]);
      destruct (Z.leb_spec (KeycloakConfig.KeyRefreshInterval kc) 0);
      try (split; [discriminate | lia]);
      destruct (Z.leb_spec (KeycloakConfig.HTTPTimeout kc) 0);
      try (split; [discriminate | lia]);
      (split; [intros _; repeat split; lia | reflexivity]). }
  split; [exact Hvalid|]. split; [exact Hurl|].
  intros Hok Hstatic. apply Hurl. apply Hvalid in Hok as [Hsource _].
  rewrite Hstatic in Hsource. exact Hsource.
Qed.

Example GetJWKSURL_example :
  KeycloakConfig.GetJWKSURL
    {| KeycloakConfig.URL := "https://sso.example"; KeycloakConfig.Realm := "main";
       KeycloakConfig.PublicKeyBase64 := ""; KeycloakConfig.RequiredClaims := [];
       KeycloakConfig.SkipPaths := []; KeycloakConfig.KeyRefreshInterval := 1;
       KeycloakConfig.HTTPTimeout := 1 |}
  = "https://sso.example/realms/main/protocol/openid-connect/certs".
Proof. vm_compute. reflexivity. Qed.

End KeycloakFacts.
